(** * Gistify summarizer: a shallow embedding of [summarize.py]

    The development follows the layout of the script: Python string
    helpers, JSON values, the effect monad of the script (clock, rate-limit
    log, standard streams, exits and uncaught exceptions), then the rate
    limiter, the proxy pool, URL rewriting, content extraction, the API call
    and [main].

    Conventions.
    - A Python [str] is a [string]; a character is a code point below 256.
    - [time.time()] and every timestamp is a rational number of seconds
      ([Q]); rounding of binary floating point is not modelled.
    - The clock advances only through [time.sleep].
    - [sys.exit(n)] is the result [Exit n]; an exception nobody catches is
      [Raise e]; both abort the remainder of the run. *)

From Stdlib Require Import List String Ascii Bool Arith ZArith QArith Lia Lqa.
From Stdlib Require Import Sorted.
Import ListNotations.

Set Warnings "-register-all".

Close Scope Q_scope.
Close Scope Z_scope.
Local Open Scope string_scope.

(* ------------------------------------------------------------------ *)
(** ** Python helpers *)

Module Py.

Definition nl : string := String (ascii_of_nat 10) EmptyString.

(** [str.isspace] on the code points below 256. *)
Definition isspace (c : ascii) : bool :=
  let n := nat_of_ascii c in
  (((9 <=? n) && (n <=? 13)) || ((28 <=? n) && (n <=? 32))
   || (n =? 133) || (n =? 160))%nat.

Fixpoint lstrip_with (p : ascii -> bool) (s : string) : string :=
  match s with
  | EmptyString => EmptyString
  | String c s' => if p c then lstrip_with p s' else s
  end.

Fixpoint rstrip_with (p : ascii -> bool) (s : string) : string :=
  match s with
  | EmptyString => EmptyString
  | String c s' =>
      match rstrip_with p s' with
      | EmptyString => if p c then EmptyString else String c EmptyString
      | r => String c r
      end
  end.

Definition strip_with (p : ascii -> bool) (s : string) : string :=
  rstrip_with p (lstrip_with p s).

(** [s.strip()] *)
Definition strip (s : string) : string := strip_with isspace s.

(** [s.strip("-")] *)
Definition strip_chars (cs : string) (s : string) : string :=
  strip_with (fun c => existsb (Ascii.eqb c) (list_ascii_of_string cs)) s.

Definition lower_char (c : ascii) : ascii :=
  let n := nat_of_ascii c in
  if ((65 <=? n) && (n <=? 90))%nat then ascii_of_nat (n + 32) else c.

(** [s.lower()]; only the ASCII letters change case below code point 192,
    which is all the callers in the script depend on. *)
Fixpoint lower (s : string) : string :=
  match s with
  | EmptyString => EmptyString
  | String c s' => String (lower_char c) (lower s')
  end.

(** [s.startswith(p)] *)
Definition startswith (s p : string) : bool := String.prefix p s.

(** [needle in hay] *)
Fixpoint contains (needle hay : string) : bool :=
  String.prefix needle hay
  || match hay with
     | EmptyString => false
     | String _ hay' => contains needle hay'
     end.

(** [s[:n]] *)
Definition take (n : nat) (s : string) : string := String.substring 0 n s.

(** truthiness of a [str] *)
Definition str_truthy (s : string) : bool :=
  match s with EmptyString => false | _ => true end.

Definition Qltb (x y : Q) : bool := negb (Qle_bool y x).

(** [max(x :: xs)] and [min(x :: xs)]: the first extremal element. *)
Definition max_from (x : Q) (xs : list Q) : Q :=
  fold_left (fun m y => if Qltb m y then y else m) xs x.

Definition min_from (x : Q) (xs : list Q) : Q :=
  fold_left (fun m y => if Qltb y m then y else m) xs x.

End Py.

(* ------------------------------------------------------------------ *)
(** ** JSON values, as [json.loads] returns them *)

Module Json.

(** [JNull] is Python's [None]; a [JObj] is the parsed [dict], looked up
    by its first binding of a key. *)
Inductive json : Type :=
| JNull
| JBool (b : bool)
| JNum (q : Q)
| JStr (s : string)
| JArr (l : list json)
| JObj (kv : list (string * json)).

(** Python truthiness: [not v] is [negb (truthy v)]. *)
Definition truthy (v : json) : bool :=
  match v with
  | JNull => false
  | JBool b => b
  | JNum q => negb (Qeq_bool q 0%Q)
  | JStr s => Py.str_truthy s
  | JArr l => match l with [] => false | _ => true end
  | JObj kv => match kv with [] => false | _ => true end
  end.

Fixpoint assoc (k : string) (kv : list (string * json)) : option json :=
  match kv with
  | [] => None
  | (k', v) :: rest => if String.eqb k k' then Some v else assoc k rest
  end.

(** [d.get(k, default)] on a dict. *)
Definition dict_get (kv : list (string * json)) (k : string) (default : json) : json :=
  match assoc k kv with Some v => v | None => default end.

End Json.

Import Json.

(* ------------------------------------------------------------------ *)
(** ** Effects *)

(** What the script prints, one constructor per [print] site. *)
Inductive message : Type :=
| MsgRateWait (wait : Q)
| MsgRateLimitReached (limit : nat) (retry_after : Q)
| MsgCloudflare
| MsgDownloadingPdf (url : string)
| MsgDownloadFailed (status : Z)
| MsgExtractingUrl (url : string)
| MsgLowContentPage
| MsgFileNotFound (path : string)
| MsgFileTooLarge
| MsgExtractingPdf (path : string)
| MsgLowContentPdf
| MsgRequesting
| MsgDebugStatus (status : Z)
| MsgDebugJson (j : json)
| MsgDebugText (t : string)
| MsgApiRateLimited
| MsgApiError (status : Z) (t : string)
| MsgNoSummary
| MsgUsageError
| MsgSaved (path : string).

Inductive event : Type :=
| EvStdout (m : message)
| EvStderr (m : message)
| EvSleep (d : Q)
| EvWriteRateLimit (ts : list Q)
| EvFsExists (path : string)
| EvFsStat (path : string)
| EvPdfExtract (path : string)
| EvHttpGet (url : string) (proxies : json)
| EvTmpWrite
| EvTmpExtract
| EvTmpUnlink
| EvBrowserLaunch (proxy : json)
| EvBrowserGoto (url : string)
| EvBrowserPoll (n : nat)
| EvBrowserEvaluate
| EvBrowserClose
| EvHttpPost (text : json) (proxies : json)
| EvMkdir (path : string)
| EvWriteOutput (path : string) (content : string).

Inductive exn : Type :=
| AttributeError
| TypeError
| KeyError
| ValueError
| IndexError
| UnicodeDecodeError
| RequestException
| PlaywrightError
| PdfError.

Inductive result (A : Type) : Type :=
| Ret (a : A)
| Exit (code : Z)
| Raise (e : exn).

Arguments Ret {A} a.
Arguments Exit {A} code.
Arguments Raise {A} e.

(** The exit status the operating system sees. *)
Definition exit_status {A} (r : result A) : Z :=
  match r with
  | Ret _ => 0%Z
  | Exit c => c
  | Raise _ => 1%Z
  end.

(** The rate-limit log [.rate_limit_log]: absent, present but not readable
    as JSON ([JSONDecodeError] or [OSError]), or the JSON array of
    timestamps that [record_request] writes. *)
Inductive rate_limit_file : Type :=
| RLAbsent
| RLCorrupt
| RLData (ts : list Q).

(** The proxy configuration [~/.scholar-proxies.json], by the outcome of
    [json.loads(config_path.read_text())].  The first three outcomes are
    the exceptions that [_load_proxy_config] catches; a file whose bytes
    are not text in the expected encoding makes [read_text] raise
    [UnicodeDecodeError], a [ValueError] that the [except] clause does not
    list. *)
Inductive config_source : Type :=
| CfgMissing               (* FileNotFoundError *)
| CfgUnreadable            (* OSError *)
| CfgMalformed             (* json.JSONDecodeError *)
| CfgUndecodable           (* UnicodeDecodeError, not caught *)
| CfgParsed (j : json).

Record response : Type := {
  status_code : Z;
  resp_text : string;
  (** [resp.json()]; [None] when the body is not JSON and the call raises *)
  resp_json : option json;
  (** what [extract_text] yields on the body saved as a PDF; [None] when
      pdfminer raises *)
  resp_pdf_text : option string
}.

(** [Response.ok]: [raise_for_status] raises for 400 <= status < 600. *)
Definition ok (r : response) : bool :=
  negb ((400 <=? status_code r)%Z && (status_code r <? 600)%Z).

Record page : Type := {
  (** [page.title()] and [page.text_content("body")] at the n-th poll *)
  polls : nat -> string * option string;
  (** [document.title || null] *)
  doc_title : option string;
  (** [document.body.innerText] *)
  inner_text : option string
}.

(** Everything outside the process that the script only reads. *)
Record env : Type := {
  proxy_source : config_source;
  (** the raw value of the n-th draw of [random] *)
  random_draw : nat -> nat;
  expanduser : string -> string;
  resolve : string -> string;
  path_name : string -> string;
  (** [st_size] of an existing path, [None] when it does not exist *)
  fs_size : string -> option Z;
  (** [extract_text] on a local path; [None] when pdfminer raises *)
  local_pdf_text : string -> option string;
  (** [requests.get]; [None] when the request raises *)
  http_get : string -> json -> option response;
  (** [requests.post] to the Gistify endpoint *)
  http_post : json -> json -> option response;
  (** [page.goto]; [None] when navigation raises *)
  browser_goto : string -> json -> option page;
  today : string;
  script_dir : string;
  path_parent : string -> string
}.

(** What the run can change. *)
Record state : Type := {
  clock : Q;
  rl_file : rate_limit_file;
  (** the module-level [_PROXY_FORCE] *)
  proxy_force : option bool;
  draws : nat
}.

Definition M (A : Type) : Type := state -> result A * state * list event.

Definition ret {A} (a : A) : M A := fun s => (Ret a, s, []).

Definition bind {A B} (m : M A) (f : A -> M B) : M B :=
  fun s =>
    match m s with
    | (Ret a, s1, e1) =>
        match f a s1 with
        | (r, s2, e2) => (r, s2, (e1 ++ e2)%list)
        end
    | (Exit c, s1, e1) => (Exit c, s1, e1)
    | (Raise x, s1, e1) => (Raise x, s1, e1)
    end.

Declare Scope py_scope.
Delimit Scope py_scope with py.

Notation "x <- c1 ;; c2" := (bind c1 (fun x => c2))
  (at level 61, c1 at next level, right associativity) : py_scope.
Notation "c1 ;; c2" := (bind c1 (fun _ => c2))
  (at level 61, right associativity) : py_scope.

Local Open Scope py_scope.

Definition sys_exit {A} (code : Z) : M A := fun s => (Exit code, s, []).
Definition raise {A} (e : exn) : M A := fun s => (Raise e, s, []).
Definition emit (e : event) : M unit := fun s => (Ret tt, s, [e]).
Definition print (m : message) : M unit := emit (EvStdout m).
Definition eprint (m : message) : M unit := emit (EvStderr m).
Definition get_state : M state := fun s => (Ret s, s, []).

(** [time.time()] *)
Definition time_time : M Q := fun s => (Ret (clock s), s, []).

(** [time.sleep(d)] *)
Definition time_sleep (d : Q) : M unit :=
  fun s =>
    (Ret tt,
     {| clock := (clock s + d)%Q; rl_file := rl_file s;
        proxy_force := proxy_force s; draws := draws s |},
     [EvSleep d]).

(** Projections of a run. *)
Definition res_of {A} (o : result A * state * list event) : result A := fst (fst o).
Definition state_of {A} (o : result A * state * list event) : state := snd (fst o).
Definition events_of {A} (o : result A * state * list event) : list event := snd o.

(* ------------------------------------------------------------------ *)
(** ** Rate limiting *)

Definition MIN_INTERVAL_SECONDS : Q := 5%Q.
Definition MAX_REQUESTS_PER_HOUR : nat := 10.

(** [timestamps = []; if RATE_LIMIT_FILE.exists(): try: json.loads(...)
    except (json.JSONDecodeError, OSError): timestamps = []] *)
Definition load_timestamps : M (list Q) :=
  fun s =>
    (Ret match rl_file s with
         | RLAbsent => []
         | RLCorrupt => []
         | RLData ts => ts
         end, s, []).

(** [[ts for ts in timestamps if now - ts < window]] *)
Definition prune (now window : Q) (timestamps : list Q) : list Q :=
  filter (fun ts => Py.Qltb (now - ts)%Q window) timestamps.

(** [RATE_LIMIT_FILE.write_text(json.dumps(timestamps))] *)
Definition write_timestamps (ts : list Q) : M unit :=
  fun s =>
    (Ret tt,
     {| clock := clock s; rl_file := RLData ts;
        proxy_force := proxy_force s; draws := draws s |},
     [EvWriteRateLimit ts]).

Definition check_rate_limit : M unit :=
  now <- time_time ;;
  let window : Q := 3600%Q in
  timestamps <- load_timestamps ;;
  (* Prune old entries *)
  let timestamps := prune now window timestamps in
  (* Check min interval *)
  (match timestamps with
   | [] => ret tt
   | t :: rest =>
       let elapsed := (now - Py.max_from t rest)%Q in
       if Py.Qltb elapsed MIN_INTERVAL_SECONDS then
         let wait := (MIN_INTERVAL_SECONDS - elapsed)%Q in
         print (MsgRateWait wait) ;;
         time_sleep wait
       else ret tt
   end) ;;
  (* Check max per window *)
  if (MAX_REQUESTS_PER_HOUR <=? List.length timestamps)%nat then
    match timestamps with
    | [] => raise ValueError
    | t :: rest =>
        let oldest := Py.min_from t rest in
        let retry_after := (window - (now - oldest))%Q in
        eprint (MsgRateLimitReached MAX_REQUESTS_PER_HOUR retry_after) ;;
        sys_exit 1%Z
    end
  else ret tt.

Definition record_request : M unit :=
  now <- time_time ;;
  let window : Q := 3600%Q in
  timestamps <- load_timestamps ;;
  let timestamps := prune now window timestamps in
  let timestamps := (timestamps ++ [now])%list in
  write_timestamps timestamps.

(* ------------------------------------------------------------------ *)
(** ** Regular expressions: the fragment of [re] the script uses *)

Module Regex.

Inductive atom : Type :=
| AChar (c : ascii)
| AAny.                      (* [.]: any character but a newline *)

Definition newline : ascii := ascii_of_nat 10.

Definition atom_matches (a : atom) (c : ascii) : bool :=
  match a with
  | AChar d => Ascii.eqb c d
  | AAny => negb (Ascii.eqb c newline)
  end.

Inductive re : Type :=
| Lit (l : string)           (* literal characters, escapes resolved *)
| Opt (r : re)               (* [r?], greedy *)
| Star (a : atom)            (* [a*], greedy *)
| PlusLazy (a : atom)        (* [a+?] *)
| Group (r : re)             (* [(r)], the capturing group 1 *)
| Seq (r1 r2 : re)
| Eol.                       (* [$] *)

Fixpoint strip_prefix (l s : string) : option string :=
  match l with
  | EmptyString => Some s
  | String c l' =>
      match s with
      | EmptyString => None
      | String d s' => if Ascii.eqb c d then strip_prefix l' s' else None
      end
  end.

(** [$] holds at the end of the string and just before a final newline. *)
Definition at_end (s : string) : bool :=
  match s with
  | EmptyString => true
  | String c EmptyString => Ascii.eqb c newline
  | _ => false
  end.

(** The part of [s] read so far when [s'] is what remains. *)
Definition consumed (s s' : string) : string :=
  String.substring 0 (String.length s - String.length s') s.

Section Backtracking.
Context {R : Type}.

(** Greedy: the longest run is tried first. *)
Fixpoint star (a : atom) (s : string) (k : string -> option R) : option R :=
  match s with
  | String c s' =>
      if atom_matches a c then
        match star a s' k with
        | Some r => Some r
        | None => k s
        end
      else k s
  | EmptyString => k s
  end.

(** Lazy: the shortest run of at least one character is tried first. *)
Fixpoint plus_lazy (a : atom) (s : string) (k : string -> option R) : option R :=
  match s with
  | String c s' =>
      if atom_matches a c then
        match k s' with
        | Some r => Some r
        | None => plus_lazy a s' k
        end
      else None
  | EmptyString => None
  end.
End Backtracking.

(** A match carries the text of group 1, when the group took part. *)
Definition groups : Type := option string.

Fixpoint run (r : re) (s : string) (g : groups)
         (k : string -> groups -> option groups) : option groups :=
  match r with
  | Lit l =>
      match strip_prefix l s with
      | Some s' => k s' g
      | None => None
      end
  | Opt r' =>
      match run r' s g k with
      | Some m => Some m
      | None => k s g
      end
  | Star a => star a s (fun s' => k s' g)
  | PlusLazy a => plus_lazy a s (fun s' => k s' g)
  | Group r' => run r' s g (fun s' _ => k s' (Some (consumed s s')))
  | Seq r1 r2 => run r1 s g (fun s' g' => run r2 s' g' k)
  | Eol => if at_end s then k s g else None
  end.

(** [re.match(pattern, s)]: anchored at the start, first match in
    backtracking order. *)
Definition re_match (r : re) (s : string) : option groups :=
  run r s None (fun _ g => Some g).

(** [m.group(1)] inside an f-string. *)
Definition format_group (g : groups) : string :=
  match g with
  | Some t => t
  | None => "None"
  end.

End Regex.

(** What both patterns end with: the lazy group [(.+?)], an optional
    non-capturing query part (a question mark and the rest of the line),
    and [$]. *)
Definition arxiv_tail : Regex.re :=
  Regex.Seq (Regex.Group (Regex.PlusLazy Regex.AAny))
  (Regex.Seq (Regex.Opt (Regex.Seq (Regex.Lit "?") (Regex.Star Regex.AAny)))
   Regex.Eol).

(** The pattern of the first [_re.match]: [https?://arxiv\.org/abs/]
    followed by the common ending. *)
Definition arxiv_abs_pattern : Regex.re :=
  Regex.Seq (Regex.Lit "http") (Regex.Seq (Regex.Opt (Regex.Lit "s"))
  (Regex.Seq (Regex.Lit "://arxiv.org/abs/") arxiv_tail)).

(** The pattern of the second [_re.match]: the same with [html] for [abs]. *)
Definition arxiv_html_pattern : Regex.re :=
  Regex.Seq (Regex.Lit "http") (Regex.Seq (Regex.Opt (Regex.Lit "s"))
  (Regex.Seq (Regex.Lit "://arxiv.org/html/") arxiv_tail)).

Definition _rewrite_to_pdf_url (url : string) : option string :=
  match Regex.re_match arxiv_abs_pattern url with
  | Some m => Some ("https://arxiv.org/pdf/" ++ Regex.format_group m)
  | None =>
      match Regex.re_match arxiv_html_pattern url with
      | Some m => Some ("https://arxiv.org/pdf/" ++ Regex.format_group m)
      | None => None
      end
  end.

(* ------------------------------------------------------------------ *)
(** ** The script against its environment *)

Record args : Type := {
  input : option string;
  output : option string;
  debug : bool;
  use_proxy : option bool
}.

Definition opt_str_truthy (o : option string) : bool :=
  match o with
  | Some t => Py.str_truthy t
  | None => false
  end.

(** [re.sub(r"[^a-z0-9]+", "-", slug)]: every maximal run of characters
    outside [a-z0-9] becomes one dash. *)
Definition slug_char (c : ascii) : bool :=
  let n := nat_of_ascii c in
  (((97 <=? n) && (n <=? 122)) || ((48 <=? n) && (n <=? 57)))%nat.

Fixpoint dash_runs (in_run : bool) (s : string) : string :=
  match s with
  | EmptyString => EmptyString
  | String c s' =>
      if slug_char c then String c (dash_runs false s')
      else if in_run then dash_runs true s'
      else String "-"%char (dash_runs true s')
  end.

Definition slugify (text : string) : string :=
  let slug := Py.lower text in
  let slug := dash_runs false slug in
  let slug := Py.strip_chars "-" slug in
  if Py.str_truthy slug then Py.take 80 slug else "summary".

(** [not text or len(text) < 50] *)
Definition page_low_content (text : option string) : bool :=
  match text with
  | None => true
  | Some t => negb (Py.str_truthy t) || (String.length t <? 50)%nat
  end.

(** [not text or len(text.strip()) < 50] *)
Definition pdf_low_content (text : string) : bool :=
  negb (Py.str_truthy text) || (String.length (Py.strip text) <? 50)%nat.

Section Script.

Variable E : env.

(* ---------------------------------------------------------------- *)
(** *** Proxy rotation *)

Definition _load_proxy_config : M json :=
  match proxy_source E with
  | CfgParsed j => ret j
  | CfgMissing | CfgUnreadable | CfgMalformed =>
      ret (JObj [("enabled", JBool false); ("proxies", JArr [])])
  | CfgUndecodable => raise UnicodeDecodeError
  end.

(** [v.get(k, default)]: only a dict has [get]. *)
Definition py_get (v : json) (k : string) (default : json) : M json :=
  match v with
  | JObj kv => ret (dict_get kv k default)
  | _ => raise AttributeError
  end.

(** [random._randbelow(n)] for [n > 0]. *)
Definition randbelow (n : nat) : M nat :=
  fun s =>
    (Ret (random_draw E (draws s) mod n),
     {| clock := clock s; rl_file := rl_file s;
        proxy_force := proxy_force s; draws := S (draws s) |},
     []).

(** [random.choice(seq)] on a truthy, hence non-empty, [seq]:
    [seq[randbelow(len(seq))]]. *)
Definition random_choice (seq : json) : M json :=
  match seq with
  | JArr l =>
      i <- randbelow (List.length l) ;;
      match nth_error l i with
      | Some v => ret v
      | None => raise IndexError
      end
  | JStr t =>
      i <- randbelow (String.length t) ;;
      match String.get i t with
      | Some c => ret (JStr (String c EmptyString))
      | None => raise IndexError
      end
  | JObj kv => _ <- randbelow (List.length kv) ;; raise KeyError
  | JNull | JBool _ | JNum _ => raise TypeError
  end.

Definition _get_proxy_url : M json :=
  config <- _load_proxy_config ;;
  s <- get_state ;;
  enabled <- match proxy_force s with
             | Some b => ret (JBool b)
             | None => py_get config "enabled" (JBool false)
             end ;;
  if negb (truthy enabled) then ret JNull
  else
    proxies <- py_get config "proxies" (JArr []) ;;
    if negb (truthy proxies) then ret JNull
    else random_choice proxies.

Definition _get_proxy : M json :=
  url <- _get_proxy_url ;;
  if negb (truthy url) then ret JNull
  else ret (JObj [("http", url); ("https", url)]).

(* ---------------------------------------------------------------- *)
(** *** Stealth browser *)

(** Returns the proxy the browser was launched with; the browser, context
    and page handles are the environment's. *)
Definition _launch_browser : M json :=
  proxy_url <- _get_proxy_url ;;
  let proxy := if truthy proxy_url then JObj [("server", proxy_url)] else JNull in
  emit (EvBrowserLaunch proxy) ;;
  ret proxy.

(** The [while] loop of [_wait_for_cloudflare]; [n] counts the polls made
    so far.  Every turn that continues sleeps two seconds, so [fuel] turns
    are never used up before the time test fails when
    [timeout < 2 * fuel]. *)
Fixpoint cloudflare_loop (fuel : nat) (pg : page) (start timeout : Q) (n : nat)
  : M unit :=
  match fuel with
  | O => ret tt
  | S fuel' =>
      now <- time_time ;;
      if Py.Qltb (now - start)%Q timeout then
        emit (EvBrowserPoll n) ;;
        let title := Py.lower (fst (polls pg n)) in
        let body_text := match snd (polls pg n) with
                         | Some b => b
                         | None => ""
                         end in
        if Py.contains "just a moment" title
           || Py.contains "checking your browser" (Py.lower body_text)
        then
          print MsgCloudflare ;;
          time_sleep 2%Q ;;
          cloudflare_loop fuel' pg start timeout (S n)
        else ret tt
      else ret tt
  end.

Definition _wait_for_cloudflare (pg : page) (timeout_seconds : Z) : M unit :=
  start <- time_time ;;
  cloudflare_loop (S (Z.to_nat (timeout_seconds / 2))) pg start
                  (inject_Z timeout_seconds) 0.

(* ---------------------------------------------------------------- *)
(** *** Content extraction *)

Definition _download_pdf_text (url : string) : M (option string * option string) :=
  print (MsgDownloadingPdf url) ;;
  proxies <- _get_proxy ;;
  emit (EvHttpGet url proxies) ;;
  match http_get E url proxies with
  | None => raise RequestException
  | Some resp =>
      if negb (ok resp) then
        eprint (MsgDownloadFailed (status_code resp)) ;;
        sys_exit 1%Z
      else
        emit EvTmpWrite ;;
        emit EvTmpExtract ;;
        match resp_pdf_text resp with
        | None => emit EvTmpUnlink ;; raise PdfError
        | Some text =>
            emit EvTmpUnlink ;;
            ret (Some (Py.strip text), None)
        end
  end.

Definition _extract_text_from_url (url : string) : M (option string * option string) :=
  (* Check if this is an academic landing page with a known PDF URL *)
  let pdf_url := _rewrite_to_pdf_url url in
  if opt_str_truthy pdf_url then
    _download_pdf_text (match pdf_url with Some u => u | None => "" end)
  else
    print (MsgExtractingUrl url) ;;
    proxy <- _launch_browser ;;
    emit (EvBrowserGoto url) ;;
    match browser_goto E url proxy with
    | None => raise PlaywrightError
    | Some pg =>
        _wait_for_cloudflare pg 30 ;;
        (* Grab the page <title> for fallback *)
        emit EvBrowserEvaluate ;;
        let page_title := doc_title pg in
        (* Extract text: document.body.innerText *)
        emit EvBrowserEvaluate ;;
        let text := inner_text pg in
        emit EvBrowserClose ;;
        (if page_low_content text then eprint MsgLowContentPage else ret tt) ;;
        ret (text, page_title)
    end.

Definition _extract_text_from_pdf (pdf_path : string) : M string :=
  let pdf_file := resolve E pdf_path in
  emit (EvFsExists pdf_file) ;;
  match fs_size E pdf_file with
  | None =>
      eprint (MsgFileNotFound pdf_file) ;;
      sys_exit 1%Z
  | Some st_size =>
      emit (EvFsStat pdf_file) ;;
      if (50 * 1024 * 1024 <? st_size)%Z then
        eprint MsgFileTooLarge ;;
        sys_exit 1%Z
      else
        print (MsgExtractingPdf (path_name E pdf_file)) ;;
        emit (EvPdfExtract pdf_file) ;;
        match local_pdf_text E pdf_file with
        | None => raise PdfError
        | Some text =>
            (if pdf_low_content text then eprint MsgLowContentPdf else ret tt) ;;
            ret (Py.strip text)
        end
  end.

(* ---------------------------------------------------------------- *)
(** *** Gistify API call *)

Definition summarize_content (content : option string) (debug : bool) : M json :=
  print MsgRequesting ;;
  proxies <- _get_proxy ;;
  let payload := match content with Some t => JStr t | None => JNull end in
  emit (EvHttpPost payload proxies) ;;
  match http_post E payload proxies with
  | None => raise RequestException
  | Some resp =>
      (if debug then
         print (MsgDebugStatus (status_code resp)) ;;
         match resp_json resp with
         | Some j => print (MsgDebugJson j)
         | None => print (MsgDebugText (Py.take 1000 (resp_text resp)))
         end
       else ret tt) ;;
      if (status_code resp =? 429)%Z then
        eprint MsgApiRateLimited ;;
        sys_exit 1%Z
      else if negb (ok resp) then
        eprint (MsgApiError (status_code resp) (Py.take 500 (resp_text resp))) ;;
        sys_exit 1%Z
      else
        match resp_json resp with
        | None => raise ValueError
        | Some data =>
            summary <- py_get data "summary" (JStr "") ;;
            if negb (truthy summary) then
              eprint MsgNoSummary ;;
              (if debug then print (MsgDebugJson data) else ret tt) ;;
              sys_exit 1%Z
            else ret summary
        end
  end.

(* ---------------------------------------------------------------- *)
(** *** Markdown conversion and helpers *)

Definition to_markdown (summary : json) (url : string) (page_title : option string)
  : M string :=
  let title := if opt_str_truthy page_title
               then match page_title with Some t => t | None => "" end
               else "Untitled Article" in
  match summary with
  | JStr sm =>
      ret (String.concat Py.nl
             [ "# " ++ title; "";
               "**Source:** " ++ url; "";
               "---"; "";
               "## Summary"; "";
               Py.strip sm; "";
               "---";
               "*Generated by Gistify on " ++ today E ++ "*" ])
  | _ => raise AttributeError
  end.

Definition _is_local_file (input_str : string) : M bool :=
  if Py.startswith input_str "http://" || Py.startswith input_str "https://"
  then ret false
  else
    let p := expanduser E input_str in
    emit (EvFsExists p) ;;
    ret match fs_size E p with
        | Some _ => true
        | None => false
        end.

(* ---------------------------------------------------------------- *)
(** *** Main *)

Definition set_proxy_force (v : option bool) : M unit :=
  fun s =>
    (Ret tt,
     {| clock := clock s; rl_file := rl_file s;
        proxy_force := v; draws := draws s |},
     []).

Definition main (a : args) : M unit :=
  set_proxy_force (use_proxy a) ;;
  if negb (opt_str_truthy (input a)) then
    eprint MsgUsageError ;;
    sys_exit 2%Z
  else
    let inp := match input a with Some i => i | None => "" end in
    check_rate_limit ;;
    (* Extract content *)
    is_local <- _is_local_file inp ;;
    acquired <-
      (if is_local : bool then
         content <- _extract_text_from_pdf inp ;;
         ret (Some content, None, "file://" ++ resolve E inp)
       else
         ctp <- _extract_text_from_url inp ;;
         ret (fst ctp, snd ctp, inp)) ;;
    let content := fst (fst acquired) in
    let page_title := snd (fst acquired) in
    let url := snd acquired in
    (* Call Gistify API *)
    summary <- summarize_content content (debug a) ;;
    record_request ;;
    (* Convert to Markdown *)
    md <- to_markdown summary url page_title ;;
    (* Write output *)
    out_path <-
      (if opt_str_truthy (output a) then
         ret match output a with Some o => o | None => "" end
       else
         let output_dir := script_dir E ++ "/output" in
         emit (EvMkdir output_dir) ;;
         let slug := slugify (if opt_str_truthy page_title
                              then match page_title with Some t => t | None => "" end
                              else "summary") in
         ret (output_dir ++ "/" ++ slug ++ ".md")) ;;
    emit (EvMkdir (path_parent E out_path)) ;;
    emit (EvWriteOutput out_path md) ;;
    print (MsgSaved out_path).

End Script.

(* ------------------------------------------------------------------ *)
(** ** Vocabulary of the properties *)

(** The timestamps a call reads from the log. *)
Definition history (s : state) : list Q :=
  match rl_file s with
  | RLData ts => ts
  | RLAbsent | RLCorrupt => []
  end.

(** An entry has left the rolling window: its age is 3600 seconds or more. *)
Definition aged_out (now ts : Q) : Prop := (3600 <= now - ts)%Q.

(** An entry is strictly older than the window. *)
Definition strictly_older (now ts : Q) : Prop := (3600 < now - ts)%Q.

(** [removes_exactly drop l l']: [l'] is [l] without the entries that
    satisfy [drop], every other entry kept, in the order of [l]. *)
Inductive removes_exactly (drop : Q -> Prop) : list Q -> list Q -> Prop :=
| re_nil : removes_exactly drop [] []
| re_keep x l l' :
    ~ drop x -> removes_exactly drop l l' -> removes_exactly drop (x :: l) (x :: l')
| re_drop x l l' :
    drop x -> removes_exactly drop l l' -> removes_exactly drop (x :: l) l'.

Definition is_sleep (e : event) : bool :=
  match e with EvSleep _ => true | _ => false end.

Definition is_rate_limit_write (e : event) : bool :=
  match e with EvWriteRateLimit _ => true | _ => false end.

Definition is_browser_event (e : event) : bool :=
  match e with
  | EvBrowserLaunch _ | EvBrowserGoto _ | EvBrowserPoll _
  | EvBrowserEvaluate | EvBrowserClose => true
  | _ => false
  end.

Definition is_download_event (e : event) : bool :=
  match e with
  | EvHttpGet _ _ | EvTmpWrite | EvTmpExtract | EvTmpUnlink => true
  | _ => false
  end.

Definition is_low_content_warning (e : event) : bool :=
  match e with
  | EvStderr MsgLowContentPage | EvStderr MsgLowContentPdf => true
  | _ => false
  end.

(** A state whose log holds ten requests made one second ago. *)
Definition busy_state : state :=
  {| clock := 100%Q;
     rl_file := RLData (repeat 99%Q 10);
     proxy_force := None;
     draws := 0 |}.

(** A state whose log holds one request made exactly 3600 seconds ago. *)
Definition boundary_state : state :=
  {| clock := 3600%Q;
     rl_file := RLData [0%Q];
     proxy_force := None;
     draws := 0 |}.

(** A state whose log holds three requests, the last one two seconds ago. *)
Definition quiet_state : state :=
  {| clock := 5000%Q;
     rl_file := RLData [1000%Q; 4000%Q; 4998%Q];
     proxy_force := None;
     draws := 0 |}.

(** The state after sleeping [d] seconds. *)
Definition slept (s : state) (d : Q) : state :=
  {| clock := (clock s + d)%Q; rl_file := rl_file s;
     proxy_force := proxy_force s; draws := draws s |}.

Definition is_post (e : event) : bool :=
  match e with EvHttpPost _ _ => true | _ => false end.

(** A computation that emits no event satisfying [p], from any state. *)
Definition quiet (p : event -> bool) {A} (m : M A) : Prop :=
  forall s, existsb p (events_of (m s)) = false.

(** An outcome reached from [s] that left the rate-limit log alone and, if
    it is an exit, exits with a non-zero status. *)
Definition benign {A} (s : state) (o : result A * state * list event) : Prop :=
  rl_file (state_of o) = rl_file s
  /\ existsb is_rate_limit_write (events_of o) = false
  /\ forall c, res_of o = Exit c -> c <> 0%Z.

Definition frames {A} (m : M A) : Prop := forall s, benign s (m s).

(** A benign outcome that did not return. *)
Definition aborted {A} (s : state) (o : result A * state * list event) : Prop :=
  benign s o /\ forall a, res_of o <> Ret a.

(** The answers of the summarization service the script gives up on: HTTP
    429, any other status that is not a success, or a success whose summary
    is empty or missing. *)
Definition service_failure (r : response) : Prop :=
  status_code r = 429%Z
  \/ ok r = false
  \/ exists kv, resp_json r = Some (JObj kv)
                /\ truthy (dict_get kv "summary" (JStr "")) = false.

Definition service_success (r : response) : Prop :=
  status_code r <> 429%Z
  /\ ok r = true
  /\ exists kv, resp_json r = Some (JObj kv)
                /\ truthy (dict_get kv "summary" (JStr "")) = true.

(** An outcome in which the log was written once, after a request the
    service answered with a summary. *)
Definition recorded (E : env) {A} (o : result A * state * list event) : Prop :=
  exists e1 ts e3 payload proxies resp,
    events_of o = (e1 ++ EvWriteRateLimit ts :: e3)%list
    /\ In (EvHttpPost payload proxies) e1
    /\ http_post E payload proxies = Some resp
    /\ service_success resp
    /\ existsb is_rate_limit_write e1 = false
    /\ existsb is_rate_limit_write e3 = false
    /\ forall payload' proxies',
        In (EvHttpPost payload' proxies') (events_of o) ->
        exists resp', http_post E payload' proxies' = Some resp'
                      /\ service_success resp'.

(** *** Sample environments *)

Definition sample_page (text : string) : page :=
  {| polls := fun _ => ("Example Domain", Some text);
     doc_title := Some "Example Domain";
     inner_text := Some text |}.

Definition sample_response (status : Z) (body : option json) (pdf : option string)
  : response :=
  {| status_code := status; resp_text := ""; resp_json := body;
     resp_pdf_text := pdf |}.

(** What precedes the last slash of a path, when it has one. *)
Fixpoint dirname (p : string) : option string :=
  match p with
  | EmptyString => None
  | String c p' =>
      match dirname p' with
      | Some d => Some (String c d)
      | None => if Ascii.eqb c "/"%char then Some EmptyString else None
      end
  end.

(** An environment with no proxy configuration, one local file
    [/work/paper.pdf] of [size] bytes holding [pdf], a web whose pages show
    [web] and whose PDFs hold [pdf], and a summarization service that
    always answers [api]. *)
Definition sample_env (size : Z) (pdf web : string) (api : response) : env :=
  {| proxy_source := CfgMissing;
     random_draw := fun n => n;
     expanduser := fun p => p;
     resolve := fun p => if Py.startswith p "/" then p else "/work/" ++ p;
     path_name := fun p => p;
     fs_size := fun p => if String.eqb p "/work/paper.pdf" then Some size
                         else if String.eqb p "paper.pdf" then Some size
                         else None;
     local_pdf_text := fun _ => Some pdf;
     http_get := fun _ _ => Some (sample_response 200 None (Some pdf));
     http_post := fun _ _ => Some api;
     browser_goto := fun _ _ => Some (sample_page web);
     today := "2026-01-01";
     script_dir := "/opt/gistify";
     path_parent := fun p => match dirname p with Some d => d | None => "." end |}.

Definition fresh_state : state :=
  {| clock := 1000%Q; rl_file := RLAbsent; proxy_force := None; draws := 0 |}.

Definition long_text : string :=
  "The quick brown fox jumps over the lazy dog, twice over.".

Definition summary_response : response :=
  sample_response 200 (Some (JObj [("summary", JStr "A fox jumps.")])) None.

Definition rate_limited_response : response :=
  sample_response 429 None None.

(** *** URL shapes *)

(** No character of [s] satisfies [p]. *)
Fixpoint avoids (p : ascii -> bool) (s : string) : bool :=
  match s with
  | EmptyString => true
  | String c s' => negb (p c) && avoids p s'
  end.

Definition is_newline (c : ascii) : bool := Ascii.eqb c Regex.newline.

Definition is_newline_or_question (c : ascii) : bool :=
  Ascii.eqb c Regex.newline || Ascii.eqb c "?"%char.

(** A navigation of the browser to an address other than [url]. *)
Definition goes_elsewhere (url : string) (e : event) : bool :=
  match e with
  | EvBrowserGoto u => negb (String.eqb u url)
  | _ => false
  end.


(** The input carries one of the URL schemes the script recognizes. *)
Definition has_url_scheme (i : string) : Prop :=
  (exists rest, i = "http://" ++ rest) \/ (exists rest, i = "https://" ++ rest).

Definition on_disk (E : env) (p : string) : Prop := fs_size E p <> None.

(** A web of long pages, a 1000-byte local file and a working service. *)
Definition sample_web_env : env :=
  sample_env 1000 long_text long_text summary_response.

Definition sample_args (i : string) : args :=
  {| input := Some i; output := None; debug := false; use_proxy := None |}.

(** *** Trimming *)

(** Every character of [s] satisfies [p]. *)
Definition only (p : ascii -> bool) (s : string) : bool :=
  avoids (fun c => negb (p c)) s.

Definition starts_with (p : ascii -> bool) (s : string) : bool :=
  match s with
  | String c _ => p c
  | EmptyString => false
  end.

Fixpoint ends_with (p : ascii -> bool) (s : string) : bool :=
  match s with
  | EmptyString => false
  | String c EmptyString => p c
  | String _ s' => ends_with p s'
  end.

(** [t] is [text] without its leading and trailing whitespace. *)
Definition trimmed_of (text t : string) : Prop :=
  exists l r,
    text = l ++ t ++ r
    /\ only Py.isspace l = true /\ only Py.isspace r = true
    /\ starts_with Py.isspace t = false /\ ends_with Py.isspace t = false.

(** 50 MiB in bytes. *)
Definition size_ceiling : Z := (50 * 1024 * 1024)%Z.

(** *** Proxy selection *)

(** The configuration source fails in one of the three ways that
    [_load_proxy_config] catches. *)
Definition degraded (c : config_source) : Prop :=
  c = CfgMissing \/ c = CfgUnreadable \/ c = CfgMalformed.

(** Proxying is switched on: by the override when it is set, otherwise by
    the [enabled] entry of the configuration. *)
Definition proxying_enabled (force : option bool) (kv : list (string * json)) : bool :=
  match force with
  | Some b => b
  | None => truthy (dict_get kv "enabled" (JBool false))
  end.

Definition with_proxy_source (c : config_source) (draw : nat -> nat) (E : env) : env :=
  {| proxy_source := c;
     random_draw := draw;
     expanduser := expanduser E;
     resolve := resolve E;
     path_name := path_name E;
     fs_size := fs_size E;
     local_pdf_text := local_pdf_text E;
     http_get := http_get E;
     http_post := http_post E;
     browser_goto := browser_goto E;
     today := today E;
     script_dir := script_dir E;
     path_parent := path_parent E |}.

Definition with_force (v : option bool) (s : state) : state :=
  {| clock := clock s; rl_file := rl_file s; proxy_force := v; draws := draws s |}.

Definition drew (s : state) : state :=
  {| clock := clock s; rl_file := rl_file s;
     proxy_force := proxy_force s; draws := S (draws s) |}.

Definition two_proxies : list (string * json) :=
  [("enabled", JBool true);
   ("proxies", JArr [JStr "http://10.0.0.1:8080"; JStr "http://10.0.0.2:8080"])].

Definition switched_off : list (string * json) :=
  [("enabled", JBool false);
   ("proxies", JArr [JStr "http://10.0.0.1:8080"])].

(** The sample web behind a proxy configuration and a random source. *)
Definition proxied_env (c : config_source) (draw : nat -> nat) : env :=
  with_proxy_source c draw sample_web_env.

(** A web whose PDFs hold three characters. *)
Definition short_pdf_env : env :=
  sample_env 1000 "abc" "abc" summary_response.

(** A service that always answers HTTP 429. *)
Definition rate_limited_env : env :=
  sample_env 1000 long_text long_text rate_limited_response.

(** The n-th poll of the page shows a challenge. *)
Definition challenge_shown (pg : page) (n : nat) : bool :=
  Py.contains "just a moment" (Py.lower (fst (polls pg n)))
  || Py.contains "checking your browser"
       (Py.lower match snd (polls pg n) with Some b => b | None => "" end).

(** *** Further vocabulary: the rate limiter over a run *)

(** A state in which a request may be recorded: every logged request is at
    least the minimum interval old and fewer than the quota are in the
    window. *)
Definition permitted (s : state) : Prop :=
  (forall ts, In ts (history s) -> (MIN_INTERVAL_SECONDS <= clock s - ts)%Q)
  /\ (List.length (prune (clock s) 3600 (history s)) < MAX_REQUESTS_PER_HOUR)%nat.

(** A log as [record_request] leaves it after a permitted request: the new
    entry comes last, at least the minimum interval after every other entry,
    all of them still in the window, and the quota is respected. *)
Definition well_spaced_log (ts : list Q) : Prop :=
  exists kept now,
    ts = (kept ++ [now])%list
    /\ (List.length ts <= MAX_REQUESTS_PER_HOUR)%nat
    /\ forall t, In t kept ->
                 (MIN_INTERVAL_SECONDS <= now - t)%Q /\ (now - t < 3600)%Q.

(** An event that reaches outside the process: the file system, the
    network or the browser.  Printing and sleeping do not. *)
Definition acts_outside (e : event) : bool :=
  match e with
  | EvStdout _ | EvStderr _ | EvSleep _ => false
  | _ => true
  end.

(** The state [s] at a later time, the log untouched. *)
Definition at_time (now : Q) (s : state) : state :=
  {| clock := now; rl_file := rl_file s;
     proxy_force := proxy_force s; draws := draws s |}.

(** A log of exactly ten requests, made between 3000 and 2100 seconds ago. *)
Definition full_state : state :=
  {| clock := 5000%Q;
     rl_file := RLData [2000%Q; 2100%Q; 2200%Q; 2300%Q; 2400%Q;
                        2500%Q; 2600%Q; 2700%Q; 2800%Q; 2900%Q];
     proxy_force := None;
     draws := 0 |}.

(** A computation under which the clock never runs backwards. *)
Definition forward {A} (m : M A) : Prop :=
  forall s, (clock s <= clock (state_of (m s)))%Q.

(** A computation that, started in a permitted state, writes only
    well-spaced logs. *)
Definition writes_well {A} (m : M A) : Prop :=
  forall s, permitted s ->
            forall ts, In (EvWriteRateLimit ts) (events_of (m s)) ->
                       well_spaced_log ts.

(** *** Further vocabulary: slugs *)

Definition is_dash (c : ascii) : bool := Ascii.eqb c "-"%char.

(** A character a slug may hold: a lower-case letter, a digit or a dash. *)
Definition slug_safe (c : ascii) : bool := slug_char c || is_dash c.

(** No two neighbouring characters of [s] both satisfy [p]. *)
Fixpoint no_double (p : ascii -> bool) (s : string) : bool :=
  match s with
  | String c s' =>
      match s' with
      | String d _ => negb (p c && p d) && no_double p s'
      | EmptyString => true
      end
  | EmptyString => true
  end.

(** A title of 79 letters, a blank and one more letter: its slug is cut
    just after the dash. *)
Definition long_title : string :=
  String.concat "" (repeat "a" 79) ++ " b".

(** *** Further vocabulary: the challenge wait *)

Definition is_poll (e : event) : bool :=
  match e with EvBrowserPoll _ => true | _ => false end.

(** The state after [k] sleeps of two seconds. *)
Definition twice_slept (k : nat) (s : state) : state :=
  Nat.iter k (fun st => slept st 2) s.

(** What one turn of the wait emits when the challenge is showing. *)
Definition challenge_round (i : nat) : list event :=
  [EvBrowserPoll i; EvStdout MsgCloudflare; EvSleep 2].

(** A page that shows the challenge at its first [k] polls only. *)
Definition clearing_page (k : nat) : page :=
  {| polls := fun i => if (i <? k)%nat then ("Just a moment...", None)
                       else ("Example Domain", Some "Example body");
     doc_title := Some "Example Domain";
     inner_text := Some "Example body" |}.

(** A page that never stops showing the challenge, in its body. *)
Definition stuck_page : page :=
  {| polls := fun _ => ("Attention", Some "Checking your browser before accessing");
     doc_title := Some "Attention";
     inner_text := Some "Checking your browser before accessing" |}.

(** *** Further vocabulary: the API call and the download *)

(** A line that only [--debug] prints. *)
Definition is_debug_print (e : event) : bool :=
  match e with
  | EvStdout (MsgDebugStatus _) | EvStdout (MsgDebugJson _)
  | EvStdout (MsgDebugText _) => true
  | _ => false
  end.

(** The payload of the request, [{"text": content}], by its text. *)
Definition payload_of (content : option string) : json :=
  match content with
  | Some t => JStr t
  | None => JNull
  end.

Definition is_tmp_write (e : event) : bool :=
  match e with EvTmpWrite => true | _ => false end.

(** The sample web, with every download answered by HTTP 404. *)
Definition missing_download_env : env :=
  {| proxy_source := proxy_source sample_web_env;
     random_draw := random_draw sample_web_env;
     expanduser := expanduser sample_web_env;
     resolve := resolve sample_web_env;
     path_name := path_name sample_web_env;
     fs_size := fs_size sample_web_env;
     local_pdf_text := local_pdf_text sample_web_env;
     http_get := fun _ _ => Some (sample_response 404 None None);
     http_post := http_post sample_web_env;
     browser_goto := browser_goto sample_web_env;
     today := today sample_web_env;
     script_dir := script_dir sample_web_env;
     path_parent := path_parent sample_web_env |}.

(** *** Further vocabulary: proxies over a run *)

(** The proxy setting an event goes out with, for the events that reach the
    network: a download, the request to the service, a browser launch. *)
Definition proxy_of (e : event) : option json :=
  match e with
  | EvHttpGet _ p => Some p
  | EvHttpPost _ p => Some p
  | EvBrowserLaunch p => Some p
  | _ => None
  end.

Definition is_none (j : json) : bool :=
  match j with JNull => true | _ => false end.

(** A network event whose proxy setting is not one of the [allowed]. *)
Definition breaks (allowed : json -> bool) (e : event) : bool :=
  match proxy_of e with
  | Some j => negb (allowed j)
  | None => false
  end.

(** A network event that goes through a proxy. *)
Definition uses_proxy : event -> bool := breaks is_none.

(** A network event that goes out with no proxy. *)
Definition goes_direct : event -> bool := breaks (fun j => negb (is_none j)).

(** Under the override [v] the computation keeps the override, emits no
    event satisfying [p] and returns only values satisfying [post]. *)
Definition steady (v : option bool) (p : event -> bool) {A} (post : A -> Prop)
           (m : M A) : Prop :=
  forall s, proxy_force s = v ->
            proxy_force (state_of (m s)) = v
            /\ existsb p (events_of (m s)) = false
            /\ forall a, res_of (m s) = Ret a -> post a.

Definition calm (v : option bool) (p : event -> bool) {A} (m : M A) : Prop :=
  steady v p (fun _ : A => True) m.

(** What [_get_proxy] and [_launch_browser] make of a proxy URL. *)
Definition requests_proxies (url : json) : json :=
  if truthy url then JObj [("http", url); ("https", url)] else JNull.

Definition browser_proxy (url : json) : json :=
  if truthy url then JObj [("server", url)] else JNull.

Definition sample_args_forced (i : string) (v : option bool) : args :=
  {| input := Some i; output := None; debug := false; use_proxy := v |}.

(** *** Further vocabulary: the output of a run *)

Definition is_output_write (e : event) : bool :=
  match e with EvWriteOutput _ _ => true | _ => false end.

(** The last three events of a run that saves [md] to [out]. *)
Definition saving (E : env) (out md : string) : list event :=
  [EvMkdir (path_parent E out); EvWriteOutput out md; EvStdout (MsgSaved out)].

(** The path the document goes to: the [--output] argument when it is given
    and not empty, otherwise the slug of some title, with the extension
    [.md], in the directory [output] beside the script. *)
Definition chosen_path (E : env) (a : args) (out : string) : Prop :=
  if opt_str_truthy (output a) then output a = Some out
  else exists title,
         out = (script_dir E ++ "/output") ++ "/" ++ slugify title ++ ".md".

(** An outcome that did not return and wrote no output. *)
Definition unsaved {A} (o : result A * state * list event) : Prop :=
  (forall a, res_of o <> Ret a)
  /\ existsb is_output_write (events_of o) = false.

(** An outcome that returned after saving as its last act; [logged] tells
    whether the rate-limit log was written before. *)
Definition saved (E : env) (a : args) (logged : bool)
           (o : result unit * state * list event) : Prop :=
  exists pre out md,
    res_of o = Ret tt
    /\ events_of o = (pre ++ saving E out md)%list
    /\ existsb is_output_write pre = false
    /\ existsb is_rate_limit_write pre = logged
    /\ chosen_path E a out.

(** A service that answers every request with a summary that is a number. *)
Definition numeric_summary_env : env :=
  sample_env 1000 long_text long_text
             (sample_response 200 (Some (JObj [("summary", JNum 7%Q)])) None).

(** A home directory holding [paper.pdf], seen from the working directory
    [/work]: [~] is expanded by [expanduser] and by nothing else. *)
Definition tilde_env : env :=
  {| proxy_source := CfgMissing;
     random_draw := fun n => n;
     expanduser := fun p => if String.eqb p "~/paper.pdf" then "/home/u/paper.pdf"
                            else p;
     resolve := fun p => if Py.startswith p "/" then p else "/work/" ++ p;
     path_name := fun p => p;
     fs_size := fun p => if String.eqb p "/home/u/paper.pdf" then Some 1000%Z
                         else None;
     local_pdf_text := fun _ => Some long_text;
     http_get := fun _ _ => Some (sample_response 200 None (Some long_text));
     http_post := fun _ _ => Some summary_response;
     browser_goto := fun _ _ => Some (sample_page long_text);
     today := "2026-01-01";
     script_dir := "/opt/gistify";
     path_parent := fun p => match dirname p with Some d => d | None => "." end |}.

(** What [main] acquires from the input [i] (lines 401-406): the content,
    the page title and the address of the source. *)
Definition acquired_from (E : env) (i : string) (b : bool)
  : M (option string * option string * string) :=
  if b then
    bind (_extract_text_from_pdf E i)
         (fun content => ret (Some content, None, "file://" ++ resolve E i))
  else
    bind (_extract_text_from_url E i)
         (fun ctp => ret (fst ctp, snd ctp, i)).

(** The title [main] slugs: the page title, or [summary] without one. *)
Definition title_or_summary (page_title : option string) : string :=
  if opt_str_truthy page_title
  then match page_title with Some t => t | None => "" end
  else "summary".

(* ------------------------------------------------------------------ *)
(** * Properties *)

(** ** Comparisons on timestamps *)

Lemma Qltb_true (x y : Q) : Py.Qltb x y = true <-> (x < y)%Q.
Proof.
  unfold Py.Qltb. rewrite negb_true_iff. split; intro H.
  - apply Qnot_le_lt. intro L. apply Qle_bool_iff in L. congruence.
  - destruct (Qle_bool y x) eqn:B; [|reflexivity].
    apply Qle_bool_iff in B. exfalso. apply (Qlt_not_le _ _ H B).
Qed.

Lemma Qltb_false (x y : Q) : Py.Qltb x y = false <-> (y <= x)%Q.
Proof.
  unfold Py.Qltb. rewrite negb_false_iff. apply Qle_bool_iff.
Qed.

Lemma max_from_spec (xs : list Q) (x : Q) :
  In (Py.max_from x xs) (x :: xs)
  /\ forall t, In t (x :: xs) -> (t <= Py.max_from x xs)%Q.
Proof.
  unfold Py.max_from. revert x. induction xs as [|y ys IH]; intro x; simpl.
  - split; [now left|]. intros t [<-|[]]. apply Qle_refl.
  - destruct (Py.Qltb x y) eqn:B.
    + destruct (IH y) as [Hin Hub]. split.
      * simpl in Hin. tauto.
      * intros t [<-|Ht]; [|now apply Hub].
        apply Qltb_true in B. apply Qle_trans with y; [now apply Qlt_le_weak|].
        apply Hub. now left.
    + destruct (IH x) as [Hin Hub]. split.
      * simpl in Hin. tauto.
      * intros t [<-|[<-|Ht]].
        -- apply Hub. now left.
        -- apply Qltb_false in B. apply Qle_trans with x; [assumption|].
           apply Hub. now left.
        -- apply Hub. now right.
Qed.

Lemma min_from_spec (xs : list Q) (x : Q) :
  In (Py.min_from x xs) (x :: xs)
  /\ forall t, In t (x :: xs) -> (Py.min_from x xs <= t)%Q.
Proof.
  unfold Py.min_from. revert x. induction xs as [|y ys IH]; intro x; simpl.
  - split; [now left|]. intros t [<-|[]]. apply Qle_refl.
  - destruct (Py.Qltb y x) eqn:B.
    + destruct (IH y) as [Hin Hlb]. split.
      * simpl in Hin. tauto.
      * intros t [<-|Ht]; [|now apply Hlb].
        apply Qltb_true in B. apply Qle_trans with y; [|now apply Qlt_le_weak].
        apply Hlb. now left.
    + destruct (IH x) as [Hin Hlb]. split.
      * simpl in Hin. tauto.
      * intros t [<-|[<-|Ht]].
        -- apply Hlb. now left.
        -- apply Qltb_false in B. apply Qle_trans with x; [|assumption].
           apply Hlb. now left.
        -- apply Hlb. now right.
Qed.

(** ** Pruning *)

Lemma prune_removes_exactly (now : Q) (l : list Q) :
  removes_exactly (aged_out now) l (prune now 3600 l).
Proof.
  induction l as [|x l IH]; simpl.
  - constructor.
  - destruct (Py.Qltb (now - x) 3600) eqn:B.
    + apply re_keep; [|exact IH].
      unfold aged_out. apply Qltb_true in B. now apply Qlt_not_le.
    + apply re_drop; [|exact IH].
      unfold aged_out. now apply Qltb_false in B.
Qed.

Lemma removes_exactly_functional (drop : Q -> Prop) (l l1 l2 : list Q) :
  removes_exactly drop l l1 -> removes_exactly drop l l2 -> l1 = l2.
Proof.
  intro H1. revert l2.
  induction H1 as [|x l l1 Hx _ IH|x l l1 Hx _ IH]; intros l2 H2;
    inversion H2; subst; try contradiction.
  - reflexivity.
  - f_equal. now apply IH.
  - now apply IH.
Qed.

Lemma removes_exactly_length_mono (d1 d2 : Q -> Prop) (l l1 l2 : list Q) :
  (forall x, d2 x -> d1 x) ->
  removes_exactly d1 l l1 -> removes_exactly d2 l l2 ->
  (List.length l1 <= List.length l2)%nat.
Proof.
  intros Hsub H1. revert l2.
  induction H1 as [|x l l1 Hx _ IH|x l l1 Hx _ IH]; intros l2 H2;
    inversion H2; subst; simpl.
  - lia.
  - apply le_n_S. now apply IH.
  - exfalso. apply Hx. now apply Hsub.
  - apply Nat.le_trans with (List.length l'); [now apply IH | lia].
  - now apply IH.
Qed.

Lemma strictly_older_aged_out (now ts : Q) : strictly_older now ts -> aged_out now ts.
Proof. unfold strictly_older, aged_out. apply Qlt_le_weak. Qed.

(** ** The run of [check_rate_limit], step by step *)

Lemma check_rate_limit_run (s : state) :
  check_rate_limit s =
  match prune (clock s) 3600 (history s) with
  | [] => (Ret tt, s, [])
  | t :: rest =>
      let elapsed := (clock s - Py.max_from t rest)%Q in
      let wait := (MIN_INTERVAL_SECONDS - elapsed)%Q in
      let waits := Py.Qltb elapsed MIN_INTERVAL_SECONDS in
      let s1 := if waits then slept s wait else s in
      let e1 := if waits then [EvStdout (MsgRateWait wait); EvSleep wait] else [] in
      if (MAX_REQUESTS_PER_HOUR <=? List.length (t :: rest))%nat
      then (Exit 1%Z, s1,
            (e1 ++ [EvStderr (MsgRateLimitReached MAX_REQUESTS_PER_HOUR
                                (3600 - (clock s - Py.min_from t rest)))])%list)
      else (Ret tt, s1, e1)
  end.
Proof.
  unfold check_rate_limit, bind, time_time, load_timestamps, history.
  destruct (prune (clock s) 3600 match rl_file s with
                                  | RLData ts => ts
                                  | _ => []
                                  end) as [|t rest] eqn:K.
  - reflexivity.
  - cbv zeta.
    destruct (Py.Qltb (clock s - Py.max_from t rest) MIN_INTERVAL_SECONDS);
      destruct (MAX_REQUESTS_PER_HOUR <=? List.length (t :: rest))%nat;
      reflexivity.
Qed.

(** ** The rate limiter *)

(** C1, as amended.  The spacing check runs first and the quota check
    second.  When ten or more timestamps are younger than 3600 seconds the
    call ends the run with status 1; if the newest of them is less than five
    seconds old the call first prints the notice and sleeps the remaining
    spacing, otherwise it exits without waiting. *)
Theorem check_rate_limit_quota_after_spacing (s : state) (kept : list Q) :
  removes_exactly (aged_out (clock s)) (history s) kept ->
  (MAX_REQUESTS_PER_HOUR <= List.length kept)%nat ->
  exists newest oldest,
    In newest kept /\ (forall t, In t kept -> (t <= newest)%Q) /\
    In oldest kept /\ (forall t, In t kept -> (oldest <= t)%Q) /\
    res_of (check_rate_limit s) = Exit 1%Z /\
    ((clock s - newest < MIN_INTERVAL_SECONDS)%Q ->
     events_of (check_rate_limit s) =
       [EvStdout (MsgRateWait (MIN_INTERVAL_SECONDS - (clock s - newest)));
        EvSleep (MIN_INTERVAL_SECONDS - (clock s - newest));
        EvStderr (MsgRateLimitReached MAX_REQUESTS_PER_HOUR
                    (3600 - (clock s - oldest)))]) /\
    ((MIN_INTERVAL_SECONDS <= clock s - newest)%Q ->
     events_of (check_rate_limit s) =
       [EvStderr (MsgRateLimitReached MAX_REQUESTS_PER_HOUR
                    (3600 - (clock s - oldest)))]).
Proof.
  intros Hk Hlen.
  assert (kept = prune (clock s) 3600 (history s)) as ->
    by (eapply removes_exactly_functional; [exact Hk | apply prune_removes_exactly]).
  rewrite check_rate_limit_run.
  destruct (prune (clock s) 3600 (history s)) as [|t rest].
  - simpl in Hlen. unfold MAX_REQUESTS_PER_HOUR in Hlen. lia.
  - destruct (max_from_spec rest t) as [Hmax_in Hmax].
    destruct (min_from_spec rest t) as [Hmin_in Hmin].
    exists (Py.max_from t rest), (Py.min_from t rest).
    apply Nat.leb_le in Hlen. cbv zeta. rewrite Hlen.
    repeat split; try assumption.
    + intro Hlt. apply Qltb_true in Hlt. rewrite Hlt. reflexivity.
    + intro Hge. apply Qltb_false in Hge. rewrite Hge. reflexivity.
Qed.

(** The ten requests of [busy_state] are all in the window and one second
    old: the call waits four seconds and then exits. *)
Lemma check_rate_limit_quota_after_spacing_witness :
  removes_exactly (aged_out (clock busy_state)) (history busy_state) (repeat 99%Q 10)
  /\ (MAX_REQUESTS_PER_HOUR <= List.length (repeat 99%Q 10))%nat
  /\ exists newest oldest,
      In newest (repeat 99%Q 10)
      /\ (forall t, In t (repeat 99%Q 10) -> (t <= newest)%Q)
      /\ In oldest (repeat 99%Q 10)
      /\ (forall t, In t (repeat 99%Q 10) -> (oldest <= t)%Q)
      /\ res_of (check_rate_limit busy_state) = Exit 1%Z
      /\ ((clock busy_state - newest < MIN_INTERVAL_SECONDS)%Q ->
          events_of (check_rate_limit busy_state) =
            [EvStdout (MsgRateWait (MIN_INTERVAL_SECONDS - (clock busy_state - newest)));
             EvSleep (MIN_INTERVAL_SECONDS - (clock busy_state - newest));
             EvStderr (MsgRateLimitReached MAX_REQUESTS_PER_HOUR
                         (3600 - (clock busy_state - oldest)))])
      /\ ((MIN_INTERVAL_SECONDS <= clock busy_state - newest)%Q ->
          events_of (check_rate_limit busy_state) =
            [EvStderr (MsgRateLimitReached MAX_REQUESTS_PER_HOUR
                         (3600 - (clock busy_state - oldest)))]).
Proof.
  split; [exact (prune_removes_exactly 100 (repeat 99%Q 10))|].
  split; [vm_compute; lia|].
  apply (check_rate_limit_quota_after_spacing busy_state (repeat 99%Q 10)).
  - exact (prune_removes_exactly 100 (repeat 99%Q 10)).
  - vm_compute. lia.
Defined.

(** C1, as stated, fails: with the quota reached and the newest request one
    second old, the call sleeps four seconds before it exits. *)
Lemma quota_exit_waits_first :
  removes_exactly (aged_out (clock busy_state)) (history busy_state) (repeat 99%Q 10)
  /\ (MAX_REQUESTS_PER_HOUR <= List.length (repeat 99%Q 10))%nat
  /\ check_rate_limit busy_state =
       (Exit 1%Z, slept busy_state 4,
        [EvStdout (MsgRateWait 4); EvSleep 4;
         EvStderr (MsgRateLimitReached 10 3599)])
  /\ existsb is_sleep (events_of (check_rate_limit busy_state)) = true.
Proof.
  split; [exact (prune_removes_exactly 100 (repeat 99%Q 10))|].
  split; [vm_compute; lia|].
  split; reflexivity.
Qed.

(** C2, as amended.  Pruning removes exactly the entries whose age is 3600
    seconds or more and keeps every younger entry in its place:
    [record_request] writes the kept entries followed by the current time,
    and [check_rate_limit] counts the kept entries against the quota. *)
Theorem pruning_removes_aged_out (s : state) :
  exists kept,
    removes_exactly (aged_out (clock s)) (history s) kept
    /\ rl_file (state_of (record_request s)) = RLData (kept ++ [clock s])
    /\ (res_of (check_rate_limit s) = Exit 1%Z
        <-> (MAX_REQUESTS_PER_HOUR <= List.length kept)%nat).
Proof.
  exists (prune (clock s) 3600 (history s)).
  split; [apply prune_removes_exactly|]. split.
  - reflexivity.
  - rewrite check_rate_limit_run.
    destruct (prune (clock s) 3600 (history s)) as [|t rest] eqn:K.
    + simpl. unfold MAX_REQUESTS_PER_HOUR. split; [discriminate | lia].
    + cbv zeta.
      destruct (MAX_REQUESTS_PER_HOUR <=? List.length (t :: rest))%nat eqn:B.
      * apply Nat.leb_le in B. simpl. tauto.
      * apply Nat.leb_gt in B. unfold MAX_REQUESTS_PER_HOUR in *.
        destruct (Py.Qltb _ _); simpl in *; (split; [discriminate | lia]).
Qed.

(** C2, as stated, fails: an entry aged exactly 3600 seconds is not
    strictly older than the window, and both functions drop it. *)
Lemma entry_aged_exactly_window_is_pruned :
  history boundary_state = [0%Q]
  /\ (clock boundary_state - 0 == 3600)%Q
  /\ ~ strictly_older (clock boundary_state) 0
  /\ prune (clock boundary_state) 3600 (history boundary_state) = []
  /\ record_request boundary_state =
       (Ret tt,
        {| clock := 3600%Q; rl_file := RLData [3600%Q];
           proxy_force := None; draws := 0 |},
        [EvWriteRateLimit [3600%Q]]).
Proof.
  repeat split.
  intro H. vm_compute in H. discriminate.
Qed.

(** C7.  When fewer than ten timestamps are in the trailing window the call
    returns; this holds whether the window is read as ages below 3600
    seconds or as ages up to 3600 seconds, and whatever the spacing. *)
Theorem check_rate_limit_under_quota (s : state) (kept : list Q) :
  removes_exactly (aged_out (clock s)) (history s) kept
  \/ removes_exactly (strictly_older (clock s)) (history s) kept ->
  (List.length kept < MAX_REQUESTS_PER_HOUR)%nat ->
  res_of (check_rate_limit s) = Ret tt.
Proof.
  intros Hk Hlen.
  assert (List.length (prune (clock s) 3600 (history s)) < MAX_REQUESTS_PER_HOUR)%nat
    as Hp.
  { destruct Hk as [Hk|Hk].
    - now rewrite <- (removes_exactly_functional _ _ _ _ Hk (prune_removes_exactly _ _)).
    - eapply Nat.le_lt_trans; [|exact Hlen].
      eapply removes_exactly_length_mono;
        [|apply prune_removes_exactly|exact Hk].
      intros x. apply strictly_older_aged_out. }
  rewrite check_rate_limit_run.
  destruct (prune (clock s) 3600 (history s)) as [|t rest].
  - reflexivity.
  - apply Nat.leb_gt in Hp. cbv zeta. rewrite Hp.
    destruct (Py.Qltb _ _); reflexivity.
Qed.

(** Three requests in the window, the newest two seconds old: the call
    waits and returns. *)
Lemma check_rate_limit_under_quota_witness :
  (removes_exactly (aged_out (clock quiet_state)) (history quiet_state)
                   [4000%Q; 4998%Q]
   \/ removes_exactly (strictly_older (clock quiet_state)) (history quiet_state)
                      [4000%Q; 4998%Q])
  /\ (List.length [4000%Q; 4998%Q] < MAX_REQUESTS_PER_HOUR)%nat
  /\ res_of (check_rate_limit quiet_state) = Ret tt.
Proof.
  assert (removes_exactly (aged_out (clock quiet_state)) (history quiet_state)
                          [4000%Q; 4998%Q]) as H
    by exact (prune_removes_exactly 5000 [1000%Q; 4000%Q; 4998%Q]).
  split; [now left|]. split; [vm_compute; lia|].
  apply (check_rate_limit_under_quota quiet_state [4000%Q; 4998%Q]).
  - now left.
  - vm_compute. lia.
Defined.
(** ** Framing: what leaves the rate-limit log alone *)

Lemma benign_bind {A B} (m : M A) (f : A -> M B) (s : state) :
  benign s (m s) ->
  (forall a s1 e1, m s = (Ret a, s1, e1) -> benign s1 (f a s1)) ->
  benign s (bind m f s).
Proof.
  unfold benign, bind, res_of, state_of, events_of.
  destruct (m s) as [[r s1] e1]. simpl. intros (Hf & Hw & Hc) Hk.
  destruct r as [a|c|x]; simpl.
  2: { repeat split; try assumption. intros c0 [= <-]. now apply Hc. }
  2: { repeat split; try assumption. discriminate. }
  specialize (Hk a s1 e1 eq_refl).
  destruct (f a s1) as [[r2 s2] e2]. simpl in *.
  destruct Hk as (Hf2 & Hw2 & Hc2).
  repeat split.
  - congruence.
  - rewrite existsb_app, Hw, Hw2. reflexivity.
  - exact Hc2.
Qed.

Lemma frames_bind {A B} (m : M A) (f : A -> M B) :
  frames m -> (forall a, frames (f a)) -> frames (bind m f).
Proof.
  intros Hm Hf s. apply benign_bind; [apply Hm|]. intros a s1 _ _. apply Hf.
Qed.

Lemma frames_ret {A} (a : A) : frames (ret a).
Proof. intro s. repeat split. discriminate. Qed.

Lemma frames_raise {A} (e : exn) : frames (@raise A e).
Proof. intro s. repeat split. discriminate. Qed.

Lemma frames_sys_exit {A} (c : Z) : c <> 0%Z -> frames (@sys_exit A c).
Proof.
  intros Hc s. repeat split. unfold res_of, sys_exit. simpl. congruence.
Qed.

Lemma frames_emit (e : event) : is_rate_limit_write e = false -> frames (emit e).
Proof.
  intros He s. repeat split.
  - unfold events_of, emit. simpl. now rewrite He.
  - discriminate.
Qed.

Lemma frames_print (m : message) : frames (print m).
Proof. now apply frames_emit. Qed.

Lemma frames_eprint (m : message) : frames (eprint m).
Proof. now apply frames_emit. Qed.

Lemma frames_time_time : frames time_time.
Proof. intro s. repeat split. discriminate. Qed.

Lemma frames_time_sleep (d : Q) : frames (time_sleep d).
Proof. intro s. repeat split. discriminate. Qed.

Lemma frames_get_state : frames get_state.
Proof. intro s. repeat split. discriminate. Qed.

Lemma frames_load_timestamps : frames load_timestamps.
Proof. intro s. repeat split. discriminate. Qed.

Lemma frames_randbelow (E : env) (n : nat) : frames (randbelow E n).
Proof. intro s. repeat split. discriminate. Qed.

Lemma frames_set_proxy_force (v : option bool) : frames (set_proxy_force v).
Proof. intro s. repeat split. discriminate. Qed.

Create HintDb frames discriminated.

#[local] Hint Resolve frames_ret frames_raise frames_print frames_eprint
  frames_time_time frames_time_sleep frames_get_state frames_load_timestamps
  frames_randbelow frames_set_proxy_force : frames.

(** One step through a definition of the script: a bind is split, a
    conditional or a match is taken apart, a primitive is closed. *)
Ltac frames_step :=
  match goal with
  | |- frames (bind _ _) => apply frames_bind; [|intro]
  | |- frames (if ?b then _ else _) => destruct b
  | |- frames (match ?x with _ => _ end) => destruct x
  | |- frames (emit _) => apply frames_emit; reflexivity
  | |- frames (sys_exit _) => apply frames_sys_exit; discriminate
  | |- frames _ => solve [auto with frames]
  end.

Ltac frames_tac := repeat frames_step.

Lemma frames_check_rate_limit : frames check_rate_limit.
Proof. unfold check_rate_limit. frames_tac. Qed.

Lemma frames_py_get (v : json) (k : string) (d : json) : frames (py_get v k d).
Proof. unfold py_get. frames_tac. Qed.

#[local] Hint Resolve frames_check_rate_limit frames_py_get : frames.

Lemma frames_random_choice (E : env) (seq : json) : frames (random_choice E seq).
Proof. unfold random_choice. frames_tac. Qed.

#[local] Hint Resolve frames_random_choice : frames.

Lemma frames_get_proxy_url (E : env) : frames (_get_proxy_url E).
Proof. unfold _get_proxy_url, _load_proxy_config. frames_tac. Qed.

#[local] Hint Resolve frames_get_proxy_url : frames.

Lemma frames_get_proxy (E : env) : frames (_get_proxy E).
Proof. unfold _get_proxy. frames_tac. Qed.

Lemma frames_launch_browser (E : env) : frames (_launch_browser E).
Proof. unfold _launch_browser. frames_tac. Qed.

#[local] Hint Resolve frames_get_proxy frames_launch_browser : frames.

Lemma frames_cloudflare_loop (E : env) (fuel : nat) (pg : page) (start timeout : Q) (n : nat) :
  frames (cloudflare_loop fuel pg start timeout n).
Proof.
  revert n. induction fuel as [|fuel IH]; intro n; simpl.
  - auto with frames.
  - frames_tac.
Qed.

#[local] Hint Resolve frames_cloudflare_loop : frames.

Lemma frames_wait_for_cloudflare (E : env) (pg : page) (t : Z) :
  frames (_wait_for_cloudflare pg t).
Proof. unfold _wait_for_cloudflare. frames_tac. Qed.

#[local] Hint Resolve frames_wait_for_cloudflare : frames.

Lemma frames_download_pdf_text (E : env) (url : string) : frames (_download_pdf_text E url).
Proof. unfold _download_pdf_text. frames_tac. Qed.

#[local] Hint Resolve frames_download_pdf_text : frames.

Lemma frames_extract_text_from_url (E : env) (url : string) :
  frames (_extract_text_from_url E url).
Proof. unfold _extract_text_from_url. frames_tac. Qed.

Lemma frames_extract_text_from_pdf (E : env) (path : string) :
  frames (_extract_text_from_pdf E path).
Proof. unfold _extract_text_from_pdf. frames_tac. Qed.

Lemma frames_is_local_file (E : env) (i : string) : frames (_is_local_file E i).
Proof. unfold _is_local_file. frames_tac. Qed.

Lemma frames_summarize_content (E : env) (content : option string) (dbg : bool) :
  frames (summarize_content E content dbg).
Proof. unfold summarize_content. frames_tac. Qed.

Lemma frames_to_markdown (E : env) (summary : json) (url : string) (t : option string) :
  frames (to_markdown E summary url t).
Proof. unfold to_markdown. frames_tac. Qed.

#[local] Hint Resolve frames_extract_text_from_url frames_extract_text_from_pdf
  frames_is_local_file frames_summarize_content frames_to_markdown : frames.

(** ** Quiet computations *)

Section Quiet.

Variable p : event -> bool.

Lemma quiet_bind {A B} (m : M A) (f : A -> M B) :
  quiet p m -> (forall a, quiet p (f a)) -> quiet p (bind m f).
Proof.
  intros Hm Hf s. specialize (Hm s). unfold bind, events_of in *.
  destruct (m s) as [[r s1] e1]. simpl in Hm.
  destruct r as [a|c|x]; simpl; try assumption.
  specialize (Hf a s1). destruct (f a s1) as [[r2 s2] e2]. simpl in *.
  now rewrite existsb_app, Hm, Hf.
Qed.

Lemma quiet_ret {A} (a : A) : quiet p (ret a).
Proof. now intro s. Qed.

Lemma quiet_raise {A} (e : exn) : quiet p (@raise A e).
Proof. now intro s. Qed.

Lemma quiet_sys_exit {A} (c : Z) : quiet p (@sys_exit A c).
Proof. now intro s. Qed.

Lemma quiet_emit (e : event) : p e = false -> quiet p (emit e).
Proof. intros He s. unfold events_of, emit. simpl. now rewrite He. Qed.

Lemma quiet_time_sleep (d : Q) : p (EvSleep d) = false -> quiet p (time_sleep d).
Proof. intros He s. unfold events_of, time_sleep. simpl. now rewrite He. Qed.

Lemma quiet_write_timestamps (ts : list Q) :
  p (EvWriteRateLimit ts) = false -> quiet p (write_timestamps ts).
Proof. intros He s. unfold events_of, write_timestamps. simpl. now rewrite He. Qed.

Lemma quiet_time_time : quiet p time_time.
Proof. now intro s. Qed.

Lemma quiet_get_state : quiet p get_state.
Proof. now intro s. Qed.

Lemma quiet_load_timestamps : quiet p load_timestamps.
Proof. now intro s. Qed.

Lemma quiet_randbelow (E : env) (n : nat) : quiet p (randbelow E n).
Proof. now intro s. Qed.

Lemma quiet_set_proxy_force (v : option bool) : quiet p (set_proxy_force v).
Proof. now intro s. Qed.

End Quiet.

Create HintDb quiet discriminated.

#[local] Hint Resolve quiet_ret quiet_raise quiet_sys_exit quiet_time_time
  quiet_get_state quiet_load_timestamps quiet_randbelow quiet_set_proxy_force
  : quiet.

(** The counterpart of [frames_step]; an emitted event is checked against
    the predicate by evaluation. *)
Ltac quiet_step :=
  match goal with
  | |- quiet _ (bind _ _) => apply quiet_bind; [|intro]
  | |- quiet _ (if ?b then _ else _) => destruct b
  | |- quiet _ (match ?x with _ => _ end) => destruct x
  | |- quiet _ (emit _) => apply quiet_emit; reflexivity
  | |- quiet _ (print _) => apply quiet_emit; reflexivity
  | |- quiet _ (eprint _) => apply quiet_emit; reflexivity
  | |- quiet _ (time_sleep _) => apply quiet_time_sleep; reflexivity
  | |- quiet _ (write_timestamps _) => apply quiet_write_timestamps; reflexivity
  | |- quiet _ _ => solve [auto with quiet]
  end.

Ltac quiet_tac := repeat quiet_step.

Lemma quiet_in (p : event -> bool) (l : list event) (e : event) :
  existsb p l = false -> In e l -> p e = false.
Proof.
  intros Hl Hin. destruct (p e) eqn:Hp; [|reflexivity].
  assert (existsb p l = true) by (apply existsb_exists; eauto). congruence.
Qed.

Lemma quiet_py_get (p : event -> bool) (v : json) (k : string) (d : json) :
  quiet p (py_get v k d).
Proof. unfold py_get. quiet_tac. Qed.

#[local] Hint Resolve quiet_py_get : quiet.

Lemma quiet_random_choice (p : event -> bool) (E : env) (seq : json) :
  quiet p (random_choice E seq).
Proof. unfold random_choice. quiet_tac. Qed.

#[local] Hint Resolve quiet_random_choice : quiet.

Lemma quiet_get_proxy_url (p : event -> bool) (E : env) : quiet p (_get_proxy_url E).
Proof. unfold _get_proxy_url, _load_proxy_config. quiet_tac. Qed.

#[local] Hint Resolve quiet_get_proxy_url : quiet.

Lemma quiet_get_proxy (p : event -> bool) (E : env) : quiet p (_get_proxy E).
Proof. unfold _get_proxy. quiet_tac. Qed.

#[local] Hint Resolve quiet_get_proxy : quiet.

Lemma posts_nothing_check_rate_limit : quiet is_post check_rate_limit.
Proof. unfold check_rate_limit. quiet_tac. Qed.

Lemma posts_nothing_cloudflare_loop (fuel : nat) (pg : page) (start timeout : Q) (n : nat) :
  quiet is_post (cloudflare_loop fuel pg start timeout n).
Proof.
  revert n. induction fuel as [|fuel IH]; intro n; simpl; quiet_tac.
Qed.

#[local] Hint Resolve posts_nothing_check_rate_limit posts_nothing_cloudflare_loop : quiet.

Lemma posts_nothing_extract_text_from_url (E : env) (url : string) :
  quiet is_post (_extract_text_from_url E url).
Proof.
  unfold _extract_text_from_url, _download_pdf_text, _launch_browser,
    _wait_for_cloudflare.
  quiet_tac.
Qed.

Lemma posts_nothing_extract_text_from_pdf (E : env) (path : string) :
  quiet is_post (_extract_text_from_pdf E path).
Proof. unfold _extract_text_from_pdf. quiet_tac. Qed.

Lemma posts_nothing_is_local_file (E : env) (i : string) :
  quiet is_post (_is_local_file E i).
Proof. unfold _is_local_file. quiet_tac. Qed.

Lemma posts_nothing_to_markdown (E : env) (summary : json) (url : string) (t : option string) :
  quiet is_post (to_markdown E summary url t).
Proof. unfold to_markdown. quiet_tac. Qed.

#[local] Hint Resolve posts_nothing_extract_text_from_url
  posts_nothing_extract_text_from_pdf posts_nothing_is_local_file
  posts_nothing_to_markdown : quiet.

(** ** Inversion of runs *)

Lemma bind_ret_inv {A B} (m : M A) (f : A -> M B) (s s2 : state) (b : B) (e : list event) :
  bind m f s = (Ret b, s2, e) ->
  exists a s1 e1 e2,
    m s = (Ret a, s1, e1) /\ f a s1 = (Ret b, s2, e2) /\ e = (e1 ++ e2)%list.
Proof.
  unfold bind. destruct (m s) as [[r s1] e1].
  destruct r as [a|c|x]; try discriminate.
  destruct (f a s1) as [[r2 s3] e2] eqn:Hf. intros [= -> -> <-].
  now exists a, s1, e1, e2.
Qed.

Lemma quiet_run (p : event -> bool) {A} (m : M A) (s s1 : state) (r : result A)
      (e : list event) :
  quiet p m -> m s = (r, s1, e) -> existsb p e = false.
Proof. intros Hq Hm. specialize (Hq s). now rewrite Hm in Hq. Qed.

(** When [summarize_content] returns, the one request it posted was
    answered with a success carrying a non-empty summary. *)
Lemma summarize_content_returns (E : env) (content : option string) (dbg : bool)
      (s s1 : state) (summary : json) (e1 : list event) :
  summarize_content E content dbg s = (Ret summary, s1, e1) ->
  exists payload proxies resp,
    In (EvHttpPost payload proxies) e1
    /\ http_post E payload proxies = Some resp
    /\ service_success resp
    /\ truthy summary = true
    /\ forall payload' proxies',
        In (EvHttpPost payload' proxies') e1 ->
        payload' = payload /\ proxies' = proxies.
Proof.
  unfold summarize_content. intro H.
  apply bind_ret_inv in H as (? & sa & ea & eb & Hprint & H & ->).
  apply bind_ret_inv in H as (proxies & sb & ec & ed & Hproxy & H & ->).
  apply bind_ret_inv in H as (? & sc & ee & ef & Hemit & H & ->).
  injection Hemit as _ <- <-. injection Hprint as _ <- <-.
  apply (quiet_run is_post) in Hproxy; [|apply quiet_get_proxy].
  set (payload := match content with Some t => JStr t | None => JNull end) in *.
  exists payload, proxies.
  destruct (http_post E payload proxies) as [resp|] eqn:Hpost; [|discriminate].
  exists resp.
  apply bind_ret_inv in H as (? & sd & eg & eh & Hdbg & H & ->).
  apply (quiet_run is_post) in Hdbg; [|quiet_tac].
  destruct (status_code resp =? 429)%Z eqn:H429.
  { apply bind_ret_inv in H as (? & ? & ? & ? & _ & H & _). discriminate. }
  destruct (ok resp) eqn:Hok; simpl in H.
  2: { apply bind_ret_inv in H as (? & ? & ? & ? & _ & H & _). discriminate. }
  destruct (resp_json resp) as [data|] eqn:Hjson; [|discriminate].
  apply bind_ret_inv in H as (sm & se & ei & ej & Hget & H & ->).
  destruct data; try discriminate. simpl in Hget. injection Hget as <- <- <-.
  destruct (truthy (dict_get kv "summary" (JStr ""))) eqn:Htr; simpl in H.
  2: { apply bind_ret_inv in H as (? & ? & ? & ? & _ & H & _).
       apply bind_ret_inv in H as (? & ? & ? & ? & _ & H & _). discriminate. }
  injection H as <- <- <-.
  split; [|split; [reflexivity|split; [|split; [exact Htr|]]]].
  - simpl. right. apply in_or_app. right. now left.
  - split; [now apply Z.eqb_neq in H429|]. split; [exact Hok|].
    exists kv. now split.
  - intros payload' proxies' Hin. simpl in Hin.
    destruct Hin as [Hin|Hin]; [discriminate|].
    apply in_app_or in Hin as [Hin|Hin].
    { apply (quiet_in _ _ _ Hproxy) in Hin. discriminate. }
    simpl in Hin. destruct Hin as [[= <- <-]|Hin]; [now split|].
    rewrite !app_nil_r in Hin.
    apply (quiet_in _ _ _ Hdbg) in Hin. discriminate.
Qed.

(** ** The shape of a run of [main] *)

Lemma aborted_bind_left {A B} (m : M A) (f : A -> M B) (s s1 : state)
      (r : result A) (e1 : list event) :
  m s = (r, s1, e1) -> benign s (m s) -> (forall a, r <> Ret a) ->
  aborted s (bind m f s).
Proof.
  intros Hms Hm Hr. unfold aborted, bind. rewrite Hms in *.
  destruct Hm as (Hf & Hw & Hc).
  destruct r as [a|c|x].
  - now destruct (Hr a).
  - split; [|discriminate]. repeat split; try assumption.
    intros c0 [= <-]. now apply Hc.
  - split; [|discriminate]. repeat split; try assumption. discriminate.
Qed.

Lemma aborted_or_recorded_bind (E : env) {A B} (m : M A) (f : A -> M B) (s : state) :
  frames m -> quiet is_post m ->
  (forall a s1, aborted s1 (f a s1) \/ recorded E (f a s1)) ->
  aborted s (bind m f s) \/ recorded E (bind m f s).
Proof.
  intros Hm Hq Hk.
  destruct (m s) as [[r s1] e1] eqn:Hms.
  pose proof (Hm s) as Hb. pose proof (quiet_run _ _ _ _ _ _ Hq Hms) as Hp.
  destruct r as [a|c|x].
  - destruct (Hk a s1) as [[Hb1 Hr]|Hrec].
    + left. split.
      * apply benign_bind; [exact Hb|]. rewrite Hms.
        intros a' s' e' [= <- <- <-]. exact Hb1.
      * unfold bind, res_of in *. rewrite Hms.
        destruct (f a s1) as [[r2 s2] e2]. exact Hr.
    + right. destruct Hrec as (x1 & ts & x3 & payload & proxies & resp
                               & Hev & Hin & Hpost & Hok & Hw1 & Hw3 & Hall).
      exists (e1 ++ x1)%list, ts, x3, payload, proxies, resp.
      unfold bind, events_of in *. rewrite Hms in *.
      destruct (f a s1) as [[r2 s2] e2]. simpl in *. subst e2.
      destruct Hb as (_ & Hw & _). simpl in Hw.
      refine (conj _ (conj _ (conj Hpost (conj Hok (conj _ (conj Hw3 _)))))).
      * now rewrite app_assoc.
      * apply in_or_app. now right.
      * now rewrite existsb_app, Hw, Hw1.
      * intros payload' proxies' Hin'.
        apply in_app_or in Hin' as [Hin'|Hin']; [|now apply Hall].
        apply (quiet_in _ _ _ Hp) in Hin'. discriminate.
  - left. eapply aborted_bind_left; [exact Hms|exact Hb|discriminate].
  - left. eapply aborted_bind_left; [exact Hms|exact Hb|discriminate].
Qed.

Lemma record_request_then {B} (k : M B) (s : state) :
  frames k -> quiet is_post k ->
  exists ts e3,
    events_of (bind record_request (fun _ => k) s) = EvWriteRateLimit ts :: e3
    /\ existsb is_rate_limit_write e3 = false
    /\ existsb is_post e3 = false.
Proof.
  intros Hk Hq.
  unfold bind at 1.
  destruct (record_request s) as [[r s1] e1] eqn:Hr.
  unfold record_request, bind, time_time, load_timestamps, write_timestamps in Hr.
  injection Hr as <- <- <-.
  match goal with
  | |- context [k ?s'] =>
      destruct (Hk s') as (_ & Hw & _); specialize (Hq s');
      destruct (k s') as [[r2 s2] e2]
  end.
  simpl in *. eauto.
Qed.

Lemma summarize_then_record (E : env) (content : option string) (dbg : bool)
      {B} (k : json -> M B) (s : state) :
  (forall j, frames (k j)) -> (forall j, quiet is_post (k j)) ->
  let run := bind (summarize_content E content dbg)
                  (fun j => bind record_request (fun _ => k j)) s in
  aborted s run \/ recorded E run.
Proof.
  intros Hk Hq run. subst run.
  destruct (summarize_content E content dbg s) as [[r s1] e1] eqn:Hs.
  pose proof (frames_summarize_content E content dbg s) as Hb.
  destruct r as [j|c|x].
  - right.
    destruct (summarize_content_returns _ _ _ _ _ _ _ Hs)
      as (payload & proxies & resp & Hin & Hpost & Hok & _ & Hall).
    destruct (record_request_then (k j) s1 (Hk j) (Hq j))
      as (ts & e3 & Hev & Hw3 & Hp3).
    exists e1, ts, e3, payload, proxies, resp.
    rewrite Hs in Hb. destruct Hb as (_ & Hw1 & _).
    assert (events_of (bind (summarize_content E content dbg)
                            (fun j => bind record_request (fun _ => k j)) s)
            = (e1 ++ EvWriteRateLimit ts :: e3)%list) as Hrun.
    { unfold bind at 1. rewrite Hs. unfold events_of in *.
      destruct (bind record_request (fun _ => k j) s1) as [[r2 s2] e2].
      simpl in *. now subst e2. }
    refine (conj Hrun (conj Hin (conj Hpost (conj Hok (conj Hw1 (conj Hw3 _)))))).
    intros payload' proxies' Hin'. rewrite Hrun in Hin'.
    apply in_app_or in Hin' as [Hin'|Hin'].
    + destruct (Hall _ _ Hin') as [-> ->]. eauto.
    + simpl in Hin'. destruct Hin' as [Hin'|Hin']; [discriminate|].
      apply (quiet_in _ _ _ Hp3) in Hin'. discriminate.
  - left. eapply aborted_bind_left; [exact Hs|exact Hb|discriminate].
  - left. eapply aborted_bind_left; [exact Hs|exact Hb|discriminate].
Qed.

Lemma main_aborted_or_recorded (E : env) (a : args) (s : state) :
  aborted s (main E a s) \/ recorded E (main E a s).
Proof.
  unfold main.
  apply aborted_or_recorded_bind; [auto with frames|auto with quiet|]. intros _ s1.
  destruct (negb (opt_str_truthy (input a))).
  { left. split.
    - apply frames_bind; [apply frames_eprint|]. intros _.
      now apply frames_sys_exit.
    - intros u. discriminate. }
  apply aborted_or_recorded_bind; [auto with frames|auto with quiet|]. intros _ s2.
  apply aborted_or_recorded_bind; [auto with frames|auto with quiet|]. intros b s3.
  apply aborted_or_recorded_bind; [frames_tac|quiet_tac|]. intros acq s4.
  apply summarize_then_record; intro j; [frames_tac|quiet_tac].
Qed.

Lemma service_success_not_failure (r : response) :
  service_success r -> ~ service_failure r.
Proof.
  intros (H429 & Hok & kv & Hj & Ht) [F|[F|(kv' & Hj' & Ht')]]; try congruence.
Qed.

Lemma aborted_exit_status {A} (s : state) (o : result A * state * list event) :
  aborted s o -> exit_status (res_of o) <> 0%Z.
Proof.
  intros [(_ & _ & Hc) Hr]. destruct (res_of o) as [a|c|x] eqn:R; simpl.
  - now destruct (Hr a).
  - now apply Hc.
  - discriminate.
Qed.

Lemma single_write_position (e1 e3 pre post : list event) (w w' : event) :
  existsb is_rate_limit_write e1 = false ->
  is_rate_limit_write w' = true ->
  (e1 ++ w :: e3 = pre ++ w' :: post)%list ->
  is_rate_limit_write w = true ->
  existsb is_rate_limit_write e3 = false ->
  e1 = pre.
Proof.
  revert pre. induction e1 as [|x e1 IH]; intros pre H1 Hw' Heq Hw H3.
  - destruct pre as [|y pre]; [reflexivity|].
    simpl in Heq. injection Heq as <- Heq.
    assert (existsb is_rate_limit_write e3 = true) as C.
    { rewrite Heq, existsb_app. simpl. rewrite Hw'. now rewrite orb_true_r. }
    congruence.
  - simpl in H1. apply orb_false_iff in H1 as [Hx H1].
    destruct pre as [|y pre].
    + simpl in Heq. injection Heq as -> _. congruence.
    + simpl in Heq. injection Heq as <- Heq. f_equal. now apply IH.
Qed.

(** ** Matching the arXiv patterns *)

Lemma string_length_app (a b : string) :
  String.length (a ++ b) = (String.length a + String.length b)%nat.
Proof. induction a as [|c a IH]; simpl; [reflexivity | now rewrite IH]. Qed.

Lemma substring_prefix (a b : string) :
  String.substring 0 (String.length a) (a ++ b) = a.
Proof.
  induction a as [|c a IH]; simpl.
  - destruct b; reflexivity.
  - now rewrite IH.
Qed.

Lemma consumed_app (a b : string) : Regex.consumed (a ++ b) b = a.
Proof.
  unfold Regex.consumed. rewrite string_length_app.
  replace (String.length a + String.length b - String.length b)%nat
    with (String.length a) by lia.
  apply substring_prefix.
Qed.

Lemma star_any_to_end {R} (q : string) (k : string -> option R) (r : R) :
  avoids is_newline q = true ->
  k EmptyString = Some r ->
  Regex.star Regex.AAny q k = Some r.
Proof.
  intros Hq Hk. induction q as [|c q IH]; simpl.
  - exact Hk.
  - simpl in Hq. apply andb_true_iff in Hq as [Hc Hq].
    unfold is_newline in Hc. rewrite Hc, (IH Hq). reflexivity.
Qed.

(** The lazy group takes all of [id] when no shorter non-empty prefix lets
    the rest of the pattern match. *)
Lemma plus_lazy_takes_all {R} (id rest : string) (k : string -> option R) (r : R) :
  id <> EmptyString ->
  avoids is_newline id = true ->
  (forall c suf, k (String c suf ++ rest) = None \/ ~ exists pre, id = pre ++ String c suf) ->
  k rest = Some r ->
  Regex.plus_lazy Regex.AAny (id ++ rest) k = Some r.
Proof.
  intros Hne Hnl Hfail Hk.
  induction id as [|c id IH]; [congruence|].
  simpl in Hnl. apply andb_true_iff in Hnl as [Hc Hnl].
  unfold is_newline in Hc.
  change (String c id ++ rest) with (String c (id ++ rest)).
  cbn [Regex.plus_lazy Regex.atom_matches]. rewrite Hc.
  destruct id as [|d id'].
  - change (EmptyString ++ rest) with rest. now rewrite Hk.
  - destruct (Hfail d id') as [Hn|Hn].
    + rewrite Hn. apply IH; [discriminate|exact Hnl|].
      intros c' suf. destruct (Hfail c' suf) as [F|F]; [now left|].
      right. intros [pre Hpre]. apply F. exists (String c pre). simpl. now rewrite Hpre.
    + exfalso. apply Hn. exists (String c EmptyString). reflexivity.
Qed.

Lemma avoids_weaken (p q : ascii -> bool) (s : string) :
  (forall c, q c = true -> p c = true) ->
  avoids p s = true -> avoids q s = true.
Proof.
  intros Hpq. induction s as [|c s IH]; simpl; [reflexivity|].
  intro H. apply andb_true_iff in H as [Hc Hs].
  rewrite (IH Hs). destruct (q c) eqn:Q; [|reflexivity].
  rewrite (Hpq c Q) in Hc. discriminate.
Qed.

Lemma avoids_app_inv (p : ascii -> bool) (pre : string) (c : ascii) (suf : string) :
  avoids p (pre ++ String c suf) = true -> p c = false.
Proof.
  induction pre as [|d pre IH]; simpl; intro H;
    apply andb_true_iff in H as [H1 H2].
  - now apply negb_true_iff in H1.
  - now apply IH.
Qed.

(** The common ending of the patterns on an identifier without newline or
    question mark, alone or followed by a query string. *)
Lemma arxiv_tail_match (id query : string) :
  id <> EmptyString ->
  avoids is_newline_or_question id = true ->
  query = EmptyString
  \/ (exists q, query = "?" ++ q /\ avoids is_newline q = true) ->
  Regex.run arxiv_tail (id ++ query) None (fun _ g => Some g) = Some (Some id).
Proof.
  intros Hne Hid Hq. unfold arxiv_tail. cbn [Regex.run].
  apply plus_lazy_takes_all.
  - exact Hne.
  - revert Hid. apply avoids_weaken. intros c Hc.
    unfold is_newline_or_question. unfold is_newline in Hc. now rewrite Hc.
  - intros c suf.
    destruct (is_newline_or_question c) eqn:Hc.
    + right. intros [pre ->]. apply avoids_app_inv in Hid. congruence.
    + left. unfold is_newline_or_question in Hc.
      apply orb_false_iff in Hc as [Hn Hqm].
      change (String c suf ++ query) with (String c (suf ++ query)).
      cbn [Regex.run Regex.strip_prefix Regex.at_end].
      rewrite (Ascii.eqb_sym "?"%char c), Hqm, Hn.
      destruct (suf ++ query); reflexivity.
  - destruct Hq as [->|(q & -> & Hq)].
    + cbn. now rewrite consumed_app.
    + change ("?" ++ q) with (String "?"%char q).
      cbn [Regex.run Regex.strip_prefix]. rewrite Ascii.eqb_refl.
      erewrite star_any_to_end; [reflexivity|exact Hq|].
      cbn. now rewrite consumed_app.
Qed.

Lemma arxiv_abs_match (id query : string) :
  id <> EmptyString ->
  avoids is_newline_or_question id = true ->
  query = EmptyString
  \/ (exists q, query = "?" ++ q /\ avoids is_newline q = true) ->
  Regex.re_match arxiv_abs_pattern ("https://arxiv.org/abs/" ++ id ++ query)
  = Some (Some id)
  /\ Regex.re_match arxiv_abs_pattern ("http://arxiv.org/abs/" ++ id ++ query)
     = Some (Some id).
Proof.
  intros Hne Hid Hq. pose proof (arxiv_tail_match id query Hne Hid Hq) as Ht.
  unfold Regex.re_match, arxiv_abs_pattern.
  split; cbn -[arxiv_tail]; rewrite Ht; reflexivity.
Qed.

(** ** Routing of URLs *)

Lemma bind_ret_l {A B} (a : A) (f : A -> M B) (s : state) :
  bind (ret a) f s = f a s.
Proof. unfold bind, ret. now destruct (f a s) as [[r s2] e2]. Qed.

Lemma events_bind_emit {B} (e : event) (k : unit -> M B) (s : state) :
  events_of (bind (emit e) k s) = e :: events_of (k tt s).
Proof. unfold bind, emit, events_of. now destruct (k tt s) as [[r s2] e2]. Qed.

Lemma browser_free_download (E : env) (url : string) :
  quiet is_browser_event (_download_pdf_text E url).
Proof. unfold _download_pdf_text. quiet_tac. Qed.

Lemma cloudflare_loop_quiet (p : event -> bool) (fuel : nat) (pg : page)
      (start timeout : Q) (n : nat) :
  (forall k, p (EvBrowserPoll k) = false) ->
  p (EvStdout MsgCloudflare) = false ->
  p (EvSleep 2) = false ->
  quiet p (cloudflare_loop fuel pg start timeout n).
Proof.
  intros Hpoll Hmsg Hsleep. revert n.
  induction fuel as [|fuel IH]; intro n; simpl; quiet_tac.
  - now apply quiet_emit.
  - now apply quiet_emit.
  - now apply quiet_time_sleep.
Qed.

(** ** Classification of the input *)

Lemma prefix_iff (p s : string) :
  String.prefix p s = true <-> exists rest, s = p ++ rest.
Proof.
  revert s. induction p as [|c p IH]; intro s.
  - split; [intros _; now exists s | intros _; now destruct s].
  - destruct s as [|d s]; simpl.
    { split; [discriminate | intros [r Hr]; discriminate]. }
    destruct (ascii_dec c d) as [<-|Hcd].
    + rewrite IH. split; intros [r Hr]; exists r; [now rewrite Hr | now injection Hr].
    + split; [discriminate|]. intros [r Hr]. injection Hr as <- _. congruence.
Qed.

Lemma has_url_scheme_iff (i : string) :
  Py.startswith i "http://" || Py.startswith i "https://" = true <-> has_url_scheme i.
Proof.
  unfold has_url_scheme, Py.startswith.
  rewrite orb_true_iff, !prefix_iff. reflexivity.
Qed.




(** ** Trimming *)

Lemma lstrip_with_spec (p : ascii -> bool) (s : string) :
  exists l, s = l ++ Py.lstrip_with p s
            /\ only p l = true
            /\ starts_with p (Py.lstrip_with p s) = false.
Proof.
  induction s as [|c s (l & Hs & Hl & Hst)]; simpl.
  - now exists EmptyString.
  - destruct (p c) eqn:Hc.
    + exists (String c l). simpl. rewrite <- Hs.
      unfold only in *. simpl. now rewrite Hc, Hl.
    + exists EmptyString. simpl. now rewrite Hc.
Qed.

Lemma rstrip_with_spec (p : ascii -> bool) (s : string) :
  exists r, s = Py.rstrip_with p s ++ r
            /\ only p r = true
            /\ ends_with p (Py.rstrip_with p s) = false.
Proof.
  induction s as [|c s (r & Hs & Hr & He)]; simpl.
  - now exists EmptyString.
  - destruct (Py.rstrip_with p s) as [|d t] eqn:Ht.
    + simpl in Hs. subst s. destruct (p c) eqn:Hc.
      * exists (String c r). unfold only in *. simpl. now rewrite Hc, Hr.
      * exists r. simpl. now rewrite Hc.
    + exists r. simpl. rewrite Hs. simpl. repeat split; assumption.
Qed.

Lemma rstrip_with_keeps_start (p : ascii -> bool) (s : string) :
  starts_with p s = false -> starts_with p (Py.rstrip_with p s) = false.
Proof.
  destruct s as [|c s]; simpl; [reflexivity|]. intro Hc.
  destruct (Py.rstrip_with p s); rewrite ?Hc; simpl; exact Hc.
Qed.

Lemma string_app_assoc (a b c : string) : (a ++ b) ++ c = a ++ b ++ c.
Proof. induction a as [|x a IH]; simpl; [reflexivity | now rewrite IH]. Qed.

Lemma strip_trimmed (text : string) : trimmed_of text (Py.strip text).
Proof.
  unfold trimmed_of, Py.strip, Py.strip_with.
  destruct (lstrip_with_spec Py.isspace text) as (l & Hl & Hol & Hst).
  destruct (rstrip_with_spec Py.isspace (Py.lstrip_with Py.isspace text))
    as (r & Hr & Hor & Hen).
  exists l, r. repeat split; try assumption.
  - now rewrite <- Hr.
  - now apply rstrip_with_keeps_start.
Qed.

(** ** Local PDF extraction *)

(** C5.  On a path that does not exist the call exits with status 1 after
    the existence test alone.  On a file larger than 50 MiB it exits with
    status 1 after the existence test and the [stat], before any read of
    the content.  Otherwise, when pdfminer yields a text, the call returns
    that text without its leading and trailing whitespace, the read coming
    after both checks. *)
Theorem extract_text_from_pdf_checks (E : env) (pdf_path : string) (s : state) :
  let pdf_file := resolve E pdf_path in
  (fs_size E pdf_file = None ->
   _extract_text_from_pdf E pdf_path s
   = (Exit 1%Z, s, [EvFsExists pdf_file; EvStderr (MsgFileNotFound pdf_file)]))
  /\ (forall size,
         fs_size E pdf_file = Some size -> (size_ceiling < size)%Z ->
         _extract_text_from_pdf E pdf_path s
         = (Exit 1%Z, s,
            [EvFsExists pdf_file; EvFsStat pdf_file; EvStderr MsgFileTooLarge]))
  /\ (forall size text,
         fs_size E pdf_file = Some size -> (size <= size_ceiling)%Z ->
         local_pdf_text E pdf_file = Some text ->
         res_of (_extract_text_from_pdf E pdf_path s) = Ret (Py.strip text)
         /\ trimmed_of text (Py.strip text)
         /\ state_of (_extract_text_from_pdf E pdf_path s) = s
         /\ events_of (_extract_text_from_pdf E pdf_path s)
            = ([EvFsExists pdf_file; EvFsStat pdf_file;
                EvStdout (MsgExtractingPdf (path_name E pdf_file));
                EvPdfExtract pdf_file]
               ++ (if pdf_low_content text then [EvStderr MsgLowContentPdf] else []))%list).
Proof.
  intro pdf_file. unfold _extract_text_from_pdf, size_ceiling. fold pdf_file.
  change (50 * 1024 * 1024)%Z with 52428800%Z.
  split; [|split].
  - intros ->. reflexivity.
  - intros size -> Hbig. apply Z.ltb_lt in Hbig.
    unfold bind, emit, eprint, sys_exit. simpl. rewrite Hbig. reflexivity.
  - intros size text -> Hsmall ->. apply Z.ltb_ge in Hsmall.
    split; [|split; [apply strip_trimmed|]];
      unfold bind, emit, eprint, print, ret, res_of, state_of, events_of; simpl;
      rewrite Hsmall; destruct (pdf_low_content text); auto.
Qed.

Lemma extract_text_from_pdf_checks_witness :
  (fs_size sample_web_env (resolve sample_web_env "missing.pdf") = None
   /\ _extract_text_from_pdf sample_web_env "missing.pdf" fresh_state
      = (Exit 1%Z, fresh_state,
         [EvFsExists "/work/missing.pdf";
          EvStderr (MsgFileNotFound "/work/missing.pdf")]))
  /\ (fs_size (sample_env 60000000 long_text long_text summary_response)
              "/work/paper.pdf" = Some 60000000%Z
      /\ (size_ceiling < 60000000)%Z
      /\ _extract_text_from_pdf (sample_env 60000000 long_text long_text summary_response)
                                "paper.pdf" fresh_state
         = (Exit 1%Z, fresh_state,
            [EvFsExists "/work/paper.pdf"; EvFsStat "/work/paper.pdf";
             EvStderr MsgFileTooLarge]))
  /\ (fs_size (sample_env 30408704 ("  " ++ long_text ++ Py.nl) long_text summary_response)
              "/work/paper.pdf" = Some 30408704%Z
      /\ (30408704 <= size_ceiling)%Z
      /\ res_of (_extract_text_from_pdf
                   (sample_env 30408704 ("  " ++ long_text ++ Py.nl) long_text
                               summary_response)
                   "paper.pdf" fresh_state) = Ret long_text).
Proof.
  split; [|split].
  - split; [reflexivity|].
    exact (proj1 (extract_text_from_pdf_checks sample_web_env "missing.pdf" fresh_state)
                 eq_refl).
  - split; [reflexivity|]. split; [reflexivity|].
    exact (proj1 (proj2 (extract_text_from_pdf_checks
                           (sample_env 60000000 long_text long_text summary_response)
                           "paper.pdf" fresh_state))
                 60000000%Z eq_refl eq_refl).
  - split; [reflexivity|]. split; [vm_compute; discriminate|].
    refine (proj1 (proj2 (proj2 (extract_text_from_pdf_checks
                           (sample_env 30408704 ("  " ++ long_text ++ Py.nl) long_text
                                       summary_response)
                           "paper.pdf" fresh_state))
                 30408704%Z ("  " ++ long_text ++ Py.nl) eq_refl _ eq_refl)).
    vm_compute. discriminate.
Defined.

(** ** Proxy selection *)

Lemma nth_error_mod_in {A} (l : list A) (r : nat) :
  l <> [] -> exists v, nth_error l (r mod List.length l) = Some v /\ In v l.
Proof.
  intro Hne.
  destruct (nth_error l (r mod List.length l)) as [v|] eqn:Hn.
  - exists v. split; [reflexivity|]. eapply nth_error_In. exact Hn.
  - apply nth_error_None in Hn.
    assert (List.length l <> 0)%nat by (destruct l; simpl; congruence).
    pose proof (Nat.mod_upper_bound r (List.length l) H). lia.
Qed.

Lemma random_choice_array (E : env) (l : list json) (s : state) :
  random_choice E (JArr l) s
  = match nth_error l (random_draw E (draws s) mod List.length l) with
    | Some v => (Ret v, drew s, [])
    | None => (Raise IndexError, drew s, [])
    end.
Proof.
  unfold random_choice, randbelow, bind, ret. cbn [fst snd].
  destruct (nth_error l (random_draw E (draws s) mod List.length l)); reflexivity.
Qed.

(** The selection rule, where the configuration can be read.  The call
    returns [None] when the override switches proxying off and the source
    can be decoded, when the configuration source is missing, unreadable or
    not JSON (whatever the override), when the configuration switches
    proxying off and no override is set, and when the proxy list is empty
    or absent; no exception is raised in these cases.  When proxying is
    switched on and the list is not empty the call returns the member of
    the list at the index that the random draw selects. *)
Theorem get_proxy_url_selection (E : env) (s : state) :
  (proxy_force s = Some false -> proxy_source E <> CfgUndecodable ->
   _get_proxy_url E s = (Ret JNull, s, []))
  /\ (degraded (proxy_source E) -> _get_proxy_url E s = (Ret JNull, s, []))
  /\ (forall kv,
         proxy_source E = CfgParsed (JObj kv) ->
         proxying_enabled (proxy_force s) kv = false ->
         _get_proxy_url E s = (Ret JNull, s, []))
  /\ (forall kv,
         proxy_source E = CfgParsed (JObj kv) ->
         dict_get kv "proxies" (JArr []) = JArr [] ->
         _get_proxy_url E s = (Ret JNull, s, []))
  /\ (forall kv l,
         proxy_source E = CfgParsed (JObj kv) ->
         proxying_enabled (proxy_force s) kv = true ->
         dict_get kv "proxies" (JArr []) = JArr l ->
         l <> [] ->
         exists u,
           In u l
           /\ nth_error l (random_draw E (draws s) mod List.length l) = Some u
           /\ _get_proxy_url E s = (Ret u, drew s, [])).
Proof.
  unfold _get_proxy_url, _load_proxy_config, degraded, proxying_enabled.
  split; [|split; [|split; [|split]]].
  - intros Hf Hsrc. unfold bind, ret, get_state.
    destruct (proxy_source E); try (now destruct Hsrc);
      simpl; rewrite Hf; reflexivity.
  - intros [ -> | [ -> | -> ] ]; unfold bind, ret, get_state, py_get; simpl;
      destruct (proxy_force s) as [[|]|]; reflexivity.
  - intros kv -> Hoff. unfold bind, ret, get_state, py_get. simpl.
    destruct (proxy_force s) as [b|]; simpl in *; rewrite Hoff; reflexivity.
  - intros kv -> Hempty. unfold bind, ret, get_state, py_get. simpl.
    destruct (proxy_force s) as [b|]; simpl.
    + destruct b; simpl; [rewrite Hempty|]; reflexivity.
    + destruct (truthy (dict_get kv "enabled" (JBool false))); simpl;
        [rewrite Hempty|]; reflexivity.
  - intros kv l -> Hon Hl Hne.
    destruct (nth_error_mod_in l (random_draw E (draws s)) Hne) as (u & Hnth & Hin).
    exists u. split; [exact Hin|]. split; [exact Hnth|].
    assert (truthy (JArr l) = true) as Htl by (destruct l; [congruence | reflexivity]).
    pose proof (random_choice_array E l s) as Hc. rewrite Hnth in Hc.
    unfold bind, ret, get_state, py_get. cbn [fst snd].
    destruct (proxy_force s) as [b|]; cbn [proxying_enabled] in Hon.
    + subst b. cbn -[random_choice dict_get]. rewrite Hl, Htl.
      cbn -[random_choice]. now rewrite Hc.
    + cbn -[random_choice dict_get truthy]. rewrite Hon. cbn -[random_choice dict_get truthy].
      rewrite Hl, Htl. cbn -[random_choice]. now rewrite Hc.
Qed.

Lemma get_proxy_url_selection_witness :
  (proxy_force (with_force (Some false) fresh_state) = Some false
   /\ _get_proxy_url (proxied_env (CfgParsed (JObj two_proxies)) (fun _ => 1))
                     (with_force (Some false) fresh_state)
      = (Ret JNull, with_force (Some false) fresh_state, []))
  /\ (degraded (proxy_source (proxied_env CfgMalformed (fun _ => 1)))
      /\ _get_proxy_url (proxied_env CfgMalformed (fun _ => 1))
                        (with_force (Some true) fresh_state)
         = (Ret JNull, with_force (Some true) fresh_state, []))
  /\ (proxying_enabled (proxy_force fresh_state) switched_off = false
      /\ _get_proxy_url (proxied_env (CfgParsed (JObj switched_off)) (fun _ => 1))
                        fresh_state
         = (Ret JNull, fresh_state, []))
  /\ (dict_get [("enabled", JBool true)] "proxies" (JArr []) = JArr []
      /\ _get_proxy_url (proxied_env (CfgParsed (JObj [("enabled", JBool true)]))
                                     (fun _ => 1))
                        fresh_state
         = (Ret JNull, fresh_state, []))
  /\ (proxying_enabled (proxy_force fresh_state) two_proxies = true
      /\ exists u,
          In u [JStr "http://10.0.0.1:8080"; JStr "http://10.0.0.2:8080"]
          /\ nth_error [JStr "http://10.0.0.1:8080"; JStr "http://10.0.0.2:8080"]
                       (1 mod 2) = Some u
          /\ _get_proxy_url (proxied_env (CfgParsed (JObj two_proxies)) (fun _ => 1))
                            fresh_state
             = (Ret u, drew fresh_state, [])).
Proof.
  split; [|split; [|split; [|split]]].
  - split; [reflexivity|].
    exact (proj1 (get_proxy_url_selection
                    (proxied_env (CfgParsed (JObj two_proxies)) (fun _ => 1))
                    (with_force (Some false) fresh_state))
                 eq_refl ltac:(discriminate)).
  - assert (degraded (proxy_source (proxied_env CfgMalformed (fun _ => 1)))) as Hd
      by (right; right; reflexivity).
    split; [exact Hd|].
    exact (proj1 (proj2 (get_proxy_url_selection
                           (proxied_env CfgMalformed (fun _ => 1))
                           (with_force (Some true) fresh_state))) Hd).
  - split; [reflexivity|].
    exact (proj1 (proj2 (proj2 (get_proxy_url_selection
                           (proxied_env (CfgParsed (JObj switched_off)) (fun _ => 1))
                           fresh_state))) switched_off eq_refl eq_refl).
  - split; [reflexivity|].
    exact (proj1 (proj2 (proj2 (proj2 (get_proxy_url_selection
                           (proxied_env (CfgParsed (JObj [("enabled", JBool true)]))
                                        (fun _ => 1))
                           fresh_state)))) [("enabled", JBool true)] eq_refl eq_refl).
  - split; [reflexivity|].
    refine (proj2 (proj2 (proj2 (proj2 (get_proxy_url_selection
                           (proxied_env (CfgParsed (JObj two_proxies)) (fun _ => 1))
                           fresh_state)))) two_proxies
                  [JStr "http://10.0.0.1:8080"; JStr "http://10.0.0.2:8080"]
                  eq_refl eq_refl eq_refl _).
    discriminate.
Defined.

(** A configuration that is valid JSON but not an object is outside the
    cases above: looking up [enabled] raises. *)
Lemma get_proxy_url_on_json_array :
  _get_proxy_url (proxied_env (CfgParsed (JArr [])) (fun _ => 1)) fresh_state
  = (Raise AttributeError, fresh_state, []).
Proof. reflexivity. Qed.

(** Whatever JSON value the source holds that is not an object, the first
    [config.get] raises, unless the override has switched proxying off
    before. *)
Lemma get_proxy_url_on_non_object (E : env) (s : state) (j : json) :
  proxy_source E = CfgParsed j ->
  (forall kv, j <> JObj kv) ->
  proxy_force s <> Some false ->
  _get_proxy_url E s = (Raise AttributeError, s, []).
Proof.
  intros Hsrc Hj Hf. unfold _get_proxy_url, _load_proxy_config. rewrite Hsrc.
  unfold bind, ret, raise, get_state, py_get. cbn [fst snd].
  destruct (proxy_force s) as [[|]|]; [| now destruct Hf |];
    destruct j as [| | | | |kv]; try reflexivity; now destruct (Hj kv).
Qed.

(** A source that cannot be decoded as text raises before anything else
    is looked at, whatever the override. *)
Lemma get_proxy_url_on_undecodable (E : env) (s : state) :
  proxy_source E = CfgUndecodable ->
  _get_proxy_url E s = (Raise UnicodeDecodeError, s, []).
Proof.
  intro Hsrc. unfold _get_proxy_url, _load_proxy_config. now rewrite Hsrc.
Qed.

(** C6.  The degradation to "no proxy" misses two kinds of malformed
    configuration source.  With a configuration file that holds the JSON
    array [[]] and no override, [_get_proxy_url] raises [AttributeError]
    instead of returning [None]; with a file that is not text in the
    expected encoding it raises [UnicodeDecodeError].  A run of [main] on a
    local PDF under the first configuration ends with that exception,
    before any request is posted.  The rest of the claim holds
    ([get_proxy_url_selection]). *)
Theorem malformed_proxy_config_raises :
  _get_proxy_url (proxied_env (CfgParsed (JArr [])) (fun _ => 1)) fresh_state
  = (Raise AttributeError, fresh_state, [])
  /\ _get_proxy_url (proxied_env CfgUndecodable (fun _ => 1)) fresh_state
     = (Raise UnicodeDecodeError, fresh_state, [])
  /\ res_of (main (proxied_env (CfgParsed (JArr [])) (fun _ => 1))
                  (sample_args "paper.pdf") fresh_state)
     = Raise AttributeError
  /\ existsb is_post
       (events_of (main (proxied_env (CfgParsed (JArr [])) (fun _ => 1))
                        (sample_args "paper.pdf") fresh_state))
     = false.
Proof.
  split; [|split; [|split]].
  - apply (get_proxy_url_on_non_object _ _ (JArr [])); [reflexivity| |];
      discriminate.
  - now apply get_proxy_url_on_undecodable.
  - vm_compute. reflexivity.
  - vm_compute. reflexivity.
Qed.

(** ** Recording after summarization *)

(** C8.  In a run of [main] whose request to the summarization service is
    answered with HTTP 429, with another status that is not a success, or
    with a success whose summary is empty or missing, the exit status is
    not zero and the rate-limit log is left as it was, with no write at
    all.  In any run, a write of the log is preceded by a request that the
    service answered with a success carrying a summary. *)
Theorem failed_summarization_records_nothing (E : env) (a : args) (s : state) :
  (forall payload proxies resp,
      In (EvHttpPost payload proxies) (events_of (main E a s)) ->
      http_post E payload proxies = Some resp ->
      service_failure resp ->
      exit_status (res_of (main E a s)) <> 0%Z
      /\ rl_file (state_of (main E a s)) = rl_file s
      /\ existsb is_rate_limit_write (events_of (main E a s)) = false)
  /\ (forall pre ts post,
         events_of (main E a s) = (pre ++ EvWriteRateLimit ts :: post)%list ->
         exists payload proxies resp,
           In (EvHttpPost payload proxies) pre
           /\ http_post E payload proxies = Some resp
           /\ service_success resp).
Proof.
  destruct (main_aborted_or_recorded E a s) as [Hab|Hrec]; split.
  - intros _ _ _ _ _ _. split; [now apply (aborted_exit_status s)|].
    destruct Hab as [(Hf & Hw & _) _]. now split.
  - intros pre ts post Hev. destruct Hab as [(_ & Hw & _) _].
    rewrite Hev, existsb_app in Hw. simpl in Hw.
    rewrite orb_true_r in Hw. discriminate.
  - intros payload proxies resp Hin Hpost Hfail.
    destruct Hrec as (_ & _ & _ & _ & _ & _ & _ & _ & _ & _ & _ & _ & Hall).
    destruct (Hall payload proxies Hin) as (resp' & Hpost' & Hok).
    rewrite Hpost in Hpost'. injection Hpost' as <-.
    now destruct (service_success_not_failure resp Hok).
  - intros pre ts post Hev.
    destruct Hrec as (e1 & ts' & e3 & payload & proxies & resp
                      & Hev' & Hin & Hpost & Hok & Hw1 & Hw3 & _).
    rewrite Hev' in Hev.
    assert (e1 = pre) as <-
      by (eapply single_write_position; [exact Hw1| |exact Hev| |exact Hw3]; reflexivity).
    now exists payload, proxies, resp.
Qed.

Lemma failed_summarization_records_nothing_witness :
  (In (EvHttpPost (JStr long_text) JNull)
      (events_of (main rate_limited_env (sample_args "https://arxiv.org/abs/1234.5678")
                       fresh_state))
   /\ http_post rate_limited_env (JStr long_text) JNull = Some rate_limited_response
   /\ service_failure rate_limited_response
   /\ exit_status (res_of (main rate_limited_env
                                (sample_args "https://arxiv.org/abs/1234.5678")
                                fresh_state)) <> 0%Z
   /\ rl_file (state_of (main rate_limited_env
                              (sample_args "https://arxiv.org/abs/1234.5678")
                              fresh_state)) = rl_file fresh_state
   /\ existsb is_rate_limit_write
        (events_of (main rate_limited_env
                         (sample_args "https://arxiv.org/abs/1234.5678")
                         fresh_state)) = false)
  /\ (events_of (main sample_web_env (sample_args "paper.pdf") fresh_state)
      = (firstn 7 (events_of (main sample_web_env (sample_args "paper.pdf") fresh_state))
         ++ EvWriteRateLimit [1000%Q]
         :: skipn 8 (events_of (main sample_web_env (sample_args "paper.pdf")
                                     fresh_state)))%list
      /\ exists payload proxies resp,
          In (EvHttpPost payload proxies)
             (firstn 7 (events_of (main sample_web_env (sample_args "paper.pdf")
                                        fresh_state)))
          /\ http_post sample_web_env payload proxies = Some resp
          /\ service_success resp).
Proof.
  split.
  - assert (In (EvHttpPost (JStr long_text) JNull)
               (events_of (main rate_limited_env
                                (sample_args "https://arxiv.org/abs/1234.5678")
                                fresh_state))) as Hin
      by (vm_compute; tauto).
    assert (service_failure rate_limited_response) as Hfail by (left; reflexivity).
    split; [exact Hin|]. split; [reflexivity|]. split; [exact Hfail|].
    exact (proj1 (failed_summarization_records_nothing
                    rate_limited_env (sample_args "https://arxiv.org/abs/1234.5678")
                    fresh_state)
                 (JStr long_text) JNull rate_limited_response Hin eq_refl Hfail).
  - assert (events_of (main sample_web_env (sample_args "paper.pdf") fresh_state)
            = (firstn 7 (events_of (main sample_web_env (sample_args "paper.pdf")
                                         fresh_state))
               ++ EvWriteRateLimit [1000%Q]
               :: skipn 8 (events_of (main sample_web_env (sample_args "paper.pdf")
                                           fresh_state)))%list) as Hev
      by reflexivity.
    split; [exact Hev|].
    exact (proj2 (failed_summarization_records_nothing
                    sample_web_env (sample_args "paper.pdf") fresh_state)
                 (firstn 7 (events_of (main sample_web_env (sample_args "paper.pdf")
                                            fresh_state)))
                 [1000%Q]
                 (skipn 8 (events_of (main sample_web_env (sample_args "paper.pdf")
                                           fresh_state)))
                 Hev).
Defined.

(** ** The log is written by [record_request] alone *)

(** C10.  [check_rate_limit] leaves the rate-limit log as it found it,
    whether it returns or exits, and emits no write; so does every other
    function of the script but [record_request], which replaces the log by
    the pruned history followed by the current time. *)
Theorem check_rate_limit_leaves_log (s : state) :
  rl_file (state_of (check_rate_limit s)) = rl_file s
  /\ existsb is_rate_limit_write (events_of (check_rate_limit s)) = false
  /\ record_request s
     = (Ret tt,
        {| clock := clock s;
           rl_file := RLData (prune (clock s) 3600 (history s) ++ [clock s]);
           proxy_force := proxy_force s;
           draws := draws s |},
        [EvWriteRateLimit (prune (clock s) 3600 (history s) ++ [clock s])])
  /\ forall E : env,
      frames (_get_proxy_url E)
      /\ frames (_get_proxy E)
      /\ (forall i, frames (_is_local_file E i))
      /\ (forall url, frames (_extract_text_from_url E url))
      /\ (forall pdf_path, frames (_extract_text_from_pdf E pdf_path))
      /\ (forall content dbg, frames (summarize_content E content dbg))
      /\ (forall summary url title, frames (to_markdown E summary url title)).
Proof.
  destruct (frames_check_rate_limit s) as (Hf & Hw & _).
  split; [exact Hf|]. split; [exact Hw|]. split; [reflexivity|].
  intro E. repeat match goal with |- _ /\ _ => split end; intros; auto with frames.
Qed.

(** ** Low-content warnings *)

Lemma download_pdf_text_never_warns (E : env) (url : string) :
  quiet is_low_content_warning (_download_pdf_text E url).
Proof. unfold _download_pdf_text. quiet_tac. Qed.

(** C9, at the failing input.  An abstract address whose PDF holds three
    characters: the text comes back, and no warning is printed. *)
Lemma download_pdf_short_text_without_warning :
  _extract_text_from_url short_pdf_env "https://arxiv.org/abs/1234.5678" fresh_state
  = (Ret (Some "abc", None), fresh_state,
     [EvStdout (MsgDownloadingPdf "https://arxiv.org/pdf/1234.5678");
      EvHttpGet "https://arxiv.org/pdf/1234.5678" JNull;
      EvTmpWrite; EvTmpExtract; EvTmpUnlink])
  /\ (String.length "abc" < 50)%nat
  /\ existsb is_low_content_warning
       (events_of (_extract_text_from_url short_pdf_env
                     "https://arxiv.org/abs/1234.5678" fresh_state)) = false.
Proof. split; [reflexivity|]. split; [vm_compute; lia | reflexivity]. Qed.

(** The local PDF path does warn, and returns the trimmed text. *)
Lemma local_pdf_low_content_warns (E : env) (pdf_path : string) (s : state)
      (size : Z) (text : string) :
  fs_size E (resolve E pdf_path) = Some size ->
  (size <= size_ceiling)%Z ->
  local_pdf_text E (resolve E pdf_path) = Some text ->
  pdf_low_content text = true ->
  res_of (_extract_text_from_pdf E pdf_path s) = Ret (Py.strip text)
  /\ In (EvStderr MsgLowContentPdf) (events_of (_extract_text_from_pdf E pdf_path s)).
Proof.
  intros Hsize Hsmall Htext Hlow. apply Z.ltb_ge in Hsmall.
  unfold size_ceiling in Hsmall.
  change (50 * 1024 * 1024)%Z with 52428800%Z in Hsmall.
  unfold _extract_text_from_pdf. rewrite Hsize, Htext.
  change (50 * 1024 * 1024)%Z with 52428800%Z.
  unfold bind, emit, eprint, print, ret, res_of, events_of. simpl.
  rewrite Hsmall, Hlow. simpl. tauto.
Qed.

(** ** The challenge wait and the browser path *)

Lemma bind_run {A B} (m : M A) (f : A -> M B) (s s1 : state) (a : A) (e1 : list event) :
  m s = (Ret a, s1, e1) ->
  bind m f s = (res_of (f a s1), state_of (f a s1), (e1 ++ events_of (f a s1))%list).
Proof.
  intro Hm. unfold bind, res_of, state_of, events_of. rewrite Hm.
  now destruct (f a s1) as [[r s2] e2].
Qed.

Lemma cloudflare_loop_step (fuel : nat) (pg : page) (start timeout : Q) (n : nat)
      (s : state) :
  cloudflare_loop (S fuel) pg start timeout n s
  = if Py.Qltb (clock s - start) timeout then
      if challenge_shown pg n then
        let o := cloudflare_loop fuel pg start timeout (S n) (slept s 2) in
        (res_of o, state_of o,
         EvBrowserPoll n :: EvStdout MsgCloudflare :: EvSleep 2 :: events_of o)
      else (Ret tt, s, [EvBrowserPoll n])
    else (Ret tt, s, []).
Proof.
  unfold challenge_shown. cbn [cloudflare_loop].
  unfold print. unfold bind, time_time, emit, time_sleep, ret.
  cbv beta iota. cbn [clock rl_file proxy_force draws].
  destruct (Py.Qltb (clock s - start) timeout); [|reflexivity].
  match goal with |- context [if ?c then _ else _] => destruct c end; [|reflexivity].
  fold (slept s 2).
  destruct (cloudflare_loop fuel pg start timeout (S n) (slept s 2)) as [[r s'] e].
  reflexivity.
Qed.

Lemma cloudflare_loop_returns (fuel : nat) (pg : page) (start timeout : Q) (n : nat)
      (s : state) :
  exists s' ev, cloudflare_loop fuel pg start timeout n s = (Ret tt, s', ev).
Proof.
  revert n s. induction fuel as [|fuel IH]; intros n s.
  - now exists s, [].
  - rewrite cloudflare_loop_step.
    destruct (Py.Qltb (clock s - start) timeout); [|now eexists _, _].
    destruct (challenge_shown pg n); [|now eexists _, _].
    destruct (IH (S n) (slept s 2)) as (s' & ev & ->).
    now eexists _, _.
Qed.

Lemma inject_nat_succ (f : nat) :
  (inject_Z (Z.of_nat (S f)) == inject_Z (Z.of_nat f) + 1)%Q.
Proof. rewrite Nat2Z.inj_succ, <- Z.add_1_r, inject_Z_plus. reflexivity. Qed.

(** Fuel beyond what the time budget allows is never used: once
    [timeout - elapsed < 2 * fuel], more fuel gives the same run. *)
(** Fuel beyond what the time budget allows is never used: once
    [timeout - elapsed < 2 * fuel], more fuel gives the same run. *)
Lemma cloudflare_loop_fuel (pg : page) (start timeout : Q) (f1 : nat) :
  forall (f2 n : nat) (s : state),
    (timeout - (clock s - start) < 2 * inject_Z (Z.of_nat f1))%Q ->
    (f1 <= f2)%nat ->
    cloudflare_loop f1 pg start timeout n s = cloudflare_loop f2 pg start timeout n s.
Proof.
  induction f1 as [|f1 IH]; intros f2 n s Hbudget Hle.
  - destruct f2 as [|f2]; [reflexivity|]. rewrite cloudflare_loop_step.
    assert (Py.Qltb (clock s - start) timeout = false) as ->.
    { apply Qltb_false. change (inject_Z (Z.of_nat 0)) with 0%Q in Hbudget. lra. }
    reflexivity.
  - destruct f2 as [|f2]; [lia|]. rewrite !cloudflare_loop_step.
    rewrite (IH f2 (S n) (slept s 2)); [reflexivity| |lia].
    rewrite inject_nat_succ in Hbudget. unfold slept. cbn [clock]. lra.
Qed.

(** The fuel that [_wait_for_cloudflare] passes is enough: any larger
    amount gives the same run. *)
Lemma wait_for_cloudflare_fuel (pg : page) (timeout_seconds : Z) (fuel : nat) (s : state) :
  (S (Z.to_nat (timeout_seconds / 2)) <= fuel)%nat ->
  _wait_for_cloudflare pg timeout_seconds s
  = bind time_time
         (fun start => cloudflare_loop fuel pg start (inject_Z timeout_seconds) 0) s.
Proof.
  intro Hfuel. unfold _wait_for_cloudflare.
  rewrite (bind_run _ _ s s (clock s) []) by reflexivity.
  rewrite (bind_run time_time _ s s (clock s) []) by reflexivity.
  rewrite (cloudflare_loop_fuel pg (clock s) (inject_Z timeout_seconds)
             (S (Z.to_nat (timeout_seconds / 2))) fuel 0 s); [reflexivity| |exact Hfuel].
  assert (timeout_seconds < 2 * Z.of_nat (S (Z.to_nat (timeout_seconds / 2))))%Z as Hz.
  { pose proof (Z.div_mod timeout_seconds 2 ltac:(lia)) as Hdm.
    pose proof (Z.mod_pos_bound timeout_seconds 2 ltac:(lia)) as Hmod.
    generalize dependent (timeout_seconds / 2)%Z.
    generalize dependent (timeout_seconds mod 2)%Z. intros. lia. }
  rewrite Zlt_Qlt, inject_Z_mult in Hz.
  change (inject_Z 2) with 2%Q in Hz. lra.
Qed.

Lemma wait_for_cloudflare_returns (pg : page) (timeout_seconds : Z) (s : state) :
  exists s' ev, _wait_for_cloudflare pg timeout_seconds s = (Ret tt, s', ev).
Proof.
  unfold _wait_for_cloudflare.
  rewrite (bind_run _ _ s s (clock s) []) by reflexivity.
  destruct (cloudflare_loop_returns (S (Z.to_nat (timeout_seconds / 2))) pg (clock s)
              (inject_Z timeout_seconds) 0 s) as (s' & ev & ->).
  now exists s', ev.
Qed.

(** The browser path warns on a short page and returns its text as it is. *)
Lemma browser_low_content_warns (E : env) (url : string) (s s1 : state)
      (proxy : json) (e1 : list event) (pg : page) :
  _rewrite_to_pdf_url url = None ->
  _launch_browser E s = (Ret proxy, s1, e1) ->
  browser_goto E url proxy = Some pg ->
  exists s2 mid,
    _extract_text_from_url E url s
    = (Ret (inner_text pg, doc_title pg), s2,
       (EvStdout (MsgExtractingUrl url) :: e1 ++ EvBrowserGoto url :: mid
        ++ EvBrowserEvaluate :: EvBrowserEvaluate :: EvBrowserClose
        :: (if page_low_content (inner_text pg)
            then [EvStderr MsgLowContentPage] else []))%list).
Proof.
  intros Hrw Hlaunch Hgoto.
  unfold _extract_text_from_url. rewrite Hrw. cbn [opt_str_truthy].
  rewrite (bind_run _ _ s s tt [EvStdout (MsgExtractingUrl url)]) by reflexivity.
  rewrite (bind_run _ _ s s1 proxy e1 Hlaunch).
  rewrite (bind_run _ _ s1 s1 tt [EvBrowserGoto url]) by reflexivity.
  rewrite Hgoto.
  destruct (wait_for_cloudflare_returns pg 30 s1) as (s2 & mid & Hwait).
  rewrite (bind_run _ _ s1 s2 tt mid Hwait).
  exists s2, mid.
  rewrite (bind_run _ _ s2 s2 tt [EvBrowserEvaluate]) by reflexivity.
  rewrite (bind_run _ _ s2 s2 tt [EvBrowserEvaluate]) by reflexivity.
  rewrite (bind_run _ _ s2 s2 tt [EvBrowserClose]) by reflexivity.
  destruct (page_low_content (inner_text pg)).
  - rewrite (bind_run _ _ s2 s2 tt [EvStderr MsgLowContentPage]) by reflexivity.
    unfold ret, res_of, state_of, events_of. simpl. reflexivity.
  - rewrite (bind_run _ _ s2 s2 tt []) by reflexivity.
    unfold ret, res_of, state_of, events_of. simpl. reflexivity.
Qed.

(** ** Routing of addresses *)

(** Launching the browser returns only after the launch. *)
Lemma launch_browser_returns (E : env) (s s1 : state) (proxy : json)
      (e1 : list event) :
  _launch_browser E s = (Ret proxy, s1, e1) -> In (EvBrowserLaunch proxy) e1.
Proof.
  unfold _launch_browser. intro Hrun.
  apply bind_ret_inv in Hrun as (u & s' & e' & e'' & _ & Hrun & ->).
  apply bind_ret_inv in Hrun as (t & s'' & x & y & Hemit & Hret & ->).
  unfold emit in Hemit. injection Hemit as _ _ <-.
  unfold ret in Hret. injection Hret as <- _ _.
  apply in_or_app. right. now left.
Qed.

(** C3.  A URL that matches the abstract pattern is rewritten to the PDF
    address of the captured identifier and handed to the PDF downloader,
    with no browser event.  A URL that matches neither pattern is kept and
    handed to the browser: after the announcement the browser is launched,
    and once it is launched the next event is the navigation to that very
    address; the run then fails with the navigation or returns the inner
    text and the title of the page reached, after closing the browser.  On
    this path there is no download event and no navigation to any other
    address.  The abstract pattern matches every [arxiv.org/abs/] address,
    with either scheme and with or without a query string, and captures
    the identifier. *)
Theorem arxiv_abstract_routed_to_pdf_download (E : env) (s : state) :
  (forall url m,
      Regex.re_match arxiv_abs_pattern url = Some m ->
      _rewrite_to_pdf_url url
      = Some ("https://arxiv.org/pdf/" ++ Regex.format_group m)
      /\ _extract_text_from_url E url s
         = _download_pdf_text E ("https://arxiv.org/pdf/" ++ Regex.format_group m) s
      /\ existsb is_browser_event (events_of (_extract_text_from_url E url s)) = false)
  /\ (forall url,
         Regex.re_match arxiv_abs_pattern url = None ->
         Regex.re_match arxiv_html_pattern url = None ->
         _rewrite_to_pdf_url url = None
         /\ (exists rest, events_of (_extract_text_from_url E url s)
                          = EvStdout (MsgExtractingUrl url) :: rest)
         /\ existsb is_download_event (events_of (_extract_text_from_url E url s)) = false
         /\ (forall u, In (EvBrowserGoto u) (events_of (_extract_text_from_url E url s)) ->
                       u = url)
         /\ (forall x s1 e1,
                _launch_browser E s = (Raise x, s1, e1) ->
                res_of (_extract_text_from_url E url s) = Raise x)
         /\ (forall proxy s1 e1,
                _launch_browser E s = (Ret proxy, s1, e1) ->
                In (EvBrowserLaunch proxy) e1
                /\ (exists rest,
                       events_of (_extract_text_from_url E url s)
                       = (EvStdout (MsgExtractingUrl url)
                          :: e1 ++ EvBrowserGoto url :: rest)%list)
                /\ (browser_goto E url proxy = None ->
                    res_of (_extract_text_from_url E url s) = Raise PlaywrightError)
                /\ (forall pg,
                       browser_goto E url proxy = Some pg ->
                       res_of (_extract_text_from_url E url s)
                       = Ret (inner_text pg, doc_title pg)
                       /\ In EvBrowserClose
                            (events_of (_extract_text_from_url E url s)))))
  /\ (forall id query,
         id <> EmptyString ->
         avoids is_newline_or_question id = true ->
         query = EmptyString
         \/ (exists q, query = "?" ++ q /\ avoids is_newline q = true) ->
         _rewrite_to_pdf_url ("https://arxiv.org/abs/" ++ id ++ query)
         = Some ("https://arxiv.org/pdf/" ++ id)
         /\ _rewrite_to_pdf_url ("http://arxiv.org/abs/" ++ id ++ query)
            = Some ("https://arxiv.org/pdf/" ++ id)).
Proof.
  split; [|split].
  - intros url m Hm.
    assert (_rewrite_to_pdf_url url
            = Some ("https://arxiv.org/pdf/" ++ Regex.format_group m)) as Hrw
      by (unfold _rewrite_to_pdf_url; now rewrite Hm).
    assert (_extract_text_from_url E url s
            = _download_pdf_text E ("https://arxiv.org/pdf/" ++ Regex.format_group m) s)
      as Hrun by (unfold _extract_text_from_url; now rewrite Hrw).
    split; [exact Hrw|]. split; [exact Hrun|].
    rewrite Hrun. apply browser_free_download.
  - intros url Habs Hhtml.
    assert (_rewrite_to_pdf_url url = None) as Hrw
      by (unfold _rewrite_to_pdf_url; now rewrite Habs, Hhtml).
    split; [exact Hrw|].
    assert (forall proxy s1 e1,
               _launch_browser E s = (Ret proxy, s1, e1) ->
               exists r s2 rest,
                 _extract_text_from_url E url s
                 = (r, s2, (EvStdout (MsgExtractingUrl url)
                            :: e1 ++ EvBrowserGoto url :: rest)%list)
                 /\ match browser_goto E url proxy with
                    | None => r = Raise PlaywrightError
                    | Some pg => r = Ret (inner_text pg, doc_title pg)
                                 /\ In EvBrowserClose rest
                    end) as Hbrowser.
    { intros proxy s1 e1 Hlaunch.
      destruct (browser_goto E url proxy) as [pg|] eqn:Hgoto.
      - destruct (browser_low_content_warns E url s s1 proxy e1 pg Hrw Hlaunch Hgoto)
          as (s2 & mid & Hrun).
        eexists _, s2, _. split; [exact Hrun|]. split; [reflexivity|].
        apply in_or_app. right. right. right. now left.
      - exists (Raise PlaywrightError), s1, [].
        split; [|reflexivity].
        unfold _extract_text_from_url. rewrite Hrw. cbn [opt_str_truthy].
        rewrite (bind_run _ _ s s tt [EvStdout (MsgExtractingUrl url)]) by reflexivity.
        rewrite (bind_run _ _ s s1 proxy e1 Hlaunch).
        rewrite (bind_run _ _ s1 s1 tt [EvBrowserGoto url]) by reflexivity.
        rewrite Hgoto. reflexivity. }
    split; [|split; [|split; [|split]]].
    + unfold _extract_text_from_url. rewrite Hrw. cbn [opt_str_truthy].
      unfold print. rewrite events_bind_emit. eauto.
    + unfold _extract_text_from_url. rewrite Hrw. cbn [opt_str_truthy].
      match goal with |- existsb _ (events_of (?m s)) = false =>
        assert (quiet is_download_event m) as Hq; [|apply Hq] end.
      unfold _launch_browser, _wait_for_cloudflare. quiet_tac.
      now apply cloudflare_loop_quiet.
    + intros u Hin.
      unfold _extract_text_from_url in Hin. rewrite Hrw in Hin.
      cbn [opt_str_truthy] in Hin.
      match type of Hin with In _ (events_of (?m s)) =>
        assert (quiet (goes_elsewhere url) m) as Hq end.
      { unfold _launch_browser, _wait_for_cloudflare. quiet_tac.
        - apply quiet_emit. simpl. now rewrite String.eqb_refl.
        - now apply cloudflare_loop_quiet. }
      apply (quiet_in _ _ _ (Hq s)) in Hin. simpl in Hin.
      apply negb_false_iff in Hin. now apply String.eqb_eq in Hin.
    + intros x s1 e1 Hlaunch.
      unfold _extract_text_from_url. rewrite Hrw. cbn [opt_str_truthy].
      rewrite (bind_run _ _ s s tt [EvStdout (MsgExtractingUrl url)]) by reflexivity.
      unfold bind. rewrite Hlaunch. reflexivity.
    + intros proxy s1 e1 Hlaunch.
      split; [exact (launch_browser_returns E s s1 proxy e1 Hlaunch)|].
      destruct (Hbrowser proxy s1 e1 Hlaunch) as (r & s2 & rest & Hrun & Hres).
      rewrite Hrun. unfold res_of, events_of. cbn [fst snd].
      split; [now exists rest|]. split.
      * intro Hgoto. now rewrite Hgoto in Hres.
      * intros pg Hgoto. rewrite Hgoto in Hres. destruct Hres as [-> Hclose].
        split; [reflexivity|]. right. apply in_or_app. right. now right.
  - intros id query Hne Hid Hq.
    destruct (arxiv_abs_match id query Hne Hid Hq) as [Hs Hp].
    unfold _rewrite_to_pdf_url. now rewrite Hs, Hp.
Qed.

Lemma arxiv_abstract_routed_to_pdf_download_witness :
  (Regex.re_match arxiv_abs_pattern "https://arxiv.org/abs/1234.5678"
   = Some (Some "1234.5678")
   /\ _rewrite_to_pdf_url "https://arxiv.org/abs/1234.5678"
      = Some "https://arxiv.org/pdf/1234.5678"
   /\ _extract_text_from_url sample_web_env "https://arxiv.org/abs/1234.5678" fresh_state
      = _download_pdf_text sample_web_env "https://arxiv.org/pdf/1234.5678" fresh_state
   /\ existsb is_browser_event
        (events_of (_extract_text_from_url sample_web_env
                      "https://arxiv.org/abs/1234.5678" fresh_state)) = false)
  /\ (Regex.re_match arxiv_abs_pattern "https://example.com/a" = None
      /\ Regex.re_match arxiv_html_pattern "https://example.com/a" = None
      /\ _launch_browser sample_web_env fresh_state
         = (Ret JNull, fresh_state, [EvBrowserLaunch JNull])
      /\ browser_goto sample_web_env "https://example.com/a" JNull
         = Some (sample_page long_text)
      /\ _rewrite_to_pdf_url "https://example.com/a" = None
      /\ existsb is_download_event
           (events_of (_extract_text_from_url sample_web_env
                         "https://example.com/a" fresh_state)) = false
      /\ (exists rest,
             events_of (_extract_text_from_url sample_web_env
                          "https://example.com/a" fresh_state)
             = (EvStdout (MsgExtractingUrl "https://example.com/a")
                :: [EvBrowserLaunch JNull]
                ++ EvBrowserGoto "https://example.com/a" :: rest)%list)
      /\ res_of (_extract_text_from_url sample_web_env
                   "https://example.com/a" fresh_state)
         = Ret (inner_text (sample_page long_text), doc_title (sample_page long_text))
      /\ In EvBrowserClose
            (events_of (_extract_text_from_url sample_web_env
                          "https://example.com/a" fresh_state)))
  /\ ("1234.5678" <> EmptyString
      /\ avoids is_newline_or_question "1234.5678" = true
      /\ _rewrite_to_pdf_url ("https://arxiv.org/abs/" ++ "1234.5678" ++ "?context=cs")
         = Some ("https://arxiv.org/pdf/" ++ "1234.5678")
      /\ _rewrite_to_pdf_url ("http://arxiv.org/abs/" ++ "1234.5678" ++ "?context=cs")
         = Some ("https://arxiv.org/pdf/" ++ "1234.5678")).
Proof.
  destruct (arxiv_abstract_routed_to_pdf_download sample_web_env fresh_state)
    as (Habs & Hother & Hshape).
  split; [|split].
  - split; [reflexivity|].
    exact (Habs "https://arxiv.org/abs/1234.5678" (Some "1234.5678") eq_refl).
  - destruct (Hother "https://example.com/a" eq_refl eq_refl)
      as (Hrw & _ & Hdl & _ & _ & Hbrowser).
    destruct (Hbrowser JNull fresh_state [EvBrowserLaunch JNull] eq_refl)
      as (_ & Hev & _ & Hpage).
    destruct (Hpage (sample_page long_text) eq_refl) as [Hres Hclose].
    split; [reflexivity|]. split; [reflexivity|]. split; [reflexivity|].
    split; [reflexivity|]. split; [exact Hrw|]. split; [exact Hdl|].
    split; [exact Hev|]. split; [exact Hres | exact Hclose].
  - split; [discriminate|]. split; [reflexivity|].
    apply (Hshape "1234.5678" "?context=cs").
    + discriminate.
    + reflexivity.
    + right. exists "context=cs". split; reflexivity.
Defined.

(* ------------------------------------------------------------------ *)
(** * Further properties *)

(** ** The rate limiter: spacing, order, retry *)

Lemma kept_is_prune (s : state) (kept : list Q) :
  removes_exactly (aged_out (clock s)) (history s) kept ->
  kept = prune (clock s) 3600 (history s).
Proof.
  intro Hk. eapply removes_exactly_functional; [exact Hk|apply prune_removes_exactly].
Qed.

(** X1.  Below the quota, [check_rate_limit] returns; it sleeps exactly the
    remaining spacing when the newest request in the window is less than
    five seconds old, which brings the clock to five seconds after that
    request, and neither sleeps nor prints otherwise. *)
Theorem check_rate_limit_spacing (s : state) (kept : list Q) :
  removes_exactly (aged_out (clock s)) (history s) kept ->
  (List.length kept < MAX_REQUESTS_PER_HOUR)%nat ->
  (kept = [] -> check_rate_limit s = (Ret tt, s, []))
  /\ forall newest,
      In newest kept -> (forall t, In t kept -> (t <= newest)%Q) ->
      ((clock s - newest < MIN_INTERVAL_SECONDS)%Q ->
       exists wait,
         (wait == MIN_INTERVAL_SECONDS - (clock s - newest))%Q
         /\ check_rate_limit s
            = (Ret tt, slept s wait, [EvStdout (MsgRateWait wait); EvSleep wait])
         /\ (clock (slept s wait) == newest + MIN_INTERVAL_SECONDS)%Q)
      /\ ((MIN_INTERVAL_SECONDS <= clock s - newest)%Q ->
          check_rate_limit s = (Ret tt, s, [])).
Proof.
  intros Hk Hlen. apply kept_is_prune in Hk. subst kept.
  rewrite check_rate_limit_run.
  destruct (prune (clock s) 3600 (history s)) as [|t rest] eqn:K.
  - split; [reflexivity|]. intros newest [].
  - split; [discriminate|]. intros newest Hin Hub.
    apply Nat.leb_gt in Hlen. cbv zeta. rewrite Hlen.
    destruct (max_from_spec rest t) as [Hmax_in Hmax].
    assert (newest == Py.max_from t rest)%Q as Heq
      by (apply Qle_antisym; [now apply Hmax | now apply Hub]).
    unfold MIN_INTERVAL_SECONDS in *. split.
    + intro Hlt.
      assert (Py.Qltb (clock s - Py.max_from t rest) 5 = true) as ->
        by (apply Qltb_true; lra).
      exists (5 - (clock s - Py.max_from t rest))%Q.
      split; [lra|]. split; [reflexivity|].
      unfold slept. cbn [clock]. lra.
    + intro Hge.
      assert (Py.Qltb (clock s - Py.max_from t rest) 5 = false) as ->
        by (apply Qltb_false; lra).
      reflexivity.
Qed.

Lemma check_rate_limit_spacing_witness :
  removes_exactly (aged_out (clock quiet_state)) (history quiet_state)
                  [4000%Q; 4998%Q]
  /\ (List.length [4000%Q; 4998%Q] < MAX_REQUESTS_PER_HOUR)%nat
  /\ In 4998%Q [4000%Q; 4998%Q]
  /\ (forall t, In t [4000%Q; 4998%Q] -> (t <= 4998)%Q)
  /\ (clock quiet_state - 4998 < MIN_INTERVAL_SECONDS)%Q
  /\ exists wait,
      (wait == MIN_INTERVAL_SECONDS - (clock quiet_state - 4998))%Q
      /\ check_rate_limit quiet_state
         = (Ret tt, slept quiet_state wait,
            [EvStdout (MsgRateWait wait); EvSleep wait])
      /\ (clock (slept quiet_state wait) == 4998 + MIN_INTERVAL_SECONDS)%Q.
Proof.
  assert (removes_exactly (aged_out (clock quiet_state)) (history quiet_state)
                          [4000%Q; 4998%Q]) as Hk
    by exact (prune_removes_exactly 5000 [1000%Q; 4000%Q; 4998%Q]).
  assert (List.length [4000%Q; 4998%Q] < MAX_REQUESTS_PER_HOUR)%nat as Hlen
    by (vm_compute; lia).
  assert (In 4998%Q [4000%Q; 4998%Q]) as Hin by (simpl; tauto).
  assert (forall t, In t [4000%Q; 4998%Q] -> (t <= 4998)%Q) as Hub.
  { intros t [<-|[<-|[]]]; vm_compute; discriminate. }
  assert (clock quiet_state - 4998 < MIN_INTERVAL_SECONDS)%Q as Hlt
    by (vm_compute; reflexivity).
  repeat (split; [assumption|]).
  exact (proj1 (proj2 (check_rate_limit_spacing quiet_state [4000%Q; 4998%Q] Hk Hlen)
                      4998%Q Hin Hub) Hlt).
Defined.

Lemma prune_in (now : Q) (l : list Q) (ts : Q) :
  In ts (prune now 3600 l) <-> In ts l /\ (now - ts < 3600)%Q.
Proof. unfold prune. rewrite filter_In, Qltb_true. reflexivity. Qed.

Lemma prune_sorted (now : Q) (l : list Q) :
  StronglySorted Qle l -> StronglySorted Qle (prune now 3600 l).
Proof.
  induction 1 as [|x l Hl IH Hx]; simpl; [constructor|].
  destruct (Py.Qltb (now - x) 3600); [|exact IH].
  constructor; [exact IH|].
  rewrite Forall_forall in *. intros y Hy. apply Hx.
  now apply prune_in in Hy.
Qed.

Lemma sorted_snoc (l : list Q) (x : Q) :
  StronglySorted Qle l -> (forall y, In y l -> (y <= x)%Q) ->
  StronglySorted Qle (l ++ [x]).
Proof.
  induction 1 as [|a l Hl IH Ha]; intro Hx; simpl.
  - repeat constructor.
  - constructor.
    + apply IH. intros y Hy. apply Hx. now right.
    + rewrite Forall_forall in *. intros y Hy.
      apply in_app_or in Hy as [Hy|[<-|[]]]; [now apply Ha|].
      apply Hx. now left.
Qed.

(** X2.  [record_request] keeps the log in chronological order: from a log
    in non-decreasing order with no entry later than the clock, it writes a
    log in non-decreasing order that ends with the current time, holds only
    entries younger than 3600 seconds, and is at most one entry longer. *)
Theorem record_request_keeps_order (s : state) :
  StronglySorted Qle (history s) ->
  (forall ts, In ts (history s) -> (ts <= clock s)%Q) ->
  exists l,
    rl_file (state_of (record_request s)) = RLData l
    /\ StronglySorted Qle l
    /\ last l 0%Q = clock s
    /\ (forall ts, In ts l -> (ts <= clock s)%Q /\ (clock s - ts < 3600)%Q)
    /\ (List.length l <= S (List.length (history s)))%nat.
Proof.
  intros Hs Hpast.
  exists (prune (clock s) 3600 (history s) ++ [clock s])%list.
  split; [reflexivity|]. split; [|split; [|split]].
  - apply sorted_snoc; [now apply prune_sorted|].
    intros y Hy. apply prune_in in Hy as [Hy _]. now apply Hpast.
  - apply last_last.
  - intros ts Hin. apply in_app_or in Hin as [Hin|[<-|[]]].
    + apply prune_in in Hin as [Hin Hage]. split; [now apply Hpast | exact Hage].
    + split; [apply Qle_refl | lra].
  - rewrite length_app, Nat.add_1_r. apply le_n_S.
    unfold prune. apply filter_length_le.
Qed.

Lemma record_request_keeps_order_witness :
  StronglySorted Qle (history quiet_state)
  /\ (forall ts, In ts (history quiet_state) -> (ts <= clock quiet_state)%Q)
  /\ exists l,
      rl_file (state_of (record_request quiet_state)) = RLData l
      /\ StronglySorted Qle l
      /\ last l 0%Q = clock quiet_state
      /\ (forall ts, In ts l ->
                     (ts <= clock quiet_state)%Q /\ (clock quiet_state - ts < 3600)%Q)
      /\ (List.length l <= S (List.length (history quiet_state)))%nat.
Proof.
  assert (forall ts, In ts (history quiet_state) -> (ts <= clock quiet_state)%Q) as Hpast.
  { intros ts [<-|[<-|[<-|[]]]]; vm_compute; discriminate. }
  assert (StronglySorted Qle (history quiet_state)) as Hs.
  { repeat constructor; vm_compute; discriminate. }
  split; [exact Hs|]. split; [exact Hpast|].
  exact (record_request_keeps_order quiet_state Hs Hpast).
Defined.

Lemma filter_length_lt {A} (p q : A -> bool) (l : list A) (x : A) :
  (forall y, q y = true -> p y = true) ->
  In x l -> p x = true -> q x = false ->
  (List.length (filter q l) < List.length (filter p l))%nat.
Proof.
  intros Hqp Hin Hp Hq.
  assert (forall l', List.length (filter q l') <= List.length (filter p l'))%nat as Hle.
  { induction l' as [|y l' IH]; simpl; [lia|].
    destruct (q y) eqn:Q; [rewrite (Hqp y Q); simpl; lia|].
    destruct (p y); simpl; lia. }
  induction l as [|y l IH]; [destruct Hin|].
  simpl. destruct Hin as [->|Hin].
  - rewrite Hp, Hq. simpl. specialize (Hle l). lia.
  - specialize (IH Hin).
    destruct (q y) eqn:Q; [rewrite (Hqp y Q); simpl; lia|].
    destruct (p y); simpl; lia.
Qed.

(** X3.  When exactly ten requests are in the window the reported
    retry-after estimate is positive, and it is enough: at any time from
    then on, with the log untouched, [check_rate_limit] returns. *)
Theorem retry_after_is_enough (s : state) (kept : list Q) :
  removes_exactly (aged_out (clock s)) (history s) kept ->
  List.length kept = MAX_REQUESTS_PER_HOUR ->
  exists oldest retry_after,
    In oldest kept /\ (forall t, In t kept -> (oldest <= t)%Q)
    /\ retry_after = (3600 - (clock s - oldest))%Q
    /\ (0 < retry_after)%Q
    /\ last (events_of (check_rate_limit s)) (EvSleep 0)
       = EvStderr (MsgRateLimitReached MAX_REQUESTS_PER_HOUR retry_after)
    /\ res_of (check_rate_limit s) = Exit 1%Z
    /\ forall later,
        (clock s + retry_after <= later)%Q ->
        res_of (check_rate_limit (at_time later s)) = Ret tt.
Proof.
  intros Hk Hlen. apply kept_is_prune in Hk. subst kept.
  pose proof (check_rate_limit_run s) as Hrun.
  destruct (prune (clock s) 3600 (history s)) as [|t rest] eqn:K;
    [discriminate|].
  destruct (min_from_spec rest t) as [Hmin_in Hmin].
  set (oldest := Py.min_from t rest) in *.
  exists oldest, (3600 - (clock s - oldest))%Q.
  assert (clock s - oldest < 3600)%Q as Hage.
  { rewrite <- K in Hmin_in. now apply prune_in in Hmin_in. }
  split; [exact Hmin_in|]. split; [exact Hmin|]. split; [reflexivity|].
  split; [lra|].
  cbv zeta in Hrun. rewrite Hlen, Nat.leb_refl in Hrun. rewrite Hrun.
  split; [|split; [reflexivity|]].
  - unfold events_of. cbn [snd]. apply last_last.
  - intros later Hlater.
    rewrite check_rate_limit_run.
    change (history (at_time later s)) with (history s).
    change (clock (at_time later s)) with later.
    assert (List.length (prune later 3600 (history s)) < MAX_REQUESTS_PER_HOUR)%nat
      as Hfew.
    { rewrite <- Hlen, <- K. unfold prune.
      apply filter_length_lt with (x := oldest).
      - intros y Hy. apply Qltb_true in Hy. apply Qltb_true. lra.
      - rewrite <- K in Hmin_in. now apply prune_in in Hmin_in.
      - apply Qltb_true. exact Hage.
      - apply Qltb_false. lra. }
    destruct (prune later 3600 (history s)) as [|t' rest']; [reflexivity|].
    apply Nat.leb_gt in Hfew. cbv zeta. rewrite Hfew.
    now destruct (Py.Qltb _ _).
Qed.

Lemma retry_after_is_enough_witness :
  removes_exactly (aged_out (clock full_state)) (history full_state)
                  (history full_state)
  /\ List.length (history full_state) = MAX_REQUESTS_PER_HOUR
  /\ exists oldest retry_after,
      In oldest (history full_state)
      /\ (forall t, In t (history full_state) -> (oldest <= t)%Q)
      /\ retry_after = (3600 - (clock full_state - oldest))%Q
      /\ (0 < retry_after)%Q
      /\ last (events_of (check_rate_limit full_state)) (EvSleep 0)
         = EvStderr (MsgRateLimitReached MAX_REQUESTS_PER_HOUR retry_after)
      /\ res_of (check_rate_limit full_state) = Exit 1%Z
      /\ forall later,
          (clock full_state + retry_after <= later)%Q ->
          res_of (check_rate_limit (at_time later full_state)) = Ret tt.
Proof.
  assert (removes_exactly (aged_out (clock full_state)) (history full_state)
                          (history full_state)) as Hk
    by exact (prune_removes_exactly 5000 (history full_state)).
  split; [exact Hk|]. split; [reflexivity|].
  exact (retry_after_is_enough full_state (history full_state) Hk eq_refl).
Defined.

(** ** The clock never runs backwards *)

Lemma forward_bind {A B} (m : M A) (f : A -> M B) :
  forward m -> (forall a, forward (f a)) -> forward (bind m f).
Proof.
  intros Hm Hf s. specialize (Hm s). unfold bind, state_of in *.
  destruct (m s) as [[r s1] e1]. cbn [fst snd] in *.
  destruct r as [a|c|x]; cbn [fst snd]; try assumption.
  specialize (Hf a s1). destruct (f a s1) as [[r2 s2] e2]. cbn [fst snd] in *.
  eapply Qle_trans; eassumption.
Qed.

Lemma forward_ret {A} (a : A) : forward (ret a).
Proof. intro s. apply Qle_refl. Qed.

Lemma forward_raise {A} (e : exn) : forward (@raise A e).
Proof. intro s. apply Qle_refl. Qed.

Lemma forward_sys_exit {A} (c : Z) : forward (@sys_exit A c).
Proof. intro s. apply Qle_refl. Qed.

Lemma forward_emit (e : event) : forward (emit e).
Proof. intro s. apply Qle_refl. Qed.

Lemma forward_get_state : forward get_state.
Proof. intro s. apply Qle_refl. Qed.

Lemma forward_time_time : forward time_time.
Proof. intro s. apply Qle_refl. Qed.

Lemma forward_randbelow (E : env) (n : nat) : forward (randbelow E n).
Proof. intro s. apply Qle_refl. Qed.

Lemma forward_time_sleep (d : Q) : (0 <= d)%Q -> forward (time_sleep d).
Proof. intros Hd s. unfold state_of, time_sleep. cbn [fst snd clock]. lra. Qed.

Create HintDb forward discriminated.

#[local] Hint Resolve forward_ret forward_raise forward_sys_exit forward_emit
  forward_get_state forward_time_time forward_randbelow : forward.

Ltac forward_step :=
  match goal with
  | |- forward (bind _ _) => apply forward_bind; [|intro]
  | |- forward (if ?b then _ else _) => destruct b
  | |- forward (match ?x with _ => _ end) => destruct x
  | |- forward (print _) => apply forward_emit
  | |- forward (eprint _) => apply forward_emit
  | |- forward (time_sleep 2) => apply forward_time_sleep; discriminate
  | |- forward _ => solve [auto with forward]
  end.

Ltac forward_tac := repeat forward_step.

Lemma forward_get_proxy_url (E : env) : forward (_get_proxy_url E).
Proof.
  unfold _get_proxy_url, _load_proxy_config, py_get, random_choice. forward_tac.
Qed.

#[local] Hint Resolve forward_get_proxy_url : forward.

Lemma forward_get_proxy (E : env) : forward (_get_proxy E).
Proof. unfold _get_proxy. forward_tac. Qed.

#[local] Hint Resolve forward_get_proxy : forward.

Lemma forward_cloudflare_loop (fuel : nat) (pg : page) (start timeout : Q) (n : nat) :
  forward (cloudflare_loop fuel pg start timeout n).
Proof.
  revert n. induction fuel as [|fuel IH]; intro n; simpl; forward_tac.
Qed.

#[local] Hint Resolve forward_cloudflare_loop : forward.

Lemma forward_extract_text_from_url (E : env) (url : string) :
  forward (_extract_text_from_url E url).
Proof.
  unfold _extract_text_from_url, _download_pdf_text, _launch_browser,
    _wait_for_cloudflare.
  forward_tac.
Qed.

Lemma forward_extract_text_from_pdf (E : env) (path : string) :
  forward (_extract_text_from_pdf E path).
Proof. unfold _extract_text_from_pdf. forward_tac. Qed.

Lemma forward_is_local_file (E : env) (i : string) : forward (_is_local_file E i).
Proof. unfold _is_local_file. forward_tac. Qed.

Lemma forward_summarize_content (E : env) (content : option string) (dbg : bool) :
  forward (summarize_content E content dbg).
Proof. unfold summarize_content, py_get. forward_tac. Qed.

#[local] Hint Resolve forward_extract_text_from_url forward_extract_text_from_pdf
  forward_is_local_file forward_summarize_content : forward.

(** ** Permitted states *)

Lemma filter_length_mono {A} (p q : A -> bool) (l : list A) :
  (forall y, q y = true -> p y = true) ->
  (List.length (filter q l) <= List.length (filter p l))%nat.
Proof.
  intro Hqp. induction l as [|y l IH]; simpl; [lia|].
  destruct (q y) eqn:Q; [rewrite (Hqp y Q); simpl; lia|].
  destruct (p y); simpl; lia.
Qed.

Lemma prune_length_later (now later : Q) (l : list Q) :
  (now <= later)%Q ->
  (List.length (prune later 3600 l) <= List.length (prune now 3600 l))%nat.
Proof.
  intro Hle. unfold prune. apply filter_length_mono.
  intros y Hy. apply Qltb_true in Hy. apply Qltb_true. lra.
Qed.

Lemma permitted_later (s s' : state) :
  permitted s -> rl_file s' = rl_file s -> (clock s <= clock s')%Q -> permitted s'.
Proof.
  intros [Hsp Hq] Hf Hc.
  assert (history s' = history s) as Hh by (unfold history; now rewrite Hf).
  split.
  - intros ts Hin. rewrite Hh in Hin. specialize (Hsp ts Hin).
    unfold MIN_INTERVAL_SECONDS in *. lra.
  - rewrite Hh. eapply Nat.le_lt_trans; [|exact Hq].
    now apply prune_length_later.
Qed.

(** Where [check_rate_limit] returns, a request may be recorded. *)
Lemma check_rate_limit_permits (s s' : state) (e : list event) :
  check_rate_limit s = (Ret tt, s', e) -> permitted s'.
Proof.
  rewrite check_rate_limit_run.
  assert (forall ts, In ts (history s) ->
                     ~ In ts (prune (clock s) 3600 (history s)) ->
                     (3600 <= clock s - ts)%Q) as Hout.
  { intros ts Hin Hnot. apply Qnot_lt_le. intro Hlt. apply Hnot.
    apply prune_in. now split. }
  destruct (prune (clock s) 3600 (history s)) as [|t rest] eqn:K.
  - intros [= <- _]. split.
    + intros ts Hin. specialize (Hout ts Hin (fun F => F)).
      unfold MIN_INTERVAL_SECONDS. lra.
    + rewrite K. unfold MAX_REQUESTS_PER_HOUR. simpl. lia.
  - cbv zeta.
    destruct (MAX_REQUESTS_PER_HOUR <=? List.length (t :: rest))%nat eqn:B;
      [discriminate|].
    apply Nat.leb_gt in B.
    destruct (max_from_spec rest t) as [_ Hmax].
    assert (forall ts, In ts (history s) -> forall d, (0 <= d)%Q ->
              (MIN_INTERVAL_SECONDS <= clock s + d - Py.max_from t rest)%Q ->
              (MIN_INTERVAL_SECONDS <= clock s + d - ts)%Q) as Hsp.
    { intros ts Hin d Hd Hm.
      destruct (Qlt_le_dec (clock s - ts) 3600) as [Hk|Hk].
      - assert (In ts (t :: rest)) as Hin'
          by (rewrite <- K; apply prune_in; now split).
        specialize (Hmax ts Hin'). lra.
      - unfold MIN_INTERVAL_SECONDS. lra. }
    destruct (Py.Qltb (clock s - Py.max_from t rest) MIN_INTERVAL_SECONDS) eqn:W;
      intros [= <- _].
    + apply Qltb_true in W. unfold MIN_INTERVAL_SECONDS in *. split.
      * intros ts Hin. change (history (slept s _)) with (history s) in Hin.
        unfold slept. cbn [clock]. apply (Hsp ts Hin); lra.
      * change (history (slept s (5 - (clock s - Py.max_from t rest))))
          with (history s).
        eapply Nat.le_lt_trans; [apply (prune_length_later (clock s))|].
        -- unfold slept. cbn [clock]. lra.
        -- now rewrite K.
    + apply Qltb_false in W. split.
      * intros ts Hin.
        assert (MIN_INTERVAL_SECONDS <= clock s + 0 - ts)%Q
          by (apply (Hsp ts Hin); lra).
        lra.
      * now rewrite K.
Qed.

Lemma well_spaced_after_permitted (s : state) :
  permitted s ->
  well_spaced_log (prune (clock s) 3600 (history s) ++ [clock s]).
Proof.
  intros [Hsp Hq].
  exists (prune (clock s) 3600 (history s)), (clock s).
  split; [reflexivity|]. split.
  - rewrite length_app, Nat.add_1_r. exact Hq.
  - intros t Hin. apply prune_in in Hin as [Hin Hage].
    split; [now apply Hsp | exact Hage].
Qed.

(** ** What [main] writes to the log *)

Lemma in_events_bind {A B} (m : M A) (f : A -> M B) (s : state) (e : event) :
  In e (events_of (bind m f s)) ->
  In e (events_of (m s))
  \/ exists a s1 e1, m s = (Ret a, s1, e1) /\ In e (events_of (f a s1)).
Proof.
  unfold bind, events_of. destruct (m s) as [[r s1] e1]. cbn [snd].
  destruct r as [a|c|x]; [|now left..].
  destruct (f a s1) as [[r2 s2] e2] eqn:Hf. cbn [snd].
  intro Hin. apply in_app_or in Hin as [Hin|Hin]; [now left|].
  right. exists a, s1, e1. rewrite Hf. now split.
Qed.

Lemma frames_no_write {A} (m : M A) (s : state) (ts : list Q) :
  frames m -> ~ In (EvWriteRateLimit ts) (events_of (m s)).
Proof.
  intros Hm Hin. destruct (Hm s) as (_ & Hw & _).
  apply (quiet_in _ _ _ Hw) in Hin. discriminate.
Qed.

Lemma writes_well_bind {A B} (m : M A) (f : A -> M B) :
  frames m -> forward m -> (forall a, writes_well (f a)) ->
  writes_well (bind m f).
Proof.
  intros Hm Hfw Hf s Hs ts Hin.
  apply in_events_bind in Hin as [Hin|(a & s1 & e1 & Hms & Hin)].
  - now destruct (frames_no_write m s ts Hm).
  - apply (Hf a s1); [|exact Hin].
    destruct (Hm s) as (Hrl & _). specialize (Hfw s).
    rewrite Hms in Hrl, Hfw. now apply (permitted_later s).
Qed.

Lemma writes_well_record_then {B} (k : M B) :
  frames k -> writes_well (bind record_request (fun _ => k)).
Proof.
  intros Hk s Hs ts Hin.
  apply in_events_bind in Hin as [Hin|(a & s1 & e1 & _ & Hin)].
  - destruct Hin as [[= <-]|[]]. now apply well_spaced_after_permitted.
  - now destruct (frames_no_write k s1 ts Hk).
Qed.

Lemma writes_well_run {A} (m : M A) (s : state) (ts : list Q) :
  writes_well m -> permitted s ->
  In (EvWriteRateLimit ts) (events_of (m s)) -> well_spaced_log ts.
Proof. intros Hm Hs. now apply Hm. Qed.

(** X4.  Whatever the run, a log that [main] writes is well spaced: its
    new last entry comes at least five seconds after every other entry, all
    entries are younger than 3600 seconds, and there are at most ten. *)
Theorem main_writes_well_spaced_log (E : env) (a : args) (s : state) (ts : list Q) :
  In (EvWriteRateLimit ts) (events_of (main E a s)) ->
  well_spaced_log ts.
Proof.
  unfold main. intro Hin.
  apply in_events_bind in Hin as [[]|(_ & s1 & _ & _ & Hin)].
  destruct (negb (opt_str_truthy (input a))).
  { apply in_events_bind in Hin as [[[=]|[]]|(_ & s2 & _ & _ & [])]. }
  apply in_events_bind in Hin as [Hin|([] & s2 & e2 & Hcheck & Hin)].
  { now destruct (frames_no_write _ _ _ frames_check_rate_limit Hin). }
  apply check_rate_limit_permits in Hcheck.
  refine (writes_well_run _ s2 ts _ Hcheck Hin).
  apply writes_well_bind; [auto with frames|auto with forward|]. intro is_local.
  apply writes_well_bind; [frames_tac|forward_tac|]. intro acquired.
  apply writes_well_bind; [auto with frames|auto with forward|]. intro summary.
  apply writes_well_record_then. frames_tac.
Qed.

Lemma main_writes_well_spaced_log_witness :
  In (EvWriteRateLimit [4000%Q; 4998%Q; 5003%Q])
     (events_of (main sample_web_env (sample_args "paper.pdf") quiet_state))
  /\ well_spaced_log [4000%Q; 4998%Q; 5003%Q].
Proof.
  assert (In (EvWriteRateLimit [4000%Q; 4998%Q; 5003%Q])
             (events_of (main sample_web_env (sample_args "paper.pdf") quiet_state)))
    as Hin.
  { vm_compute. do 9 right. left. reflexivity. }
  split; [exact Hin|].
  exact (main_writes_well_spaced_log sample_web_env (sample_args "paper.pdf")
                                     quiet_state _ Hin).
Defined.

(** ** Over the quota, [main] does nothing else *)

Lemma bind_exit {A B} (m : M A) (f : A -> M B) (s s1 : state) (c : Z)
      (e1 : list event) :
  m s = (Exit c, s1, e1) -> bind m f s = (Exit c, s1, e1).
Proof. intro Hm. unfold bind. now rewrite Hm. Qed.

(** X5.  With the quota reached, [main] exits with status 1 straight after
    the rate-limit check: it leaves the log as it was and touches neither
    the file system nor the network nor the browser. *)
Theorem main_over_quota_stops (E : env) (a : args) (s : state) (kept : list Q) :
  opt_str_truthy (input a) = true ->
  removes_exactly (aged_out (clock s)) (history s) kept ->
  (MAX_REQUESTS_PER_HOUR <= List.length kept)%nat ->
  res_of (main E a s) = Exit 1%Z
  /\ rl_file (state_of (main E a s)) = rl_file s
  /\ existsb acts_outside (events_of (main E a s)) = false.
Proof.
  intros Hin Hk Hlen. apply kept_is_prune in Hk. subst kept.
  unfold main.
  rewrite (bind_run _ _ s (with_force (use_proxy a) s) tt []) by reflexivity.
  rewrite Hin. cbn [negb].
  pose proof (check_rate_limit_run (with_force (use_proxy a) s)) as Hrun.
  change (history (with_force (use_proxy a) s)) with (history s) in Hrun.
  change (clock (with_force (use_proxy a) s)) with (clock s) in Hrun.
  destruct (prune (clock s) 3600 (history s)) as [|t rest];
    [unfold MAX_REQUESTS_PER_HOUR in Hlen; simpl in Hlen; lia|].
  apply Nat.leb_le in Hlen. cbv zeta in Hrun. rewrite Hlen in Hrun.
  rewrite (bind_exit _ _ _ _ _ _ Hrun).
  unfold res_of, state_of, events_of. cbn [fst snd app].
  destruct (Py.Qltb (clock s - Py.max_from t rest) MIN_INTERVAL_SECONDS);
    repeat split.
Qed.

Lemma main_over_quota_stops_witness :
  opt_str_truthy (input (sample_args "https://example.com/a")) = true
  /\ removes_exactly (aged_out (clock busy_state)) (history busy_state)
                     (repeat 99%Q 10)
  /\ (MAX_REQUESTS_PER_HOUR <= List.length (repeat 99%Q 10))%nat
  /\ res_of (main sample_web_env (sample_args "https://example.com/a") busy_state)
     = Exit 1%Z
  /\ rl_file (state_of (main sample_web_env (sample_args "https://example.com/a")
                             busy_state)) = rl_file busy_state
  /\ existsb acts_outside
       (events_of (main sample_web_env (sample_args "https://example.com/a")
                        busy_state)) = false.
Proof.
  assert (removes_exactly (aged_out (clock busy_state)) (history busy_state)
                          (repeat 99%Q 10)) as Hk
    by exact (prune_removes_exactly 100 (repeat 99%Q 10)).
  assert (MAX_REQUESTS_PER_HOUR <= List.length (repeat 99%Q 10))%nat as Hlen
    by (vm_compute; lia).
  split; [reflexivity|]. split; [exact Hk|]. split; [exact Hlen|].
  exact (main_over_quota_stops sample_web_env (sample_args "https://example.com/a")
                               busy_state (repeat 99%Q 10) eq_refl Hk Hlen).
Defined.

(** ** Slugs *)

Lemma avoids_app (p : ascii -> bool) (a b : string) :
  avoids p (a ++ b) = avoids p a && avoids p b.
Proof.
  induction a as [|c a IH]; simpl; [reflexivity|].
  now rewrite IH, andb_assoc.
Qed.

Lemma no_double_cons (p : ascii -> bool) (c d : ascii) (r : string) :
  no_double p (String c (String d r))
  = negb (p c && p d) && no_double p (String d r).
Proof. reflexivity. Qed.

Lemma no_double_app (p : ascii -> bool) (a b : string) :
  no_double p (a ++ b) = true -> no_double p a = true /\ no_double p b = true.
Proof.
  induction a as [|c a IH]; [now split|].
  destruct a as [|d a].
  - simpl. destruct b as [|e b]; [now split|].
    intro H. apply andb_true_iff in H as [_ H]. now split.
  - change (String c (String d a) ++ b) with (String c (String d (a ++ b))).
    rewrite !no_double_cons.
    intro H. apply andb_true_iff in H as [H1 H2].
    destruct (IH H2) as [Ha Hb]. split; [|exact Hb].
    rewrite H1. exact Ha.
Qed.

Lemma starts_with_app (p : ascii -> bool) (a b : string) :
  a <> EmptyString -> starts_with p (a ++ b) = starts_with p a.
Proof. destruct a; [congruence | reflexivity]. Qed.

Lemma slug_char_not_dash (c : ascii) : slug_char c = true -> is_dash c = false.
Proof.
  intro H. unfold is_dash. destruct (Ascii.eqb c "-") eqn:D; [|reflexivity].
  apply Ascii.eqb_eq in D. subst c. discriminate.
Qed.

Lemma dash_runs_safe (b : bool) (s : string) :
  only slug_safe (dash_runs b s) = true.
Proof.
  unfold only. revert b. induction s as [|c s IH]; intro b; simpl; [reflexivity|].
  destruct (slug_char c) eqn:C.
  - simpl. unfold slug_safe. rewrite C. simpl. apply IH.
  - destruct b; [apply IH|]. simpl. apply IH.
Qed.

Lemma dash_runs_shape (b : bool) (s : string) :
  no_double is_dash (dash_runs b s) = true
  /\ (b = true -> starts_with is_dash (dash_runs b s) = false).
Proof.
  revert b. induction s as [|c s IH]; intro b; simpl; [now split|].
  destruct (slug_char c) eqn:C.
  - destruct (IH false) as [Hnd _]. split.
    + destruct (dash_runs false s) as [|d r] eqn:R; [reflexivity|].
      rewrite no_double_cons, (slug_char_not_dash c C). exact Hnd.
    + intros _. simpl. now apply slug_char_not_dash.
  - destruct b.
    + apply IH.
    + destruct (IH true) as [Hnd Hst]. split; [|discriminate].
      destruct (dash_runs true s) as [|d r] eqn:R; [reflexivity|].
      specialize (Hst eq_refl). cbn [starts_with] in Hst.
      rewrite no_double_cons, Hst, andb_false_r. exact Hnd.
Qed.

Lemma dash_runs_without_slug_chars (b : bool) (s : string) :
  avoids slug_char s = true ->
  Py.strip_chars "-" (dash_runs b s) = EmptyString.
Proof.
  intro Hs.
  assert (only is_dash (dash_runs b s) = true) as Ho.
  { unfold only. revert b. induction s as [|c s IH]; intro b; simpl; [reflexivity|].
    simpl in Hs. apply andb_true_iff in Hs as [Hc Hs].
    apply negb_true_iff in Hc. rewrite Hc.
    destruct b; [now apply IH|]. simpl. now apply IH. }
  unfold Py.strip_chars, Py.strip_with.
  assert (forall t, only is_dash t = true ->
            Py.lstrip_with
              (fun c => existsb (Ascii.eqb c) (list_ascii_of_string "-")) t
            = EmptyString) as Hl.
  { induction t as [|c t IH]; [reflexivity|]. unfold only. simpl.
    intro H. apply andb_true_iff in H as [Hc Ht].
    apply negb_true_iff, negb_false_iff in Hc. unfold is_dash in Hc.
    rewrite Hc. simpl. now apply IH. }
  now rewrite (Hl _ Ho).
Qed.

Lemma substring_0_prefix (n : nat) (s : string) :
  exists r, s = String.substring 0 n s ++ r.
Proof.
  revert n. induction s as [|c s IH]; intro n.
  - exists EmptyString. now destruct n.
  - destruct n as [|n]; simpl; [now exists (String c s)|].
    destruct (IH n) as [r Hr]. exists r. now rewrite <- Hr.
Qed.

Lemma substring_0_length (n : nat) (s : string) :
  (String.length (String.substring 0 n s) <= n)%nat
  /\ ((String.length s <= n)%nat -> String.substring 0 n s = s)
  /\ ((n <= String.length s)%nat -> String.length (String.substring 0 n s) = n).
Proof.
  revert n. induction s as [|c s IH]; intro n.
  - destruct n; simpl; repeat split; lia.
  - destruct n as [|n]; simpl; [repeat split; lia|].
    destruct (IH n) as (H1 & H2 & H3). repeat split.
    + lia.
    + intro H. f_equal. apply H2. lia.
    + intro H. f_equal. apply H3. lia.
Qed.

(** X6.  A slug is a safe file name: it is not empty, has at most 80
    characters, holds only lower-case letters, digits and dashes, does not
    begin with a dash, has no two dashes in a row, and can end with a dash
    only when it was cut at 80 characters.  A title without any letter or
    digit gives the slug [summary]. *)
Theorem slugify_safe (text : string) :
  slugify text <> EmptyString
  /\ (String.length (slugify text) <= 80)%nat
  /\ only slug_safe (slugify text) = true
  /\ starts_with is_dash (slugify text) = false
  /\ no_double is_dash (slugify text) = true
  /\ (ends_with is_dash (slugify text) = true -> String.length (slugify text) = 80%nat)
  /\ (avoids slug_char (Py.lower text) = true -> slugify text = "summary").
Proof.
  unfold slugify.
  set (p := fun c => existsb (Ascii.eqb c) (list_ascii_of_string "-")).
  assert (forall c, p c = is_dash c) as Hp
    by (intro c; unfold p, is_dash; simpl; apply orb_false_r).
  set (runs := dash_runs false (Py.lower text)).
  destruct (lstrip_with_spec p runs) as (l & Hl & _ & Hst).
  destruct (rstrip_with_spec p (Py.lstrip_with p runs)) as (r & Hr & _ & Hen).
  apply (rstrip_with_keeps_start p) in Hst.
  fold (Py.strip_with p runs) in Hr, Hen, Hst.
  change (Py.strip_chars "-" runs) with (Py.strip_with p runs).
  set (slug := Py.strip_with p runs) in *.
  assert (runs = l ++ slug ++ r) as Hruns by (now rewrite <- Hr).
  assert (only slug_safe slug = true /\ no_double is_dash slug = true) as [Hsafe Hnd].
  { pose proof (dash_runs_safe false (Py.lower text)) as Hs.
    destruct (dash_runs_shape false (Py.lower text)) as [Hd _].
    fold runs in Hs, Hd. rewrite Hruns in Hs, Hd.
    unfold only in *. rewrite !avoids_app in Hs.
    apply andb_true_iff in Hs as [_ Hs]. apply andb_true_iff in Hs as [Hs _].
    apply no_double_app in Hd as [_ Hd]. apply no_double_app in Hd as [Hd _].
    now split. }
  assert (starts_with is_dash slug = false) as Hst'
    by (destruct slug; [reflexivity | simpl in *; now rewrite <- Hp]).
  assert (ends_with is_dash slug = false) as Hen'.
  { clear - Hen Hp. induction slug as [|c t IH]; [reflexivity|].
    simpl in *. destruct t; [now rewrite <- Hp | now apply IH]. }
  assert (avoids slug_char (Py.lower text) = true -> slug = EmptyString) as Hnone
    by (intro Hno; exact (dash_runs_without_slug_chars false _ Hno)).
  clearbody slug.
  destruct (Py.str_truthy slug) eqn:Htr.
  - unfold Py.take.
    destruct (substring_0_prefix 80 slug) as [rest Hrest].
    destruct (substring_0_length 80 slug) as (Hlen & Hall & Hcut).
    destruct slug as [|c t]; [discriminate|].
    repeat split.
    + discriminate.
    + exact Hlen.
    + unfold only in *. rewrite Hrest, avoids_app in Hsafe.
      now apply andb_true_iff in Hsafe as [Hsafe _].
    + exact Hst'.
    + rewrite Hrest in Hnd. now apply no_double_app in Hnd as [Hnd _].
    + intro Hend.
      destruct (Nat.le_gt_cases (String.length (String c t)) 80) as [Hle|Hgt].
      * rewrite (Hall Hle) in Hend. congruence.
      * apply Hcut. lia.
    + intro Hno. specialize (Hnone Hno). discriminate.
  - repeat split; try reflexivity; try discriminate.
    vm_compute. lia.
Qed.

Lemma slugify_safe_witness :
  (avoids slug_char (Py.lower "?!") = true /\ slugify "?!" = "summary")
  /\ (ends_with is_dash (slugify long_title) = true
      /\ String.length (slugify long_title) = 80%nat)
  /\ slugify "Hello, World!" <> EmptyString
  /\ only slug_safe (slugify "Hello, World!") = true.
Proof.
  split; [|split].
  - split; [reflexivity|].
    exact (proj2 (proj2 (proj2 (proj2 (proj2 (proj2 (slugify_safe "?!"))))))
                 eq_refl).
  - assert (ends_with is_dash (slugify long_title) = true) as Hend
      by (vm_compute; reflexivity).
    split; [exact Hend|].
    exact (proj1 (proj2 (proj2 (proj2 (proj2 (proj2 (slugify_safe long_title))))))
                 Hend).
  - split.
    + exact (proj1 (slugify_safe "Hello, World!")).
    + exact (proj1 (proj2 (proj2 (slugify_safe "Hello, World!")))).
Defined.

(** ** The arXiv patterns, read backwards *)

Lemma strip_prefix_inv (l s s' : string) :
  Regex.strip_prefix l s = Some s' -> s = l ++ s'.
Proof.
  revert s. induction l as [|c l IH]; intro s; simpl.
  - now intros [= ->].
  - destruct s as [|d s]; [discriminate|].
    destruct (Ascii.eqb c d) eqn:Hcd; [|discriminate].
    apply Ascii.eqb_eq in Hcd. subst d. intro H. now rewrite (IH s H).
Qed.

Lemma plus_lazy_inv {R} (s : string) (k : string -> option R) (r : R) :
  Regex.plus_lazy Regex.AAny s k = Some r ->
  exists pre s',
    pre <> EmptyString /\ avoids is_newline pre = true
    /\ s = pre ++ s' /\ k s' = Some r.
Proof.
  induction s as [|c s IH]; simpl; [discriminate|].
  destruct (negb (Ascii.eqb c Regex.newline)) eqn:Hc; [|discriminate].
  destruct (k s) as [r'|] eqn:Hk.
  - intros [= ->]. exists (String c EmptyString), s.
    repeat split; try discriminate; try assumption.
    simpl. unfold is_newline. now rewrite Hc.
  - intro H. destruct (IH H) as (pre & s' & _ & Hnl & -> & Hks).
    exists (String c pre), s'. repeat split; try discriminate; try assumption.
    simpl. unfold is_newline at 1. now rewrite Hc.
Qed.

Lemma star_inv {R} (s : string) (k : string -> option R) (r : R) :
  Regex.star Regex.AAny s k = Some r ->
  exists pre s', s = pre ++ s' /\ k s' = Some r.
Proof.
  induction s as [|c s IH]; simpl.
  - intro H. now exists EmptyString, EmptyString.
  - destruct (negb (Ascii.eqb c Regex.newline)).
    + destruct (Regex.star Regex.AAny s k) as [r'|] eqn:Hs.
      * intros [= ->]. destruct (IH eq_refl) as (pre & s' & -> & Hk).
        now exists (String c pre), s'.
      * intro H. now exists EmptyString, (String c s).
    + intro H. now exists EmptyString, (String c s).
Qed.

Lemma at_end_inv (s : string) :
  Regex.at_end s = true -> s = EmptyString \/ s = Py.nl.
Proof.
  destruct s as [|c [|d s]]; simpl; try discriminate; [now left|].
  intro H. apply Ascii.eqb_eq in H. subst c. now right.
Qed.

Lemma arxiv_tail_inv (s : string) (m : Regex.groups) :
  Regex.run arxiv_tail s None (fun _ g => Some g) = Some m ->
  exists g rest,
    g <> EmptyString /\ avoids is_newline g = true
    /\ s = g ++ rest /\ m = Some g
    /\ (rest = EmptyString \/ rest = Py.nl \/ exists q, rest = "?" ++ q).
Proof.
  unfold arxiv_tail. cbn [Regex.run]. intro H.
  apply plus_lazy_inv in H as (g & rest & Hne & Hnl & -> & H).
  exists g, rest. rewrite consumed_app in H.
  split; [exact Hne|]. split; [exact Hnl|]. split; [reflexivity|].
  destruct (Regex.strip_prefix "?" rest) as [q|] eqn:Hq.
  - apply strip_prefix_inv in Hq. subst rest.
    match type of H with
    | match ?x with _ => _ end = _ => destruct x as [m'|] eqn:Hs
    end.
    + injection H as <-. apply star_inv in Hs as (pre & s' & _ & Hk).
      destruct (Regex.at_end s'); [|discriminate]. injection Hk as <-.
      split; [reflexivity|]. right. right. now exists q.
    + destruct (Regex.at_end ("?" ++ q)); [|discriminate]. injection H as <-.
      split; [reflexivity|]. right. right. now exists q.
  - cbv beta iota in H.
    destruct (Regex.at_end rest) eqn:He; [|discriminate]. injection H as <-.
    split; [reflexivity|]. apply at_end_inv in He. tauto.
Qed.

(** Both patterns have this form, for their own path prefix [lit]. *)
Lemma arxiv_pattern_inv (lit url : string) (m : Regex.groups) :
  Regex.re_match
    (Regex.Seq (Regex.Lit "http")
       (Regex.Seq (Regex.Opt (Regex.Lit "s")) (Regex.Seq (Regex.Lit lit) arxiv_tail)))
    url = Some m ->
  exists sch g rest,
    (sch = "http" \/ sch = "https")
    /\ url = sch ++ lit ++ g ++ rest
    /\ g <> EmptyString /\ avoids is_newline g = true
    /\ m = Some g
    /\ (rest = EmptyString \/ rest = Py.nl \/ exists q, rest = "?" ++ q).
Proof.
  unfold Regex.re_match. cbn -[arxiv_tail Regex.strip_prefix]. intro H.
  destruct (Regex.strip_prefix "http" url) as [u1|] eqn:H1; [|discriminate].
  apply strip_prefix_inv in H1. subst url.
  assert (forall sch u,
            match Regex.strip_prefix lit u with
            | Some s' => Regex.run arxiv_tail s' None (fun _ g => Some g)
            | None => None
            end = Some m ->
            exists g rest,
              sch ++ u = sch ++ lit ++ g ++ rest
              /\ g <> EmptyString /\ avoids is_newline g = true
              /\ m = Some g
              /\ (rest = EmptyString \/ rest = Py.nl \/ exists q, rest = "?" ++ q))
    as Hbody.
  { intros sch u Hu.
    destruct (Regex.strip_prefix lit u) as [u'|] eqn:Hl; [|discriminate].
    apply strip_prefix_inv in Hl. subst u.
    apply arxiv_tail_inv in Hu as (g & rest & Hne & Hnl & -> & -> & Hrest).
    now exists g, rest. }
  destruct (Regex.strip_prefix "s" u1) as [u2|] eqn:H2.
  - apply strip_prefix_inv in H2. subst u1.
    destruct (match Regex.strip_prefix lit u2 with
              | Some s' => Regex.run arxiv_tail s' None (fun _ g => Some g)
              | None => None
              end) as [m'|] eqn:Hs.
    + injection H as <-.
      destruct (Hbody "https" u2 Hs) as (g & rest & Heq & Hrest).
      exists "https", g, rest. split; [now right|]. split; [exact Heq | exact Hrest].
    + destruct (Hbody "http" ("s" ++ u2) H) as (g & rest & Heq & Hrest).
      exists "http", g, rest. split; [now left|]. split; [exact Heq | exact Hrest].
  - destruct (Hbody "http" u1 H) as (g & rest & Heq & Hrest).
    exists "http", g, rest. split; [now left|]. split; [exact Heq | exact Hrest].
Qed.

(** X7.  The rewrite fires only on arXiv abstract and HTML addresses: a
    rewritten URL comes from [http(s)://arxiv.org/abs/<id>] or
    [http(s)://arxiv.org/html/<id>], with a non-empty identifier free of
    newlines, followed by nothing, by a final newline or by a query string;
    the result is [https://arxiv.org/pdf/<id>], which the truth test of
    [_extract_text_from_url] always accepts. *)
Theorem rewrite_to_pdf_url_sound (url p : string) :
  _rewrite_to_pdf_url url = Some p ->
  exists sch kind g rest,
    (sch = "http" \/ sch = "https")
    /\ (kind = "abs" \/ kind = "html")
    /\ url = sch ++ "://arxiv.org/" ++ kind ++ "/" ++ g ++ rest
    /\ g <> EmptyString /\ avoids is_newline g = true
    /\ (rest = EmptyString \/ rest = Py.nl \/ exists q, rest = "?" ++ q)
    /\ p = "https://arxiv.org/pdf/" ++ g
    /\ opt_str_truthy (Some p) = true.
Proof.
  unfold _rewrite_to_pdf_url. intro H.
  destruct (Regex.re_match arxiv_abs_pattern url) as [m|] eqn:Habs.
  - injection H as <-.
    apply arxiv_pattern_inv in Habs
      as (sch & g & rest & Hsch & -> & Hne & Hnl & -> & Hrest).
    exists sch, "abs", g, rest.
    repeat (split; [first [assumption | now left | reflexivity]|]).
    reflexivity.
  - destruct (Regex.re_match arxiv_html_pattern url) as [m|] eqn:Hhtml;
      [|discriminate].
    injection H as <-.
    apply arxiv_pattern_inv in Hhtml
      as (sch & g & rest & Hsch & -> & Hne & Hnl & -> & Hrest).
    exists sch, "html", g, rest.
    repeat (split; [first [assumption | now right | reflexivity]|]).
    reflexivity.
Qed.

Lemma rewrite_to_pdf_url_sound_witness :
  _rewrite_to_pdf_url "http://arxiv.org/html/2301.00001v2?lang=en"
  = Some "https://arxiv.org/pdf/2301.00001v2"
  /\ exists sch kind g rest,
      (sch = "http" \/ sch = "https")
      /\ (kind = "abs" \/ kind = "html")
      /\ "http://arxiv.org/html/2301.00001v2?lang=en"
         = sch ++ "://arxiv.org/" ++ kind ++ "/" ++ g ++ rest
      /\ g <> EmptyString /\ avoids is_newline g = true
      /\ (rest = EmptyString \/ rest = Py.nl \/ exists q, rest = "?" ++ q)
      /\ "https://arxiv.org/pdf/2301.00001v2" = "https://arxiv.org/pdf/" ++ g
      /\ opt_str_truthy (Some "https://arxiv.org/pdf/2301.00001v2") = true.
Proof.
  split; [reflexivity|].
  exact (rewrite_to_pdf_url_sound "http://arxiv.org/html/2301.00001v2?lang=en"
                                  "https://arxiv.org/pdf/2301.00001v2" eq_refl).
Defined.

(** ** HTML addresses *)

Lemma arxiv_html_match (id query : string) :
  id <> EmptyString ->
  avoids is_newline_or_question id = true ->
  query = EmptyString
  \/ (exists q, query = "?" ++ q /\ avoids is_newline q = true) ->
  Regex.re_match arxiv_html_pattern ("https://arxiv.org/html/" ++ id ++ query)
  = Some (Some id)
  /\ Regex.re_match arxiv_html_pattern ("http://arxiv.org/html/" ++ id ++ query)
     = Some (Some id).
Proof.
  intros Hne Hid Hq. pose proof (arxiv_tail_match id query Hne Hid Hq) as Ht.
  unfold Regex.re_match, arxiv_html_pattern.
  split; cbn -[arxiv_tail]; rewrite Ht; reflexivity.
Qed.

Lemma arxiv_abs_rejects_html (rest : string) :
  Regex.re_match arxiv_abs_pattern ("https://arxiv.org/html/" ++ rest) = None
  /\ Regex.re_match arxiv_abs_pattern ("http://arxiv.org/html/" ++ rest) = None.
Proof. split; reflexivity. Qed.

(** X8.  An arXiv HTML address, with either scheme and with or without a
    query string, is rewritten to the PDF address of its identifier, always
    with the [https] scheme, and is handed to the PDF downloader. *)
Theorem arxiv_html_routed_to_pdf_download (E : env) (s : state) (id query : string) :
  id <> EmptyString ->
  avoids is_newline_or_question id = true ->
  query = EmptyString
  \/ (exists q, query = "?" ++ q /\ avoids is_newline q = true) ->
  _rewrite_to_pdf_url ("https://arxiv.org/html/" ++ id ++ query)
  = Some ("https://arxiv.org/pdf/" ++ id)
  /\ _rewrite_to_pdf_url ("http://arxiv.org/html/" ++ id ++ query)
     = Some ("https://arxiv.org/pdf/" ++ id)
  /\ _extract_text_from_url E ("https://arxiv.org/html/" ++ id ++ query) s
     = _download_pdf_text E ("https://arxiv.org/pdf/" ++ id) s
  /\ _extract_text_from_url E ("http://arxiv.org/html/" ++ id ++ query) s
     = _download_pdf_text E ("https://arxiv.org/pdf/" ++ id) s.
Proof.
  intros Hne Hid Hq.
  destruct (arxiv_html_match id query Hne Hid Hq) as [Hs Hp].
  destruct (arxiv_abs_rejects_html (id ++ query)) as [Has Hap].
  assert (_rewrite_to_pdf_url ("https://arxiv.org/html/" ++ id ++ query)
          = Some ("https://arxiv.org/pdf/" ++ id)) as Hrs
    by (unfold _rewrite_to_pdf_url; now rewrite Has, Hs).
  assert (_rewrite_to_pdf_url ("http://arxiv.org/html/" ++ id ++ query)
          = Some ("https://arxiv.org/pdf/" ++ id)) as Hrp
    by (unfold _rewrite_to_pdf_url; now rewrite Hap, Hp).
  split; [exact Hrs|]. split; [exact Hrp|].
  split; unfold _extract_text_from_url; [rewrite Hrs | rewrite Hrp]; reflexivity.
Qed.

Lemma arxiv_html_routed_to_pdf_download_witness :
  "2301.00001v2" <> EmptyString
  /\ avoids is_newline_or_question "2301.00001v2" = true
  /\ _rewrite_to_pdf_url ("https://arxiv.org/html/" ++ "2301.00001v2" ++ "")
     = Some ("https://arxiv.org/pdf/" ++ "2301.00001v2")
  /\ _rewrite_to_pdf_url ("http://arxiv.org/html/" ++ "2301.00001v2" ++ "")
     = Some ("https://arxiv.org/pdf/" ++ "2301.00001v2")
  /\ _extract_text_from_url sample_web_env
       ("https://arxiv.org/html/" ++ "2301.00001v2" ++ "") fresh_state
     = _download_pdf_text sample_web_env
         ("https://arxiv.org/pdf/" ++ "2301.00001v2") fresh_state
  /\ _extract_text_from_url sample_web_env
       ("http://arxiv.org/html/" ++ "2301.00001v2" ++ "") fresh_state
     = _download_pdf_text sample_web_env
         ("https://arxiv.org/pdf/" ++ "2301.00001v2") fresh_state.
Proof.
  split; [discriminate|]. split; [reflexivity|].
  apply (arxiv_html_routed_to_pdf_download sample_web_env fresh_state
                                            "2301.00001v2" "").
  - discriminate.
  - reflexivity.
  - now left.
Defined.

(** ** The challenge wait: bounds and exact runs *)

Lemma cloudflare_loop_bound (pg : page) (start timeout : Q) (fuel : nat) :
  forall (n : nat) (s : state),
    let o := cloudflare_loop fuel pg start timeout n s in
    res_of o = Ret tt
    /\ rl_file (state_of o) = rl_file s
    /\ proxy_force (state_of o) = proxy_force s
    /\ draws (state_of o) = draws s
    /\ (clock s <= clock (state_of o))%Q
    /\ (clock (state_of o) = clock s
        \/ (clock (state_of o) - start < timeout + 2)%Q)
    /\ (List.length (filter is_poll (events_of o)) <= fuel)%nat.
Proof.
  induction fuel as [|fuel IH]; intros n s; cbv zeta.
  - simpl. repeat split; try apply Qle_refl; auto.
  - rewrite cloudflare_loop_step.
    destruct (Py.Qltb (clock s - start) timeout) eqn:Ht.
    + destruct (challenge_shown pg n).
      * destruct (IH (S n) (slept s 2)) as (Hr & Hf & Hp & Hd & Hc & Hb & Hn).
        cbv zeta. unfold res_of, state_of, events_of in *. cbn [fst snd] in *.
        apply Qltb_true in Ht. unfold slept in *. cbn [clock rl_file proxy_force draws] in *.
        repeat split; try assumption.
        -- lra.
        -- right. destruct Hb as [Hb|Hb]; [rewrite Hb|]; lra.
        -- cbn [filter is_poll List.length]. lia.
      * unfold res_of, state_of, events_of. cbn.
        repeat split; try apply Qle_refl; auto. lia.
    + unfold res_of, state_of, events_of. cbn.
      repeat split; try apply Qle_refl; auto. lia.
Qed.

(** X9.  The challenge wait always returns, changes nothing but the clock,
    never lets it run backwards, finishes less than two seconds after its
    time budget, and polls the page at most once per two seconds of
    budget, plus once. *)
Theorem wait_for_cloudflare_bounded (pg : page) (timeout_seconds : Z) (s : state) :
  (0 <= timeout_seconds)%Z ->
  let o := _wait_for_cloudflare pg timeout_seconds s in
  res_of o = Ret tt
  /\ rl_file (state_of o) = rl_file s
  /\ proxy_force (state_of o) = proxy_force s
  /\ draws (state_of o) = draws s
  /\ (clock s <= clock (state_of o))%Q
  /\ (clock (state_of o) - clock s < inject_Z timeout_seconds + 2)%Q
  /\ (List.length (filter is_poll (events_of o))
      <= S (Z.to_nat (timeout_seconds / 2)))%nat.
Proof.
  intros Hpos. cbv zeta. unfold _wait_for_cloudflare.
  rewrite (bind_run _ _ s s (clock s) []) by reflexivity.
  destruct (cloudflare_loop_bound pg (clock s) (inject_Z timeout_seconds)
              (S (Z.to_nat (timeout_seconds / 2))) 0 s)
    as (Hr & Hf & Hp & Hd & Hc & Hb & Hn).
  unfold res_of, state_of, events_of in *. cbn [fst snd app] in *.
  repeat split; try assumption.
  assert (0 <= inject_Z timeout_seconds)%Q as HT
    by (change 0%Q with (inject_Z 0); now rewrite <- Zle_Qle).
  destruct Hb as [Hb|Hb]; [rewrite Hb|]; lra.
Qed.

Lemma wait_for_cloudflare_bounded_witness :
  (0 <= 30)%Z
  /\ res_of (_wait_for_cloudflare stuck_page 30 fresh_state) = Ret tt
  /\ rl_file (state_of (_wait_for_cloudflare stuck_page 30 fresh_state))
     = rl_file fresh_state
  /\ proxy_force (state_of (_wait_for_cloudflare stuck_page 30 fresh_state))
     = proxy_force fresh_state
  /\ draws (state_of (_wait_for_cloudflare stuck_page 30 fresh_state))
     = draws fresh_state
  /\ (clock fresh_state
      <= clock (state_of (_wait_for_cloudflare stuck_page 30 fresh_state)))%Q
  /\ (clock (state_of (_wait_for_cloudflare stuck_page 30 fresh_state))
      - clock fresh_state < inject_Z 30 + 2)%Q
  /\ (List.length (filter is_poll
                     (events_of (_wait_for_cloudflare stuck_page 30 fresh_state)))
      <= S (Z.to_nat (30 / 2)))%nat.
Proof.
  split; [lia|].
  apply (wait_for_cloudflare_bounded stuck_page 30 fresh_state). lia.
Defined.

Lemma twice_slept_succ (k : nat) (s : state) :
  twice_slept (S k) s = twice_slept k (slept s 2).
Proof. unfold twice_slept. apply Nat.iter_succ_r. Qed.

Lemma twice_slept_clock (k : nat) (s : state) :
  (clock (twice_slept k s) == clock s + 2 * inject_Z (Z.of_nat k))%Q.
Proof.
  revert s. induction k as [|k IH]; intro s.
  - change (inject_Z (Z.of_nat 0)) with 0%Q. unfold twice_slept. simpl. lra.
  - rewrite twice_slept_succ, IH, inject_nat_succ. unfold slept. cbn [clock]. lra.
Qed.

Lemma cloudflare_loop_clears (pg : page) (start timeout : Q) (k : nat) :
  forall (fuel n : nat) (s : state),
    (k < fuel)%nat ->
    (forall i, (i < k)%nat -> challenge_shown pg (n + i) = true) ->
    challenge_shown pg (n + k) = false ->
    (clock s - start + 2 * inject_Z (Z.of_nat k) < timeout)%Q ->
    cloudflare_loop fuel pg start timeout n s
    = (Ret tt, twice_slept k s,
       (flat_map challenge_round (seq n k) ++ [EvBrowserPoll (n + k)])%list).
Proof.
  induction k as [|k IH]; intros fuel n s Hfuel Hshown Hclear Htime;
    (destruct fuel as [|fuel]; [lia|]); rewrite cloudflare_loop_step.
  - change (inject_Z (Z.of_nat 0)) with 0%Q in Htime.
    assert (Py.Qltb (clock s - start) timeout = true) as ->
      by (apply Qltb_true; lra).
    rewrite Nat.add_0_r in *. rewrite Hclear. reflexivity.
  - rewrite inject_nat_succ in Htime.
    assert (0 <= inject_Z (Z.of_nat k))%Q as Hk
      by (change 0%Q with (inject_Z 0); rewrite <- Zle_Qle; lia).
    assert (Py.Qltb (clock s - start) timeout = true) as ->
      by (apply Qltb_true; lra).
    rewrite <- (Nat.add_0_r n) at 1. rewrite (Hshown 0%nat) by lia.
    rewrite (IH fuel (S n) (slept s 2)).
    + cbv zeta. unfold res_of, state_of, events_of. cbn [fst snd].
      rewrite twice_slept_succ, Nat.add_succ_r. reflexivity.
    + lia.
    + intros i Hi. rewrite Nat.add_succ_l, <- Nat.add_succ_r. apply Hshown. lia.
    + now rewrite Nat.add_succ_l, <- Nat.add_succ_r.
    + unfold slept. cbn [clock]. lra.
Qed.

(** X10.  When the page shows the challenge at its first [k] polls and not
    at the next, within the time budget, the wait sleeps two seconds after
    each of the [k] polls, prints the notice each time, returns at poll
    [k], and has advanced the clock by [2 * k] seconds. *)
Theorem wait_for_cloudflare_clears (pg : page) (timeout_seconds : Z) (s : state)
        (k : nat) :
  (forall i, (i < k)%nat -> challenge_shown pg i = true) ->
  challenge_shown pg k = false ->
  (2 * Z.of_nat k < timeout_seconds)%Z ->
  _wait_for_cloudflare pg timeout_seconds s
  = (Ret tt, twice_slept k s,
     (flat_map challenge_round (seq 0 k) ++ [EvBrowserPoll k])%list)
  /\ (clock (twice_slept k s) == clock s + 2 * inject_Z (Z.of_nat k))%Q.
Proof.
  intros Hshown Hclear Htime. split; [|apply twice_slept_clock].
  unfold _wait_for_cloudflare.
  rewrite (bind_run _ _ s s (clock s) []) by reflexivity.
  rewrite (cloudflare_loop_clears pg (clock s) (inject_Z timeout_seconds) k
             (S (Z.to_nat (timeout_seconds / 2))) 0 s).
  - reflexivity.
  - assert (Z.of_nat k <= timeout_seconds / 2)%Z
      by (apply Z.div_le_lower_bound; lia).
    lia.
  - exact Hshown.
  - exact Hclear.
  - rewrite Zlt_Qlt, inject_Z_mult in Htime.
    change (inject_Z 2) with 2%Q in Htime. lra.
Qed.

Lemma wait_for_cloudflare_clears_witness :
  (forall i, (i < 3)%nat -> challenge_shown (clearing_page 3) i = true)
  /\ challenge_shown (clearing_page 3) 3 = false
  /\ (2 * Z.of_nat 3 < 30)%Z
  /\ _wait_for_cloudflare (clearing_page 3) 30 fresh_state
     = (Ret tt, twice_slept 3 fresh_state,
        (flat_map challenge_round (seq 0 3) ++ [EvBrowserPoll 3])%list)
  /\ (clock (twice_slept 3 fresh_state)
      == clock fresh_state + 2 * inject_Z (Z.of_nat 3))%Q.
Proof.
  assert (forall i, (i < 3)%nat -> challenge_shown (clearing_page 3) i = true) as Hs.
  { intros i Hi. destruct i as [|[|[|i]]]; try reflexivity. lia. }
  split; [exact Hs|]. split; [reflexivity|]. split; [reflexivity|].
  exact (wait_for_cloudflare_clears (clearing_page 3) 30 fresh_state 3 Hs
                                    eq_refl eq_refl).
Defined.

Lemma cloudflare_loop_gives_up (pg : page) (start timeout : Q) (k : nat) :
  forall (fuel n : nat) (s : state),
    (k <= fuel)%nat ->
    (forall i, (i < k)%nat -> challenge_shown pg (n + i) = true) ->
    (timeout <= clock s - start + 2 * inject_Z (Z.of_nat k))%Q ->
    (k = 0%nat \/ (clock s - start + 2 * inject_Z (Z.of_nat k) - 2 < timeout)%Q) ->
    cloudflare_loop fuel pg start timeout n s
    = (Ret tt, twice_slept k s, flat_map challenge_round (seq n k)).
Proof.
  induction k as [|k IH]; intros fuel n s Hfuel Hshown Hout Hin.
  - destruct fuel as [|fuel]; [reflexivity|]. rewrite cloudflare_loop_step.
    change (inject_Z (Z.of_nat 0)) with 0%Q in Hout.
    assert (Py.Qltb (clock s - start) timeout = false) as ->
      by (apply Qltb_false; lra).
    reflexivity.
  - destruct fuel as [|fuel]; [lia|]. rewrite cloudflare_loop_step.
    destruct Hin as [Hin|Hin]; [discriminate|].
    rewrite inject_nat_succ in Hout, Hin.
    assert (0 <= inject_Z (Z.of_nat k))%Q as Hk
      by (change 0%Q with (inject_Z 0); rewrite <- Zle_Qle; lia).
    assert (Py.Qltb (clock s - start) timeout = true) as ->
      by (apply Qltb_true; lra).
    rewrite <- (Nat.add_0_r n) at 1. rewrite (Hshown 0%nat) by lia.
    rewrite (IH fuel (S n) (slept s 2)).
    + cbv zeta. unfold res_of, state_of, events_of. cbn [fst snd].
      rewrite twice_slept_succ. reflexivity.
    + lia.
    + intros i Hi. rewrite Nat.add_succ_l, <- Nat.add_succ_r. apply Hshown. lia.
    + unfold slept. cbn [clock]. lra.
    + destruct k as [|k]; [now left|]. right.
      rewrite inject_nat_succ in *. unfold slept. cbn [clock]. lra.
Qed.

(** X11.  When the page keeps showing the challenge, the wait gives up once
    the budget is used: with [k] the number of two-second sleeps that fit
    the budget, it polls, prints and sleeps [k] times and returns, without
    a further poll.  For the budget of 30 seconds that [main] uses this is
    15 polls. *)
Theorem wait_for_cloudflare_gives_up (pg : page) (timeout_seconds : Z) (s : state)
        (k : nat) :
  (forall i, (i < k)%nat -> challenge_shown pg i = true) ->
  (timeout_seconds <= 2 * Z.of_nat k)%Z ->
  (k = 0%nat \/ 2 * Z.of_nat k - 2 < timeout_seconds)%Z ->
  _wait_for_cloudflare pg timeout_seconds s
  = (Ret tt, twice_slept k s, flat_map challenge_round (seq 0 k))
  /\ (clock (twice_slept k s) == clock s + 2 * inject_Z (Z.of_nat k))%Q.
Proof.
  intros Hshown Hout Hin. split; [|apply twice_slept_clock].
  unfold _wait_for_cloudflare.
  rewrite (bind_run _ _ s s (clock s) []) by reflexivity.
  rewrite (cloudflare_loop_gives_up pg (clock s) (inject_Z timeout_seconds) k
             (S (Z.to_nat (timeout_seconds / 2))) 0 s).
  - reflexivity.
  - destruct Hin as [->|Hin]; [lia|].
    assert (Z.of_nat k - 1 <= timeout_seconds / 2)%Z
      by (apply Z.div_le_lower_bound; lia).
    lia.
  - exact Hshown.
  - rewrite Zle_Qle, inject_Z_mult in Hout.
    change (inject_Z 2) with 2%Q in Hout. lra.
  - destruct Hin as [Hin|Hin]; [now left|]. right.
    rewrite Zlt_Qlt in Hin.
    unfold Z.sub in Hin. rewrite inject_Z_plus, inject_Z_mult in Hin.
    change (inject_Z 2) with 2%Q in Hin. change (inject_Z (- (2))) with (-2)%Q in Hin.
    lra.
Qed.

Lemma wait_for_cloudflare_gives_up_witness :
  (forall i, (i < 15)%nat -> challenge_shown stuck_page i = true)
  /\ (30 <= 2 * Z.of_nat 15)%Z
  /\ (15%nat = 0%nat \/ 2 * Z.of_nat 15 - 2 < 30)%Z
  /\ _wait_for_cloudflare stuck_page 30 fresh_state
     = (Ret tt, twice_slept 15 fresh_state, flat_map challenge_round (seq 0 15))
  /\ (clock (twice_slept 15 fresh_state)
      == clock fresh_state + 2 * inject_Z (Z.of_nat 15))%Q.
Proof.
  assert (forall i, (i < 15)%nat -> challenge_shown stuck_page i = true) as Hs
    by (intros i _; reflexivity).
  assert (30 <= 2 * Z.of_nat 15)%Z as Hout by (vm_compute; discriminate).
  assert (15%nat = 0%nat \/ 2 * Z.of_nat 15 - 2 < 30)%Z as Hin
    by (right; reflexivity).
  split; [exact Hs|]. split; [exact Hout|]. split; [exact Hin|].
  exact (wait_for_cloudflare_gives_up stuck_page 30 fresh_state 15 Hs Hout Hin).
Defined.

(** ** The API call, case by case *)

Lemma bind_raise {A B} (m : M A) (f : A -> M B) (s s1 : state) (x : exn)
      (e1 : list event) :
  m s = (Raise x, s1, e1) -> bind m f s = (Raise x, s1, e1).
Proof. intro Hm. unfold bind. now rewrite Hm. Qed.

Lemma summarize_content_run (E : env) (content : option string) (dbg : bool)
      (s : state) :
  summarize_content E content dbg s
  = match _get_proxy E s with
    | (Ret proxies, s1, e1) =>
        let pre := (EvStdout MsgRequesting :: e1
                    ++ [EvHttpPost (payload_of content) proxies])%list in
        match http_post E (payload_of content) proxies with
        | None => (Raise RequestException, s1, pre)
        | Some resp =>
            let shown :=
              if dbg then
                [EvStdout (MsgDebugStatus (status_code resp));
                 EvStdout match resp_json resp with
                          | Some j => MsgDebugJson j
                          | None => MsgDebugText (Py.take 1000 (resp_text resp))
                          end]
              else [] in
            if (status_code resp =? 429)%Z then
              (Exit 1%Z, s1, (pre ++ shown ++ [EvStderr MsgApiRateLimited])%list)
            else if negb (ok resp) then
              (Exit 1%Z, s1,
               (pre ++ shown
                ++ [EvStderr (MsgApiError (status_code resp)
                                (Py.take 500 (resp_text resp)))])%list)
            else
              match resp_json resp with
              | None => (Raise ValueError, s1, (pre ++ shown)%list)
              | Some (JObj kv) =>
                  if negb (truthy (dict_get kv "summary" (JStr ""))) then
                    (Exit 1%Z, s1,
                     (pre ++ shown ++ EvStderr MsgNoSummary
                      :: (if dbg then [EvStdout (MsgDebugJson (JObj kv))] else []))%list)
                  else (Ret (dict_get kv "summary" (JStr "")), s1, (pre ++ shown)%list)
              | Some _ => (Raise AttributeError, s1, (pre ++ shown)%list)
              end
        end
    | (Exit c, s1, e1) => (Exit c, s1, EvStdout MsgRequesting :: e1)
    | (Raise x, s1, e1) => (Raise x, s1, EvStdout MsgRequesting :: e1)
    end.
Proof.
  unfold summarize_content. fold (payload_of content).
  rewrite (bind_run _ _ s s tt [EvStdout MsgRequesting]) by reflexivity.
  destruct (_get_proxy E s) as [[[proxies|c|x] s1] e1] eqn:Hp.
  2: { rewrite (bind_exit _ _ _ _ _ _ Hp). reflexivity. }
  2: { rewrite (bind_raise _ _ _ _ _ _ Hp). reflexivity. }
  rewrite (bind_run _ _ s s1 proxies e1 Hp).
  rewrite (bind_run _ _ s1 s1 tt [EvHttpPost (payload_of content) proxies])
    by reflexivity.
  cbv zeta.
  destruct (http_post E (payload_of content) proxies) as [resp|];
    [|unfold res_of, state_of, events_of, raise; cbn [fst snd app];
      rewrite <- ?app_assoc, ?app_nil_r; reflexivity].
  unfold py_get, print, eprint.
  unfold res_of, state_of, events_of, bind, emit, ret, sys_exit, raise.
  destruct dbg; destruct (resp_json resp) as [[| | | | |kv]|];
    destruct (status_code resp =? 429)%Z; destruct (ok resp);
    cbn -[dict_get truthy Py.take];
    try (destruct (truthy (dict_get kv "summary" (JStr "")));
         cbn -[dict_get truthy Py.take]);
    rewrite <- ?app_assoc, ?app_nil_r; cbn [app];
    rewrite <- ?app_assoc, ?app_nil_r; cbn [app]; reflexivity.
Qed.

Lemma filter_quiet (p : event -> bool) (l : list event) :
  existsb p l = false -> filter (fun e => negb (p e)) l = l.
Proof.
  induction l as [|e l IH]; simpl; [reflexivity|].
  intro H. apply orb_false_iff in H as [He Hl]. rewrite He. simpl.
  now rewrite (IH Hl).
Qed.

Lemma filter_requesting (l : list event) :
  filter (fun e => negb (is_debug_print e)) (EvStdout MsgRequesting :: l)
  = EvStdout MsgRequesting :: filter (fun e => negb (is_debug_print e)) l.
Proof. reflexivity. Qed.

(** X12.  The debug flag only adds output: with and without it the call
    ends the same way, in the same state, and emits the same events once
    the debug lines are taken out. *)
Theorem debug_changes_only_output (E : env) (content : option string) (s : state) :
  res_of (summarize_content E content true s)
  = res_of (summarize_content E content false s)
  /\ state_of (summarize_content E content true s)
     = state_of (summarize_content E content false s)
  /\ filter (fun e => negb (is_debug_print e))
            (events_of (summarize_content E content true s))
     = events_of (summarize_content E content false s).
Proof.
  rewrite !summarize_content_run.
  pose proof (quiet_get_proxy is_debug_print E s) as Hq.
  destruct (_get_proxy E s) as [[[proxies|c|x] s1] e1];
    unfold events_of in Hq; cbn [snd] in Hq; apply filter_quiet in Hq.
  2, 3: unfold res_of, state_of, events_of; cbn [fst snd];
        repeat split; now rewrite filter_requesting, Hq.
  cbv zeta.
  destruct (http_post E (payload_of content) proxies) as [resp|].
  2: { unfold res_of, state_of, events_of. cbn [fst snd].
       repeat split. cbv zeta. rewrite ?filter_app, filter_requesting, ?filter_app, Hq.
       reflexivity. }
  destruct (resp_json resp) as [[| | | | |kv]|];
    destruct (status_code resp =? 429)%Z; destruct (ok resp);
    try destruct (truthy (dict_get kv "summary" (JStr "")));
    unfold res_of, state_of, events_of; cbn [fst snd negb];
    (repeat split); try reflexivity;
    rewrite ?filter_app, filter_requesting, ?filter_app, Hq;
    cbn [filter is_debug_print negb app];
    rewrite ?app_nil_r; reflexivity.
Qed.

(** X13.  [summarize_content] returns exactly when the proxy selection
    returns and the service answers the posted text with a status that is
    neither 429 nor another failure and with a JSON object whose [summary]
    is truthy; what it returns is that summary. *)
Theorem summarize_content_returns_iff (E : env) (content : option string) (dbg : bool)
        (s : state) (j : json) :
  res_of (summarize_content E content dbg s) = Ret j
  <-> exists proxies s1 e1 resp kv,
      _get_proxy E s = (Ret proxies, s1, e1)
      /\ http_post E (payload_of content) proxies = Some resp
      /\ status_code resp <> 429%Z
      /\ ok resp = true
      /\ resp_json resp = Some (JObj kv)
      /\ truthy (dict_get kv "summary" (JStr "")) = true
      /\ j = dict_get kv "summary" (JStr "").
Proof.
  rewrite summarize_content_run. split.
  - destruct (_get_proxy E s) as [[[proxies|c|x] s1] e1]; try discriminate.
    cbv zeta.
    destruct (http_post E (payload_of content) proxies) as [resp|] eqn:Hpost;
      [|discriminate].
    destruct (status_code resp =? 429)%Z eqn:H429; [discriminate|].
    destruct (ok resp) eqn:Hok; [|discriminate]. cbn [negb].
    destruct (resp_json resp) as [[| | | | |kv]|] eqn:Hj; try discriminate.
    destruct (truthy (dict_get kv "summary" (JStr ""))) eqn:Ht; [|discriminate].
    cbn [negb]. unfold res_of. cbn [fst]. intros [= <-].
    exists proxies, s1, e1, resp, kv. apply Z.eqb_neq in H429.
    repeat (split; [first [assumption | reflexivity]|]). reflexivity.
  - intros (proxies & s1 & e1 & resp & kv & -> & -> & H429 & -> & -> & -> & ->).
    apply Z.eqb_neq in H429. cbv zeta. rewrite H429. reflexivity.
Qed.

Lemma summarize_content_returns_iff_witness :
  res_of (summarize_content sample_web_env (Some long_text) false fresh_state)
  = Ret (JStr "A fox jumps.")
  /\ exists proxies s1 e1 resp kv,
      _get_proxy sample_web_env fresh_state = (Ret proxies, s1, e1)
      /\ http_post sample_web_env (payload_of (Some long_text)) proxies = Some resp
      /\ status_code resp <> 429%Z
      /\ ok resp = true
      /\ resp_json resp = Some (JObj kv)
      /\ truthy (dict_get kv "summary" (JStr "")) = true
      /\ JStr "A fox jumps." = dict_get kv "summary" (JStr "").
Proof.
  split; [reflexivity|].
  exact (proj1 (summarize_content_returns_iff sample_web_env (Some long_text) false
                                              fresh_state (JStr "A fox jumps."))
               eq_refl).
Defined.

(** ** The PDF download, case by case *)

Lemma unique_split (p : event -> bool) (e1 e3 pre post : list event) (w w' : event) :
  existsb p e1 = false -> existsb p e3 = false ->
  p w = true -> p w' = true ->
  (e1 ++ w :: e3 = pre ++ w' :: post)%list ->
  e1 = pre /\ w = w' /\ e3 = post.
Proof.
  revert pre. induction e1 as [|x e1 IH]; intros pre H1 H3 Hw Hw' Heq.
  - destruct pre as [|y pre].
    + simpl in Heq. injection Heq as -> ->. now repeat split.
    + simpl in Heq. injection Heq as <- Heq.
      assert (existsb p e3 = true) as C
        by (rewrite Heq, existsb_app; simpl; rewrite Hw'; now rewrite orb_true_r).
      congruence.
  - simpl in H1. apply orb_false_iff in H1 as [Hx H1].
    destruct pre as [|y pre].
    + simpl in Heq. injection Heq as -> _. congruence.
    + simpl in Heq. injection Heq as <- Heq.
      destruct (IH pre H1 H3 Hw Hw' Heq) as (-> & -> & ->). now repeat split.
Qed.

Lemma download_pdf_text_run (E : env) (url : string) (s : state) :
  _download_pdf_text E url s
  = match _get_proxy E s with
    | (Ret proxies, s1, e1) =>
        let pre := (EvStdout (MsgDownloadingPdf url) :: e1
                    ++ [EvHttpGet url proxies])%list in
        match http_get E url proxies with
        | None => (Raise RequestException, s1, pre)
        | Some resp =>
            if negb (ok resp) then
              (Exit 1%Z, s1,
               (pre ++ [EvStderr (MsgDownloadFailed (status_code resp))])%list)
            else
              match resp_pdf_text resp with
              | None =>
                  (Raise PdfError, s1,
                   (pre ++ [EvTmpWrite; EvTmpExtract; EvTmpUnlink])%list)
              | Some text =>
                  (Ret (Some (Py.strip text), None), s1,
                   (pre ++ [EvTmpWrite; EvTmpExtract; EvTmpUnlink])%list)
              end
        end
    | (Exit c, s1, e1) => (Exit c, s1, EvStdout (MsgDownloadingPdf url) :: e1)
    | (Raise x, s1, e1) => (Raise x, s1, EvStdout (MsgDownloadingPdf url) :: e1)
    end.
Proof.
  unfold _download_pdf_text.
  rewrite (bind_run _ _ s s tt [EvStdout (MsgDownloadingPdf url)]) by reflexivity.
  destruct (_get_proxy E s) as [[[proxies|c|x] s1] e1] eqn:Hp.
  2: { rewrite (bind_exit _ _ _ _ _ _ Hp). reflexivity. }
  2: { rewrite (bind_raise _ _ _ _ _ _ Hp). reflexivity. }
  rewrite (bind_run _ _ s s1 proxies e1 Hp).
  rewrite (bind_run _ _ s1 s1 tt [EvHttpGet url proxies]) by reflexivity.
  cbv zeta. unfold print, eprint.
  unfold res_of, state_of, events_of, bind, emit, ret, sys_exit, raise.
  destruct (http_get E url proxies) as [resp|];
    [destruct (ok resp); [destruct (resp_pdf_text resp)|]|];
    cbn -[Py.strip]; rewrite <- ?app_assoc, ?app_nil_r; reflexivity.
Qed.

(** X14.  In [_download_pdf_text] a temporary file that was written is
    always read and then removed, whether pdfminer yields a text or raises,
    and nothing follows the removal.  The call returns only the trimmed
    text of a successful response, with no title; and a response that is
    not a success ends the run with status 1 before any temporary file is
    written. *)
Theorem download_pdf_text_cleans_up (E : env) (url : string) (s : state) :
  (forall pre post,
      events_of (_download_pdf_text E url s) = (pre ++ EvTmpWrite :: post)%list ->
      post = [EvTmpExtract; EvTmpUnlink])
  /\ (forall text title,
         res_of (_download_pdf_text E url s) = Ret (text, title) ->
         title = None
         /\ exists proxies resp raw,
             In (EvHttpGet url proxies) (events_of (_download_pdf_text E url s))
             /\ http_get E url proxies = Some resp
             /\ ok resp = true
             /\ resp_pdf_text resp = Some raw
             /\ text = Some (Py.strip raw))
  /\ (forall proxies resp,
         In (EvHttpGet url proxies) (events_of (_download_pdf_text E url s)) ->
         http_get E url proxies = Some resp ->
         ok resp = false ->
         res_of (_download_pdf_text E url s) = Exit 1%Z
         /\ existsb is_tmp_write (events_of (_download_pdf_text E url s)) = false).
Proof.
  rewrite download_pdf_text_run.
  pose proof (quiet_get_proxy is_tmp_write E s) as Hqw.
  pose proof (quiet_get_proxy is_download_event E s) as Hqd.
  destruct (_get_proxy E s) as [[[proxies|c|x] s1] e1];
    unfold events_of in Hqw, Hqd; cbn [snd] in Hqw, Hqd.
  2, 3: unfold res_of, events_of; cbn [fst snd]; split; [|split];
        [ intros pre post Hev;
          assert (existsb is_tmp_write (pre ++ EvTmpWrite :: post) = false) as C
            by (rewrite <- Hev; simpl; exact Hqw);
          rewrite existsb_app in C; simpl in C; rewrite orb_true_r in C; discriminate
        | discriminate
        | intros proxies resp [Hin|Hin]; [discriminate|];
          apply (quiet_in _ _ _ Hqd) in Hin; discriminate ].
  cbv zeta.
  assert (forall tail,
             existsb is_tmp_write tail = false ->
             existsb is_tmp_write
               ((EvStdout (MsgDownloadingPdf url) :: e1 ++ [EvHttpGet url proxies])
                ++ tail) = false) as Hnone.
  { intros tail Ht. rewrite existsb_app, Ht. simpl.
    rewrite existsb_app, Hqw. reflexivity. }
  assert (forall tail proxies',
             In (EvHttpGet url proxies')
                ((EvStdout (MsgDownloadingPdf url) :: e1 ++ [EvHttpGet url proxies])
                 ++ tail) ->
             existsb is_download_event tail = false \/ tail = [EvTmpWrite; EvTmpExtract; EvTmpUnlink] ->
             proxies' = proxies) as Hsame.
  { intros tail proxies' Hin Htail.
    apply in_app_or in Hin as [Hin|Hin].
    - destruct Hin as [Hin|Hin]; [discriminate|].
      apply in_app_or in Hin as [Hin|[[= <-]|[]]]; [|reflexivity].
      apply (quiet_in _ _ _ Hqd) in Hin. discriminate.
    - destruct Htail as [Ht| ->].
      + apply (quiet_in _ _ _ Ht) in Hin. discriminate.
      + simpl in Hin. intuition discriminate. }
  assert (forall pre post,
             ((EvStdout (MsgDownloadingPdf url) :: e1 ++ [EvHttpGet url proxies])
              ++ [EvTmpWrite; EvTmpExtract; EvTmpUnlink]
              = pre ++ EvTmpWrite :: post)%list ->
             post = [EvTmpExtract; EvTmpUnlink]) as Hclean.
  { intros pre post Hev.
    apply (unique_split is_tmp_write) in Hev as (_ & _ & <-);
      try reflexivity.
    simpl. rewrite existsb_app, Hqw. reflexivity. }
  destruct (http_get E url proxies) as [resp|] eqn:Hget.
  2: { unfold res_of, events_of; cbn [fst snd]. split; [|split].
       - intros pre post Hev.
         assert (existsb is_tmp_write (pre ++ EvTmpWrite :: post) = false) as C.
         { rewrite <- Hev. rewrite <- (app_nil_r (_ :: _)). now apply Hnone. }
         rewrite existsb_app in C. simpl in C. rewrite orb_true_r in C. discriminate.
       - discriminate.
       - intros proxies' resp' Hin Hget'.
         rewrite <- (app_nil_r (_ :: _)) in Hin.
         apply Hsame in Hin; [|now left]. subst proxies'. congruence. }
  destruct (ok resp) eqn:Hok; cbn [negb].
  - destruct (resp_pdf_text resp) as [raw|] eqn:Hraw;
      unfold res_of, events_of; cbn [fst snd]; (split; [exact Hclean|split]).
    + intros text title [= <- <-]. split; [reflexivity|].
      exists proxies, resp, raw. repeat split; try assumption.
      apply in_or_app. left. right. apply in_or_app. right. now left.
    + intros proxies' resp' Hin Hget' Hok'.
      apply Hsame in Hin; [|now right]. subst proxies'. congruence.
    + discriminate.
    + intros proxies' resp' Hin Hget' Hok'.
      apply Hsame in Hin; [|now right]. subst proxies'. congruence.
  - unfold res_of, events_of; cbn [fst snd]. split; [|split].
    + intros pre post Hev.
      assert (existsb is_tmp_write (pre ++ EvTmpWrite :: post) = false) as C
        by (rewrite <- Hev; now apply Hnone).
      rewrite existsb_app in C. simpl in C. rewrite orb_true_r in C. discriminate.
    + discriminate.
    + intros _ _ _ _ _. split; [reflexivity|]. now apply Hnone.
Qed.

Lemma download_pdf_text_cleans_up_witness :
  (events_of (_download_pdf_text sample_web_env "https://arxiv.org/pdf/1234.5678"
                                 fresh_state)
   = ([EvStdout (MsgDownloadingPdf "https://arxiv.org/pdf/1234.5678");
       EvHttpGet "https://arxiv.org/pdf/1234.5678" JNull]
      ++ EvTmpWrite :: [EvTmpExtract; EvTmpUnlink])%list
   /\ [EvTmpExtract; EvTmpUnlink] = [EvTmpExtract; EvTmpUnlink])
  /\ (res_of (_download_pdf_text sample_web_env "https://arxiv.org/pdf/1234.5678"
                                 fresh_state)
      = Ret (Some long_text, None)
      /\ (None : option string) = None
      /\ exists proxies resp raw,
          In (EvHttpGet "https://arxiv.org/pdf/1234.5678" proxies)
             (events_of (_download_pdf_text sample_web_env
                           "https://arxiv.org/pdf/1234.5678" fresh_state))
          /\ http_get sample_web_env "https://arxiv.org/pdf/1234.5678" proxies
             = Some resp
          /\ ok resp = true
          /\ resp_pdf_text resp = Some raw
          /\ Some long_text = Some (Py.strip raw))
  /\ (In (EvHttpGet "https://arxiv.org/pdf/1234.5678" JNull)
         (events_of (_download_pdf_text missing_download_env
                       "https://arxiv.org/pdf/1234.5678" fresh_state))
      /\ http_get missing_download_env "https://arxiv.org/pdf/1234.5678" JNull
         = Some (sample_response 404 None None)
      /\ ok (sample_response 404 None None) = false
      /\ res_of (_download_pdf_text missing_download_env
                   "https://arxiv.org/pdf/1234.5678" fresh_state) = Exit 1%Z
      /\ existsb is_tmp_write
           (events_of (_download_pdf_text missing_download_env
                         "https://arxiv.org/pdf/1234.5678" fresh_state)) = false).
Proof.
  split; [|split].
  - assert (events_of (_download_pdf_text sample_web_env
                         "https://arxiv.org/pdf/1234.5678" fresh_state)
            = ([EvStdout (MsgDownloadingPdf "https://arxiv.org/pdf/1234.5678");
                EvHttpGet "https://arxiv.org/pdf/1234.5678" JNull]
               ++ EvTmpWrite :: [EvTmpExtract; EvTmpUnlink])%list) as Hev
      by reflexivity.
    split; [exact Hev|].
    exact (proj1 (download_pdf_text_cleans_up sample_web_env
                    "https://arxiv.org/pdf/1234.5678" fresh_state)
                 [EvStdout (MsgDownloadingPdf "https://arxiv.org/pdf/1234.5678");
                  EvHttpGet "https://arxiv.org/pdf/1234.5678" JNull]
                 [EvTmpExtract; EvTmpUnlink] Hev).
  - split; [reflexivity|].
    exact (proj1 (proj2 (download_pdf_text_cleans_up sample_web_env
                           "https://arxiv.org/pdf/1234.5678" fresh_state))
                 (Some long_text) None eq_refl).
  - assert (In (EvHttpGet "https://arxiv.org/pdf/1234.5678" JNull)
               (events_of (_download_pdf_text missing_download_env
                             "https://arxiv.org/pdf/1234.5678" fresh_state))) as Hin
      by (vm_compute; right; left; reflexivity).
    split; [exact Hin|]. split; [reflexivity|]. split; [reflexivity|].
    exact (proj2 (proj2 (download_pdf_text_cleans_up missing_download_env
                           "https://arxiv.org/pdf/1234.5678" fresh_state))
                 JNull (sample_response 404 None None) Hin eq_refl eq_refl).
Defined.

(** ** Where a proxy comes from *)

Lemma get_proxy_url_run_parsed (E : env) (s : state) (kv : list (string * json))
      (l : list json) :
  proxy_source E = CfgParsed (JObj kv) ->
  dict_get kv "proxies" (JArr []) = JArr l ->
  _get_proxy_url E s
  = if proxying_enabled (proxy_force s) kv then
      match l with
      | [] => (Ret JNull, s, [])
      | _ :: _ =>
          match nth_error l (random_draw E (draws s) mod List.length l) with
          | Some v => (Ret v, drew s, [])
          | None => (Raise IndexError, drew s, [])
          end
      end
    else (Ret JNull, s, []).
Proof.
  intros Hsrc Hl.
  pose proof (random_choice_array E l s) as Hc.
  unfold _get_proxy_url, _load_proxy_config, proxying_enabled. rewrite Hsrc.
  unfold bind, ret, get_state, py_get. cbn [fst snd].
  destruct (proxy_force s) as [[|]|]; cbn -[random_choice dict_get truthy nth_error List.length Nat.modulo].
  - rewrite Hl. destruct l as [|x l']; [reflexivity|].
    cbn -[random_choice nth_error List.length Nat.modulo]. rewrite Hc. now destruct (nth_error _ _).
  - reflexivity.
  - destruct (truthy (dict_get kv "enabled" (JBool false)));
      cbn -[random_choice dict_get truthy nth_error List.length Nat.modulo]; [|reflexivity].
    rewrite Hl. destruct l as [|x l']; [reflexivity|].
    cbn -[random_choice nth_error List.length Nat.modulo]. rewrite Hc.
    now destruct (nth_error _ _).
Qed.

(** X15.  With a configuration that is an object holding a proxy list, a
    proxy is never taken from anywhere else: [_get_proxy_url] returns
    [None] or a member of the list, [_get_proxy] returns [None] or the same
    member for both schemes, and the browser is launched with no proxy or
    with a member as its server. *)
Theorem proxies_come_from_the_list (E : env) (s : state)
        (kv : list (string * json)) (l : list json) :
  proxy_source E = CfgParsed (JObj kv) ->
  dict_get kv "proxies" (JArr []) = JArr l ->
  (forall r, res_of (_get_proxy_url E s) = Ret r -> r = JNull \/ In r l)
  /\ (forall r, res_of (_get_proxy E s) = Ret r ->
                r = JNull
                \/ exists u, In u l /\ r = JObj [("http", u); ("https", u)])
  /\ (forall p, In (EvBrowserLaunch p) (events_of (_launch_browser E s)) ->
                p = JNull \/ exists u, In u l /\ p = JObj [("server", u)]).
Proof.
  intros Hsrc Hl.
  pose proof (get_proxy_url_run_parsed E s kv l Hsrc Hl) as Hrun.
  assert (forall r s1 e1, _get_proxy_url E s = (Ret r, s1, e1) ->
                          e1 = [] /\ (r = JNull \/ In r l)) as Hurl.
  { intros r s1 e1. rewrite Hrun.
    destruct (proxying_enabled (proxy_force s) kv);
      [|intros [= <- _ <-]; split; [reflexivity | now left]].
    destruct l as [|x l']; [intros [= <- _ <-]; split; [reflexivity | now left]|].
    destruct (nth_error (x :: l') _) as [v|] eqn:Hn; [|discriminate].
    intros [= <- _ <-]. split; [reflexivity|]. right.
    eapply nth_error_In. exact Hn. }
  split; [|split].
  - intros r Hr. destruct (_get_proxy_url E s) as [[r' s1] e1] eqn:Hu.
    unfold res_of in Hr. cbn [fst] in Hr. subst r'.
    exact (proj2 (Hurl r s1 e1 eq_refl)).
  - intros r. unfold _get_proxy, bind, res_of.
    destruct (_get_proxy_url E s) as [[[u|c|x] s1] e1] eqn:Hu;
      cbn [fst]; try discriminate.
    destruct (Hurl u s1 e1 eq_refl) as [_ Hmem].
    destruct (truthy u) eqn:Ht; cbn [negb]; unfold ret; cbn [fst];
      intros [= <-]; [|now left].
    destruct Hmem as [-> |Hmem]; [discriminate|]. right. now exists u.
  - intros p. unfold _launch_browser, bind, events_of.
    destruct (_get_proxy_url E s) as [[[u|c|x] s1] e1] eqn:Hu; cbn [snd].
    + destruct (Hurl u s1 e1 eq_refl) as [-> Hmem].
      unfold emit, ret. cbn [fst snd app].
      intros [[= <-]|[]].
      destruct (truthy u) eqn:Ht; [|now left].
      destruct Hmem as [-> |Hmem]; [discriminate|]. right. now exists u.
    + intro Hin. pose proof (quiet_get_proxy_url is_browser_event E s) as Hq.
      rewrite Hu in Hq. apply (quiet_in _ _ _ Hq) in Hin. discriminate.
    + intro Hin. pose proof (quiet_get_proxy_url is_browser_event E s) as Hq.
      rewrite Hu in Hq. apply (quiet_in _ _ _ Hq) in Hin. discriminate.
Qed.

Lemma proxies_come_from_the_list_witness :
  proxy_source (proxied_env (CfgParsed (JObj two_proxies)) (fun _ => 1))
  = CfgParsed (JObj two_proxies)
  /\ dict_get two_proxies "proxies" (JArr [])
     = JArr [JStr "http://10.0.0.1:8080"; JStr "http://10.0.0.2:8080"]
  /\ res_of (_get_proxy (proxied_env (CfgParsed (JObj two_proxies)) (fun _ => 1))
                        fresh_state)
     = Ret (JObj [("http", JStr "http://10.0.0.2:8080");
                  ("https", JStr "http://10.0.0.2:8080")])
  /\ (JObj [("http", JStr "http://10.0.0.2:8080");
            ("https", JStr "http://10.0.0.2:8080")] = JNull
      \/ exists u,
          In u [JStr "http://10.0.0.1:8080"; JStr "http://10.0.0.2:8080"]
          /\ JObj [("http", JStr "http://10.0.0.2:8080");
                   ("https", JStr "http://10.0.0.2:8080")]
             = JObj [("http", u); ("https", u)]).
Proof.
  split; [reflexivity|]. split; [reflexivity|]. split; [reflexivity|].
  exact (proj1 (proj2 (proxies_come_from_the_list
                         (proxied_env (CfgParsed (JObj two_proxies)) (fun _ => 1))
                         fresh_state two_proxies
                         [JStr "http://10.0.0.1:8080"; JStr "http://10.0.0.2:8080"]
                         eq_refl eq_refl))
               _ eq_refl).
Defined.

(** ** The proxy override over a whole run *)

Section Steady.

Variable v : option bool.
Variable p : event -> bool.

Lemma steady_bind {A B} (post : A -> Prop) (post' : B -> Prop)
      (m : M A) (f : A -> M B) :
  steady v p post m -> (forall a, post a -> steady v p post' (f a)) ->
  steady v p post' (bind m f).
Proof.
  intros Hm Hf s Hs. specialize (Hm s Hs).
  unfold bind, res_of, state_of, events_of in *.
  destruct (m s) as [[r s1] e1]. cbn [fst snd] in Hm.
  destruct Hm as (Hv & He & Hp).
  destruct r as [a|c|x]; cbn [fst snd].
  - specialize (Hf a (Hp a eq_refl) s1 Hv).
    unfold res_of, state_of, events_of in Hf.
    destruct (f a s1) as [[r2 s2] e2]. cbn [fst snd] in *.
    destruct Hf as (Hv2 & He2 & Hp2).
    split; [exact Hv2|]. split; [|exact Hp2].
    now rewrite existsb_app, He, He2.
  - split; [exact Hv|]. split; [exact He|]. discriminate.
  - split; [exact Hv|]. split; [exact He|]. discriminate.
Qed.

Lemma calm_bind {A B} (m : M A) (f : A -> M B) :
  calm v p m -> (forall a, calm v p (f a)) -> calm v p (bind m f).
Proof. intros Hm Hf. eapply steady_bind; [exact Hm|]. intros a _. apply Hf. Qed.

Lemma calm_ret {A} (a : A) : calm v p (ret a).
Proof. intros s Hs. now repeat split. Qed.

Lemma calm_raise {A} (e : exn) : calm v p (@raise A e).
Proof. intros s Hs. now repeat split. Qed.

Lemma calm_sys_exit {A} (c : Z) : calm v p (@sys_exit A c).
Proof. intros s Hs. now repeat split. Qed.

Lemma calm_emit (e : event) : p e = false -> calm v p (emit e).
Proof.
  intros He s Hs. split; [exact Hs|]. split; [|easy].
  unfold events_of, emit. cbn. now rewrite He.
Qed.

Lemma calm_time_sleep (d : Q) : p (EvSleep d) = false -> calm v p (time_sleep d).
Proof.
  intros He s Hs. split; [exact Hs|]. split; [|easy].
  unfold events_of, time_sleep. cbn. now rewrite He.
Qed.

Lemma calm_write_timestamps (ts : list Q) :
  p (EvWriteRateLimit ts) = false -> calm v p (write_timestamps ts).
Proof.
  intros He s Hs. split; [exact Hs|]. split; [|easy].
  unfold events_of, write_timestamps. cbn. now rewrite He.
Qed.

Lemma calm_time_time : calm v p time_time.
Proof. intros s Hs. now repeat split. Qed.

Lemma calm_get_state : calm v p get_state.
Proof. intros s Hs. now repeat split. Qed.

Lemma calm_load_timestamps : calm v p load_timestamps.
Proof. intros s Hs. now repeat split. Qed.

Lemma calm_randbelow (E : env) (n : nat) : calm v p (randbelow E n).
Proof. intros s Hs. now repeat split. Qed.

End Steady.

Create HintDb calm discriminated.

#[local] Hint Resolve calm_ret calm_raise calm_sys_exit calm_time_time
  calm_get_state calm_load_timestamps calm_randbelow : calm.

(** The counterpart of [quiet_step] under a fixed override. *)
Ltac calm_step :=
  match goal with
  | |- calm _ _ (bind _ _) => apply calm_bind; [|intro]
  | |- calm _ _ (if ?b then _ else _) => destruct b
  | |- calm _ _ (match ?x with _ => _ end) => destruct x
  | |- calm _ _ (emit _) => apply calm_emit; reflexivity
  | |- calm _ _ (print _) => apply calm_emit; reflexivity
  | |- calm _ _ (eprint _) => apply calm_emit; reflexivity
  | |- calm _ _ (time_sleep _) => apply calm_time_sleep; reflexivity
  | |- calm _ _ (write_timestamps _) => apply calm_write_timestamps; reflexivity
  | |- calm _ _ _ => solve [auto with calm]
  end.

Ltac calm_tac := repeat calm_step.

Section Override.

Variable E : env.
Variable v : option bool.
Variable allowed : json -> bool.

(** The one assumption: under the override, every proxy URL that
    [_get_proxy_url] returns gives allowed settings. *)
Hypothesis proxy_url_allowed :
  steady v (breaks allowed)
         (fun url => allowed (requests_proxies url) = true
                     /\ allowed (browser_proxy url) = true)
         (_get_proxy_url E).

Lemma steady_get_proxy :
  steady v (breaks allowed) (fun r => allowed r = true) (_get_proxy E).
Proof.
  unfold _get_proxy. eapply steady_bind; [exact proxy_url_allowed|].
  intros url [Hr _] s Hs. unfold requests_proxies in Hr.
  destruct (truthy url); cbn [negb]; (split; [exact Hs|]); (split; [reflexivity|]);
    unfold ret, res_of; cbn [fst]; now intros r [= <-].
Qed.

Lemma calm_launch_browser : calm v (breaks allowed) (_launch_browser E).
Proof.
  unfold _launch_browser. eapply steady_bind; [exact proxy_url_allowed|].
  intros url [_ Hb]. unfold browser_proxy in Hb.
  apply calm_bind; [|intro; apply calm_ret].
  apply calm_emit. unfold breaks. cbn [proxy_of]. now rewrite Hb.
Qed.

Lemma calm_check_rate_limit : calm v (breaks allowed) check_rate_limit.
Proof. unfold check_rate_limit. calm_tac. Qed.

Lemma calm_record_request : calm v (breaks allowed) record_request.
Proof. unfold record_request. calm_tac. Qed.

Lemma calm_cloudflare_loop (fuel : nat) (pg : page) (start timeout : Q) (n : nat) :
  calm v (breaks allowed) (cloudflare_loop fuel pg start timeout n).
Proof.
  revert n. induction fuel as [|fuel IH]; intro n; simpl; calm_tac.
Qed.

Lemma calm_py_get (j : json) (k : string) (d : json) :
  calm v (breaks allowed) (py_get j k d).
Proof. unfold py_get. calm_tac. Qed.

#[local] Hint Resolve calm_launch_browser calm_check_rate_limit calm_record_request
  calm_cloudflare_loop calm_py_get : calm.

Lemma calm_download_pdf_text (url : string) :
  calm v (breaks allowed) (_download_pdf_text E url).
Proof.
  unfold _download_pdf_text.
  apply calm_bind; [calm_tac|]. intros _.
  eapply steady_bind; [exact steady_get_proxy|]. intros proxies Hp.
  apply calm_bind.
  { apply calm_emit. unfold breaks. cbn [proxy_of]. now rewrite Hp. }
  intros _. calm_tac.
Qed.

Lemma calm_extract_text_from_url (url : string) :
  calm v (breaks allowed) (_extract_text_from_url E url).
Proof.
  unfold _extract_text_from_url, _wait_for_cloudflare.
  destruct (opt_str_truthy (_rewrite_to_pdf_url url));
    [apply calm_download_pdf_text|].
  calm_tac.
Qed.

Lemma calm_extract_text_from_pdf (path : string) :
  calm v (breaks allowed) (_extract_text_from_pdf E path).
Proof. unfold _extract_text_from_pdf. calm_tac. Qed.

Lemma calm_is_local_file (i : string) :
  calm v (breaks allowed) (_is_local_file E i).
Proof. unfold _is_local_file. calm_tac. Qed.

Lemma calm_to_markdown (summary : json) (url : string) (t : option string) :
  calm v (breaks allowed) (to_markdown E summary url t).
Proof. unfold to_markdown. calm_tac. Qed.

Lemma calm_summarize_content (content : option string) (dbg : bool) :
  calm v (breaks allowed) (summarize_content E content dbg).
Proof.
  unfold summarize_content.
  apply calm_bind; [calm_tac|]. intros _.
  eapply steady_bind; [exact steady_get_proxy|]. intros proxies Hp.
  apply calm_bind.
  { apply calm_emit. unfold breaks. cbn [proxy_of]. now rewrite Hp. }
  intros _. calm_tac.
Qed.

#[local] Hint Resolve calm_extract_text_from_url calm_extract_text_from_pdf
  calm_is_local_file calm_to_markdown calm_summarize_content : calm.

(** Every network event of a run of [main] under the override has an
    allowed proxy setting. *)
Lemma main_respects_override (a : args) (s : state) :
  use_proxy a = v ->
  existsb (breaks allowed) (events_of (main E a s)) = false.
Proof.
  intro Hv.
  assert (forall m : M unit, calm v (breaks allowed) m ->
            existsb (breaks allowed)
                    (events_of (bind (set_proxy_force (use_proxy a)) (fun _ => m) s))
            = false) as Hrun.
  { intros m Hm. unfold bind, set_proxy_force.
    match goal with
    | |- context [m ?s'] =>
        destruct (Hm s' Hv) as (_ & He & _); unfold events_of in *;
        destruct (m s') as [[r2 s2] e2]
    end.
    exact He. }
  unfold main. apply Hrun. calm_tac.
Qed.

End Override.

(** X16.  With [--no-proxy] no request of the run goes through a proxy,
    whatever the proxy configuration holds: no download, no request to the
    service and no browser launch of [main] carries a proxy setting. *)
Theorem no_proxy_flag_is_honoured (E : env) (a : args) (s : state) :
  use_proxy a = Some false ->
  existsb uses_proxy (events_of (main E a s)) = false.
Proof.
  intro Hv. unfold uses_proxy.
  apply (main_respects_override E (Some false) is_none); [|exact Hv].
  intros s0 Hs.
  assert (_get_proxy_url E s0 = (Ret JNull, s0, [])
          \/ _get_proxy_url E s0 = (Raise UnicodeDecodeError, s0, [])) as [Hrun|Hrun].
  { unfold _get_proxy_url, _load_proxy_config.
    destruct (proxy_source E); unfold bind, ret, raise, get_state;
      cbn [fst snd]; rewrite ?Hs; auto. }
  - rewrite Hrun. unfold res_of, state_of, events_of. cbn [fst snd].
    split; [exact Hs|]. split; [reflexivity|]. now intros r [= <-].
  - rewrite Hrun. unfold res_of, state_of, events_of. cbn [fst snd].
    split; [exact Hs|]. split; [reflexivity|]. intros r. discriminate.
Qed.

Lemma no_proxy_flag_is_honoured_witness :
  use_proxy (sample_args_forced "https://example.com/post" (Some false)) = Some false
  /\ existsb uses_proxy
       (events_of (main (proxied_env (CfgParsed (JObj two_proxies)) (fun _ => 1))
                        (sample_args_forced "https://example.com/post" (Some false))
                        fresh_state))
     = false.
Proof.
  split; [reflexivity|].
  exact (no_proxy_flag_is_honoured
           (proxied_env (CfgParsed (JObj two_proxies)) (fun _ => 1))
           (sample_args_forced "https://example.com/post" (Some false))
           fresh_state eq_refl).
Defined.

(** X17.  With [--proxy] and a configuration whose proxy list is not empty
    and holds non-empty entries, no request of the run goes out directly,
    whatever the [enabled] entry says: every download, every request to the
    service and every browser launch of [main] carries a proxy setting. *)
Theorem proxy_flag_forces_a_proxy (E : env) (a : args) (s : state)
        (kv : list (string * json)) (l : list json) :
  use_proxy a = Some true ->
  proxy_source E = CfgParsed (JObj kv) ->
  dict_get kv "proxies" (JArr []) = JArr l ->
  l <> [] ->
  Forall (fun u => truthy u = true) l ->
  existsb goes_direct (events_of (main E a s)) = false.
Proof.
  intros Hv Hsrc Hl Hne Hall. unfold goes_direct.
  apply (main_respects_override E (Some true) (fun j => negb (is_none j)));
    [|exact Hv].
  intros s0 Hs.
  rewrite (get_proxy_url_run_parsed E s0 kv l Hsrc Hl).
  unfold proxying_enabled. rewrite Hs.
  destruct l as [|x l']; [now destruct Hne|].
  destruct (nth_error_mod_in (x :: l') (random_draw E (draws s0)) Hne)
    as (u & Hn & Hin).
  rewrite Hn. unfold res_of, state_of, events_of. cbn [fst snd drew proxy_force].
  split; [exact Hs|]. split; [reflexivity|]. intros r [= <-].
  rewrite Forall_forall in Hall. specialize (Hall u Hin).
  unfold requests_proxies, browser_proxy. rewrite Hall. now split.
Qed.

Lemma proxy_flag_forces_a_proxy_witness :
  use_proxy (sample_args_forced "https://example.com/post" (Some true)) = Some true
  /\ proxy_source (proxied_env (CfgParsed (JObj switched_off)) (fun _ => 0))
     = CfgParsed (JObj switched_off)
  /\ dict_get switched_off "proxies" (JArr []) = JArr [JStr "http://10.0.0.1:8080"]
  /\ [JStr "http://10.0.0.1:8080"] <> []
  /\ Forall (fun u => truthy u = true) [JStr "http://10.0.0.1:8080"]
  /\ existsb goes_direct
       (events_of (main (proxied_env (CfgParsed (JObj switched_off)) (fun _ => 0))
                        (sample_args_forced "https://example.com/post" (Some true))
                        fresh_state))
     = false.
Proof.
  assert ([JStr "http://10.0.0.1:8080"] <> []) as Hne by discriminate.
  assert (Forall (fun u => truthy u = true) [JStr "http://10.0.0.1:8080"]) as Hall
      by (constructor; [reflexivity | constructor]).
  split; [reflexivity|]. split; [reflexivity|]. split; [reflexivity|].
  split; [exact Hne|]. split; [exact Hall|].
  exact (proxy_flag_forces_a_proxy
           (proxied_env (CfgParsed (JObj switched_off)) (fun _ => 0))
           (sample_args_forced "https://example.com/post" (Some true))
           fresh_state switched_off [JStr "http://10.0.0.1:8080"]
           eq_refl eq_refl eq_refl Hne Hall).
Defined.

(** ** The output of a run *)

Lemma unsaved_or_saved_bind (E : env) (a : args) (logged : bool) {A}
      (m : M A) (f : A -> M unit) (s : state) :
  frames m -> quiet is_output_write m ->
  (forall x s1, unsaved (f x s1) \/ saved E a logged (f x s1)) ->
  unsaved (bind m f s) \/ saved E a logged (bind m f s).
Proof.
  intros Hm Hq Hk.
  destruct (m s) as [[r s1] e1] eqn:Hms.
  pose proof (Hm s) as (_ & Hw & _). pose proof (quiet_run _ _ _ _ _ _ Hq Hms) as Hp.
  rewrite Hms in Hw. unfold events_of in Hw. cbn [snd] in Hw.
  destruct r as [x|c|x].
  - rewrite (bind_run m f s s1 x e1 Hms).
    destruct (Hk x s1) as [[Hr He]|(pre & out & md & Hr & He & Hpre & Hlog & Hpath)].
    + left. split; [exact Hr|].
      unfold events_of at 1. cbn [snd]. now rewrite existsb_app, Hp, He.
    + right. exists (e1 ++ pre)%list, out, md.
      split; [exact Hr|]. split.
      { unfold events_of at 1. cbn [snd]. now rewrite He, app_assoc. }
      split; [now rewrite existsb_app, Hp, Hpre|].
      split; [now rewrite existsb_app, Hw, Hlog | exact Hpath].
  - left. rewrite (bind_exit m f s s1 c e1 Hms). now split.
  - left. rewrite (bind_raise m f s s1 x e1 Hms). now split.
Qed.

Lemma record_then_saved (E : env) (a : args) (k : M unit) (s : state) :
  (forall s1, unsaved (k s1) \/ saved E a false (k s1)) ->
  unsaved (bind record_request (fun _ => k) s)
  \/ saved E a true (bind record_request (fun _ => k) s).
Proof.
  intro Hk.
  destruct (record_request s) as [[r s1] e1] eqn:Hr.
  assert (exists ts, r = Ret tt /\ e1 = [EvWriteRateLimit ts]) as (ts & -> & ->).
  { unfold record_request, bind, time_time, load_timestamps, write_timestamps in Hr.
    injection Hr as <- _ <-. eauto. }
  rewrite (bind_run _ _ s s1 tt _ Hr).
  destruct (Hk s1) as [[Hres He]|(pre & out & md & Hres & He & Hpre & Hlog & Hpath)].
  - left. split; [exact Hres|].
    unfold events_of at 1. cbn [snd]. now rewrite existsb_app, He.
  - right. exists (EvWriteRateLimit ts :: pre), out, md.
    split; [exact Hres|]. split.
    { unfold events_of at 1. cbn [snd]. now rewrite He. }
    split; [exact Hpre|]. split; [reflexivity | exact Hpath].
Qed.

Lemma main_unsaved_or_saved (E : env) (a : args) (s : state) :
  unsaved (main E a s) \/ saved E a true (main E a s).
Proof.
  unfold main.
  apply unsaved_or_saved_bind; [auto with frames|auto with quiet|]. intros _ s1.
  destruct (negb (opt_str_truthy (input a))).
  { left. split; [intros u; discriminate | reflexivity]. }
  apply unsaved_or_saved_bind;
    [auto with frames | unfold check_rate_limit; quiet_tac |]. intros _ s2.
  apply unsaved_or_saved_bind;
    [auto with frames | unfold _is_local_file; quiet_tac |]. intros b s3.
  apply unsaved_or_saved_bind.
  { frames_tac. }
  { unfold _extract_text_from_pdf, _extract_text_from_url, _download_pdf_text,
      _launch_browser, _wait_for_cloudflare.
    quiet_tac; now apply cloudflare_loop_quiet. }
  intros acq s4.
  apply unsaved_or_saved_bind;
    [auto with frames | unfold summarize_content; quiet_tac |]. intros summary s5.
  apply record_then_saved. intros s6.
  unfold to_markdown.
  destruct summary as [| | |sm| |];
    try (left; split; [intros u; discriminate | reflexivity]).
  right. rewrite bind_ret_l. unfold saved, chosen_path.
  destruct (opt_str_truthy (output a)) eqn:Hout.
  - rewrite bind_ret_l.
    destruct (output a) as [o|] eqn:Ho; [|discriminate].
    eexists [], o, _. split; [reflexivity|]. split; [reflexivity|].
    now repeat split.
  - eexists [EvMkdir (script_dir E ++ "/output")], _, _.
    split; [reflexivity|]. split; [reflexivity|].
    split; [reflexivity|]. split; [reflexivity|]. eexists. reflexivity.
Qed.

(** X18.  The output is written only by a run that succeeds, once, as its
    last act but for the closing message, and only after the request has
    been recorded in the rate-limit log: a run of [main] that returns ends
    with creating the parent directory, writing the document and printing
    where it is, with no output written before and the log written before;
    the path is the [--output] argument when one is given and not empty,
    otherwise a slug with the extension [.md] in [output] beside the
    script.  A run that does not return writes no output. *)
Theorem main_saves_last (E : env) (a : args) (s : state) :
  (res_of (main E a s) = Ret tt /\
   exists pre out md,
     events_of (main E a s) = (pre ++ saving E out md)%list
     /\ existsb is_output_write pre = false
     /\ existsb is_rate_limit_write pre = true
     /\ chosen_path E a out)
  \/ (res_of (main E a s) <> Ret tt
      /\ existsb is_output_write (events_of (main E a s)) = false).
Proof.
  destruct (main_unsaved_or_saved E a s)
    as [[Hres He]|(pre & out & md & Hres & He & Hpre & Hlog & Hpath)].
  - right. split; [apply Hres | exact He].
  - left. split; [exact Hres|]. now exists pre, out, md.
Qed.

(** ** A summary that is not a string *)

Lemma bind_reaches (p : event -> bool) {A B} (m : M A) (f : A -> M B) (s : state)
      (e : event) :
  quiet p m -> p e = true -> In e (events_of (bind m f s)) ->
  exists x s1 e1, m s = (Ret x, s1, e1) /\ In e (events_of (f x s1)).
Proof.
  intros Hq He Hin. apply in_events_bind in Hin as [Hin|Hin]; [|exact Hin].
  apply (quiet_in _ _ _ (Hq s)) in Hin. congruence.
Qed.

(** The one request [summarize_content] posts carries the content and the
    proxies that [_get_proxy] returned. *)
Lemma summarize_content_posts (E : env) (content : option string) (dbg : bool)
      (s : state) (payload proxies : json) :
  In (EvHttpPost payload proxies) (events_of (summarize_content E content dbg s)) ->
  payload = payload_of content
  /\ exists s1 e1, _get_proxy E s = (Ret proxies, s1, e1).
Proof.
  rewrite summarize_content_run.
  pose proof (quiet_get_proxy is_post E s) as Hq.
  destruct (_get_proxy E s) as [[[px|c|x] s1] e1];
    unfold events_of in Hq; cbn [snd] in Hq.
  2, 3: unfold events_of; cbn [snd]; intros [Hin|Hin]; [discriminate|];
        apply (quiet_in _ _ _ Hq) in Hin; discriminate.
  assert (forall tail,
             existsb is_post tail = false ->
             In (EvHttpPost payload proxies)
                ((EvStdout MsgRequesting :: e1
                  ++ [EvHttpPost (payload_of content) px]) ++ tail)%list ->
             payload = payload_of content
             /\ exists s1' e1', (Ret px, s1, e1) = (Ret proxies, s1', e1')) as Hpre.
  { intros tail Ht Hin. apply in_app_or in Hin as [Hin|Hin].
    - destruct Hin as [Hin|Hin]; [discriminate|].
      apply in_app_or in Hin as [Hin|Hin].
      + apply (quiet_in _ _ _ Hq) in Hin. discriminate.
      + destruct Hin as [[= <- <-]|[]]. split; eauto.
    - apply (quiet_in _ _ _ Ht) in Hin. discriminate. }
  cbv zeta.
  destruct (http_post E (payload_of content) px) as [resp|].
  2: { unfold events_of. cbn [snd]. intro Hin. apply (Hpre []); [reflexivity|].
       now rewrite app_nil_r. }
  destruct dbg; destruct (status_code resp =? 429)%Z; destruct (ok resp);
    destruct (resp_json resp) as [[| | | | |kv]|];
    try destruct (truthy (dict_get kv "summary" (JStr "")));
    unfold events_of; cbn [snd negb]; intro Hin;
    first [ refine (Hpre _ _ Hin); reflexivity
          | apply (Hpre []); [reflexivity | now rewrite app_nil_r] ].
Qed.

Lemma recorded_then_raises_bind {A} (m : M A) (f : A -> M unit) (s : state)
      (e : event) :
  quiet is_post m -> is_post e = true -> In e (events_of (bind m f s)) ->
  (forall x s1, In e (events_of (f x s1)) ->
                res_of (f x s1) = Raise AttributeError
                /\ existsb is_rate_limit_write (events_of (f x s1)) = true) ->
  res_of (bind m f s) = Raise AttributeError
  /\ existsb is_rate_limit_write (events_of (bind m f s)) = true.
Proof.
  intros Hq He Hin Hk.
  destruct (bind_reaches is_post m f s e Hq He Hin) as (x & s1 & e1 & Hm & Hin1).
  rewrite (bind_run m f s s1 x e1 Hm).
  destruct (Hk x s1 Hin1) as [Hres Hw]. split; [exact Hres|].
  unfold events_of at 1. cbn [snd]. rewrite existsb_app, Hw. apply orb_true_r.
Qed.

(** X19.  A summary that is truthy but not a string is not caught before
    the request is recorded: when the service answers the posted request
    with a success whose [summary] is, say, a number or a list, [main]
    writes the rate-limit log, then fails with [AttributeError] on
    [summary.strip()], and writes no output. *)
Theorem non_string_summary_is_recorded_then_fails
        (E : env) (a : args) (s : state) (payload proxies : json)
        (resp : response) (kv : list (string * json)) :
  In (EvHttpPost payload proxies) (events_of (main E a s)) ->
  http_post E payload proxies = Some resp ->
  status_code resp <> 429%Z ->
  ok resp = true ->
  resp_json resp = Some (JObj kv) ->
  truthy (dict_get kv "summary" (JStr "")) = true ->
  (forall t, dict_get kv "summary" (JStr "") <> JStr t) ->
  res_of (main E a s) = Raise AttributeError
  /\ existsb is_rate_limit_write (events_of (main E a s)) = true
  /\ existsb is_output_write (events_of (main E a s)) = false.
Proof.
  intros Hin Hpost H429 Hok Hjson Htr Hns.
  assert (res_of (main E a s) = Raise AttributeError
          /\ existsb is_rate_limit_write (events_of (main E a s)) = true) as [Hres Hw].
  { unfold main in *.
    apply (recorded_then_raises_bind _ _ _ (EvHttpPost payload proxies));
      [auto with quiet | reflexivity | exact Hin |]. clear Hin. intros _ s1 Hin.
    destruct (negb (opt_str_truthy (input a))).
    { cbn in Hin. destruct Hin as [Hin|[]]. discriminate. }
    apply (recorded_then_raises_bind _ _ _ (EvHttpPost payload proxies));
      [auto with quiet | reflexivity | exact Hin |]. clear Hin. intros _ s2 Hin.
    apply (recorded_then_raises_bind _ _ _ (EvHttpPost payload proxies));
      [auto with quiet | reflexivity | exact Hin |]. clear Hin. intros b s3 Hin.
    apply (recorded_then_raises_bind _ _ _ (EvHttpPost payload proxies));
      [quiet_tac | reflexivity | exact Hin |]. clear Hin. intros acq s4 Hin.
    apply in_events_bind in Hin as [Hin|(x & s5 & e5 & Hs & Hin)].
    - destruct (summarize_content_posts _ _ _ _ _ _ Hin) as (-> & s5 & e5 & Hgp).
      pose proof (summarize_content_run E (fst (fst acq)) (debug a) s4) as Hrun.
      rewrite Hgp in Hrun. cbv zeta in Hrun. rewrite Hpost in Hrun.
      apply Z.eqb_neq in H429. rewrite H429, Hok, Hjson, Htr in Hrun.
      cbn [negb] in Hrun.
      rewrite (bind_run _ _ _ _ _ _ Hrun).
      destruct (record_request s5) as [[r s6] e6] eqn:Hr.
      assert (exists ts, r = Ret tt /\ e6 = [EvWriteRateLimit ts]) as (ts & -> & ->).
      { unfold record_request, bind, time_time, load_timestamps, write_timestamps in Hr.
        injection Hr as <- _ <-. eauto. }
      rewrite (bind_run _ _ _ _ _ _ Hr).
      assert (forall url t, to_markdown E (dict_get kv "summary" (JStr "")) url t s6
                            = (Raise AttributeError, s6, [])) as Hmd.
      { intros url t. unfold to_markdown.
        destruct (dict_get kv "summary" (JStr "")) as [| | |sm| |];
          try reflexivity. now destruct (Hns sm). }
      rewrite (bind_raise _ _ _ _ _ _ (Hmd _ _)).
      unfold res_of, state_of, events_of. cbn [fst snd]. split; [reflexivity|].
      rewrite existsb_app. cbn. apply orb_true_r.
    - assert (quiet is_post
                (bind record_request (fun _ =>
                   bind (to_markdown E x (snd acq) (snd (fst acq))) (fun md =>
                   bind (if opt_str_truthy (output a)
                         then ret match output a with Some o => o | None => "" end
                         else bind (emit (EvMkdir (script_dir E ++ "/output")))
                                   (fun _ => ret ((script_dir E ++ "/output") ++ "/"
                                                  ++ slugify
                                                       (if opt_str_truthy (snd (fst acq))
                                                        then match snd (fst acq) with
                                                             | Some t => t
                                                             | None => ""
                                                             end
                                                        else "summary") ++ ".md")))
                        (fun out_path =>
                   bind (emit (EvMkdir (path_parent E out_path))) (fun _ =>
                   bind (emit (EvWriteOutput out_path md)) (fun _ =>
                   print (MsgSaved out_path)))))))) as Hq.
      { unfold record_request. quiet_tac. }
      apply (quiet_in _ _ _ (Hq s5)) in Hin. discriminate. }
  split; [exact Hres|]. split; [exact Hw|].
  destruct (main_unsaved_or_saved E a s) as [[_ He]|(pre & out & md & Hr & _)];
    [exact He | congruence].
Qed.

Lemma non_string_summary_is_recorded_then_fails_witness :
  In (EvHttpPost (JStr (Py.strip long_text)) JNull)
     (events_of (main numeric_summary_env (sample_args "paper.pdf") fresh_state))
  /\ http_post numeric_summary_env (JStr (Py.strip long_text)) JNull
     = Some (sample_response 200 (Some (JObj [("summary", JNum 7%Q)])) None)
  /\ res_of (main numeric_summary_env (sample_args "paper.pdf") fresh_state)
     = Raise AttributeError
  /\ existsb is_rate_limit_write
       (events_of (main numeric_summary_env (sample_args "paper.pdf") fresh_state))
     = true
  /\ existsb is_output_write
       (events_of (main numeric_summary_env (sample_args "paper.pdf") fresh_state))
     = false.
Proof.
  assert (In (EvHttpPost (JStr (Py.strip long_text)) JNull)
             (events_of (main numeric_summary_env (sample_args "paper.pdf")
                              fresh_state))) as Hin
      by (vm_compute; do 6 right; left; reflexivity).
  assert (forall t, dict_get [("summary", JNum 7%Q)] "summary" (JStr "") <> JStr t)
    as Hns by (intros t; discriminate).
  split; [exact Hin|]. split; [reflexivity|].
  exact (non_string_summary_is_recorded_then_fails
           numeric_summary_env (sample_args "paper.pdf") fresh_state
           (JStr (Py.strip long_text)) JNull
           (sample_response 200 (Some (JObj [("summary", JNum 7%Q)])) None)
           [("summary", JNum 7%Q)]
           Hin eq_refl ltac:(discriminate) eq_refl eq_refl eq_refl Hns).
Defined.

(** ** Local files *)

Lemma bind_stays (p : event -> bool) {A B} (m : M A) (f : A -> M B) (s : state)
      (e : event) :
  (forall x, quiet p (f x)) -> p e = true -> In e (events_of (bind m f s)) ->
  In e (events_of (m s)).
Proof.
  intros Hq He Hin.
  apply in_events_bind in Hin as [Hin|(x & s1 & e1 & _ & Hin)]; [exact Hin|].
  apply (quiet_in _ _ _ (Hq x s1)) in Hin. congruence.
Qed.

Lemma bind_run_res {A B} (m : M A) (f : A -> M B) (s s1 : state) (a : A)
      (e1 : list event) :
  m s = (Ret a, s1, e1) -> res_of (bind m f s) = res_of (f a s1).
Proof. intro Hm. now rewrite (bind_run m f s s1 a e1 Hm). Qed.

Lemma bind_run_events {A B} (m : M A) (f : A -> M B) (s s1 : state) (a : A)
      (e1 : list event) :
  m s = (Ret a, s1, e1) ->
  events_of (bind m f s) = (e1 ++ events_of (f a s1))%list.
Proof. intro Hm. now rewrite (bind_run m f s s1 a e1 Hm). Qed.

Lemma is_local_file_run_local (E : env) (i : string) (s : state) :
  ~ has_url_scheme i -> on_disk E (expanduser E i) ->
  _is_local_file E i s = (Ret true, s, [EvFsExists (expanduser E i)]).
Proof.
  intros Hs Hd. unfold _is_local_file.
  destruct (Py.startswith i "http://" || Py.startswith i "https://") eqn:Hp.
  - apply has_url_scheme_iff in Hp. contradiction.
  - unfold on_disk in Hd. unfold bind, emit, ret. cbn [fst snd app].
    destruct (fs_size E (expanduser E i)); [reflexivity | congruence].
Qed.

Lemma extract_text_from_pdf_missing (E : env) (path : string) (s : state) :
  fs_size E (resolve E path) = None ->
  _extract_text_from_pdf E path s
  = (Exit 1%Z, s, [EvFsExists (resolve E path);
                   EvStderr (MsgFileNotFound (resolve E path))]).
Proof. intro Hr. unfold _extract_text_from_pdf. cbv zeta. now rewrite Hr. Qed.

Lemma extract_text_from_pdf_returns (E : env) (path : string) (s s1 : state)
      (c : string) (e1 : list event) :
  _extract_text_from_pdf E path s = (Ret c, s1, e1) ->
  exists sz text,
    fs_size E (resolve E path) = Some sz
    /\ (sz <= size_ceiling)%Z
    /\ local_pdf_text E (resolve E path) = Some text
    /\ c = Py.strip text.
Proof.
  unfold _extract_text_from_pdf. cbv zeta.
  destruct (fs_size E (resolve E path)) as [sz|] eqn:Hsz; [|discriminate].
  destruct (50 * 1024 * 1024 <? sz)%Z eqn:Hbig; [discriminate|].
  destruct (local_pdf_text E (resolve E path)) as [text|] eqn:Htext;
    [|discriminate].
  intro Hrun. exists sz, text.
  split; [reflexivity|]. split; [apply Z.ltb_ge in Hbig; exact Hbig|].
  split; [reflexivity|].
  destruct (pdf_low_content text); unfold bind, emit, eprint, print, ret in Hrun;
    cbn [fst snd] in Hrun; now injection Hrun as <- _ _.
Qed.

Lemma check_rate_limit_under_quota_run (s : state) :
  (List.length (prune (clock s) 3600 (history s)) < MAX_REQUESTS_PER_HOUR)%nat ->
  exists s1 e1,
    check_rate_limit s = (Ret tt, s1, e1) /\ existsb acts_outside e1 = false.
Proof.
  rewrite check_rate_limit_run.
  destruct (prune (clock s) 3600 (history s)) as [|t rest]; [eauto|].
  intro Hq. apply Nat.leb_gt in Hq. cbv zeta. rewrite Hq.
  destruct (Py.Qltb (clock s - Py.max_from t rest) MIN_INTERVAL_SECONDS);
    eexists _, _; split; reflexivity.
Qed.

(** X20.  A local file is looked up twice, under two names: it is taken
    for a local file when the path with [~] expanded exists, and then read
    under the resolved path as given.  When the first exists and the second
    does not, a run that passes the rate limiter ends with status 1 after
    the two look-ups and a "file not found" message, having done nothing
    else outside the process. *)
Theorem local_file_must_resolve (E : env) (a : args) (s : state) (i : string) :
  input a = Some i ->
  i <> EmptyString ->
  ~ has_url_scheme i ->
  on_disk E (expanduser E i) ->
  fs_size E (resolve E i) = None ->
  (List.length (prune (clock s) 3600 (history s)) < MAX_REQUESTS_PER_HOUR)%nat ->
  res_of (main E a s) = Exit 1%Z
  /\ exists waits,
      events_of (main E a s)
      = (waits ++ [EvFsExists (expanduser E i); EvFsExists (resolve E i);
                   EvStderr (MsgFileNotFound (resolve E i))])%list
      /\ existsb acts_outside waits = false.
Proof.
  intros Hi Hne Hs Hd Hr Hq.
  assert (Py.str_truthy i = true) as Ht
      by (destruct i; [now destruct Hne | reflexivity]).
  unfold main. rewrite Hi. cbv zeta.
  change (opt_str_truthy (Some i)) with (Py.str_truthy i). rewrite Ht. cbn [negb].
  pose (s0 := {| clock := clock s; rl_file := rl_file s;
                 proxy_force := use_proxy a; draws := draws s |}).
  assert (set_proxy_force (use_proxy a) s = (Ret tt, s0, [])) as H0 by reflexivity.
  destruct (check_rate_limit_under_quota_run s0 Hq) as (s1 & e1 & Hc & He1).
  pose proof (is_local_file_run_local E i s1 Hs Hd) as Hl.
  pose proof (extract_text_from_pdf_missing E i s1 Hr) as Hx.
  rewrite (bind_run_res _ _ _ _ _ _ H0), (bind_run_events _ _ _ _ _ _ H0).
  rewrite (bind_run_res _ _ _ _ _ _ Hc), (bind_run_events _ _ _ _ _ _ Hc).
  rewrite (bind_run_res _ _ _ _ _ _ Hl), (bind_run_events _ _ _ _ _ _ Hl).
  rewrite (bind_exit _ _ _ _ _ _ (bind_exit _ _ _ _ _ _ Hx)).
  split; [reflexivity|]. exists e1. split; [|exact He1].
  unfold events_of. cbn [snd app]. reflexivity.
Qed.

Lemma local_file_must_resolve_witness :
  input (sample_args "~/paper.pdf") = Some "~/paper.pdf"
  /\ "~/paper.pdf" <> EmptyString
  /\ ~ has_url_scheme "~/paper.pdf"
  /\ on_disk tilde_env (expanduser tilde_env "~/paper.pdf")
  /\ fs_size tilde_env (resolve tilde_env "~/paper.pdf") = None
  /\ (List.length (prune (clock fresh_state) 3600 (history fresh_state))
      < MAX_REQUESTS_PER_HOUR)%nat
  /\ res_of (main tilde_env (sample_args "~/paper.pdf") fresh_state) = Exit 1%Z
  /\ exists waits,
      events_of (main tilde_env (sample_args "~/paper.pdf") fresh_state)
      = (waits ++ [EvFsExists (expanduser tilde_env "~/paper.pdf");
                   EvFsExists (resolve tilde_env "~/paper.pdf");
                   EvStderr (MsgFileNotFound (resolve tilde_env "~/paper.pdf"))])%list
      /\ existsb acts_outside waits = false.
Proof.
  assert ("~/paper.pdf" <> EmptyString) as Hne by discriminate.
  assert (~ has_url_scheme "~/paper.pdf") as Hs.
  { intro H. apply has_url_scheme_iff in H. discriminate. }
  assert (on_disk tilde_env (expanduser tilde_env "~/paper.pdf")) as Hd
      by (unfold on_disk; vm_compute; discriminate).
  assert (List.length (prune (clock fresh_state) 3600 (history fresh_state))
          < MAX_REQUESTS_PER_HOUR)%nat as Hq by (vm_compute; lia).
  split; [reflexivity|]. split; [exact Hne|]. split; [exact Hs|].
  split; [exact Hd|]. split; [reflexivity|]. split; [exact Hq|].
  exact (local_file_must_resolve tilde_env (sample_args "~/paper.pdf") fresh_state
           "~/paper.pdf" eq_refl Hne Hs Hd eq_refl Hq).
Defined.

(** ** What a run posts and what it saves *)

(** A request of [main] carries the content acquired from the input. *)
Lemma main_post_inv (E : env) (a : args) (s : state) (payload proxies : json) :
  In (EvHttpPost payload proxies) (events_of (main E a s)) ->
  exists i b acq s2 s3 s4 e3 e4,
    input a = Some i
    /\ _is_local_file E i s2 = (Ret b, s3, e3)
    /\ acquired_from E i b s3 = (Ret acq, s4, e4)
    /\ payload = payload_of (fst (fst acq)).
Proof.
  intro Hin. unfold main in Hin.
  apply (bind_reaches is_post) in Hin as (u & s1 & e1 & _ & Hin);
    [|auto with quiet|reflexivity].
  destruct (input a) as [i|] eqn:Hi.
  2: { cbn in Hin. destruct Hin as [Hin|[]]. discriminate. }
  cbv beta iota zeta in Hin.
  destruct (negb (opt_str_truthy (Some i))).
  { cbn in Hin. destruct Hin as [Hin|[]]. discriminate. }
  apply (bind_reaches is_post) in Hin as (u2 & s2 & e2 & _ & Hin);
    [|auto with quiet|reflexivity].
  apply (bind_reaches is_post) in Hin as (b & s3 & e3 & Hb & Hin);
    [|auto with quiet|reflexivity].
  apply (bind_reaches is_post) in Hin as (acq & s4 & e4 & Hacq & Hin);
    [|quiet_tac|reflexivity].
  apply (bind_stays is_post) in Hin;
    [|intro; unfold record_request, to_markdown; quiet_tac|reflexivity].
  apply summarize_content_posts in Hin as [-> _].
  exists i, b, acq, s2, s3, s4, e3, e4.
  split; [reflexivity|]. split; [exact Hb|]. split; [exact Hacq | reflexivity].
Qed.

(** A document that [main] writes is the Markdown of a summary that is a
    string, under the address and title acquired from the input, at the
    path [main] chooses. *)
Lemma main_output_inv (E : env) (a : args) (s : state) (out md : string) :
  In (EvWriteOutput out md) (events_of (main E a s)) ->
  exists i b acq s2 s3 s4 e3 e4 sm,
    input a = Some i
    /\ _is_local_file E i s2 = (Ret b, s3, e3)
    /\ acquired_from E i b s3 = (Ret acq, s4, e4)
    /\ (forall s0, to_markdown E (JStr sm) (snd acq) (snd (fst acq)) s0
                   = (Ret md, s0, []))
    /\ (if opt_str_truthy (output a) then output a = Some out
        else out = (script_dir E ++ "/output") ++ "/"
                   ++ slugify (title_or_summary (snd (fst acq))) ++ ".md").
Proof.
  intro Hin. unfold main in Hin.
  apply (bind_reaches is_output_write) in Hin as (u & s1 & e1 & _ & Hin);
    [|auto with quiet|reflexivity].
  destruct (input a) as [i|] eqn:Hi.
  2: { cbn in Hin. destruct Hin as [Hin|[]]. discriminate. }
  cbv beta iota zeta in Hin.
  destruct (negb (opt_str_truthy (Some i))).
  { cbn in Hin. destruct Hin as [Hin|[]]. discriminate. }
  apply (bind_reaches is_output_write) in Hin as (u2 & s2 & e2 & _ & Hin);
    [|unfold check_rate_limit; quiet_tac|reflexivity].
  apply (bind_reaches is_output_write) in Hin as (b & s3 & e3 & Hb & Hin);
    [|unfold _is_local_file; quiet_tac|reflexivity].
  apply (bind_reaches is_output_write) in Hin as (acq & s4 & e4 & Hacq & Hin);
    [|unfold _extract_text_from_pdf, _extract_text_from_url, _download_pdf_text,
        _launch_browser, _wait_for_cloudflare;
      quiet_tac; now apply cloudflare_loop_quiet
     |reflexivity].
  apply (bind_reaches is_output_write) in Hin as (x & s5 & e5 & _ & Hin);
    [|unfold summarize_content; quiet_tac|reflexivity].
  apply (bind_reaches is_output_write) in Hin as (u6 & s6 & e6 & _ & Hin);
    [|unfold record_request; quiet_tac|reflexivity].
  apply (bind_reaches is_output_write) in Hin as (md0 & s7 & e7 & Hmd & Hin);
    [|unfold to_markdown; quiet_tac|reflexivity].
  unfold to_markdown in Hmd.
  destruct x as [| | |sm| |]; try discriminate.
  unfold ret in Hmd. injection Hmd as <- _ _.
  exists i, b, acq, s2, s3, s4, e3, e4, sm.
  split; [reflexivity|]. split; [exact Hb|]. split; [exact Hacq|].
  cbv beta in Hin.
  destruct (opt_str_truthy (output a)) eqn:Ho.
  - rewrite bind_ret_l in Hin. rewrite !events_bind_emit in Hin.
    destruct Hin as [Hin|[Hin|Hin]]; [discriminate| |].
    2: { cbn in Hin. destruct Hin as [Hin|[]]. discriminate. }
    injection Hin as Hout <-.
    split; [intro s0; reflexivity|].
    destruct (output a) as [o|]; [now subst o | discriminate].
  - unfold bind, emit, ret, print, events_of in Hin. cbn [snd app] in Hin.
    destruct Hin as [Hin|[Hin|[Hin|[Hin|[]]]]]; try discriminate.
    injection Hin as Hout <-.
    split; [intro s0; reflexivity|].
    symmetry. exact Hout.
Qed.

Lemma quiet_bind_post (p : event -> bool) {A B} (post : A -> Prop)
      (m : M A) (f : A -> M B) :
  quiet p m ->
  (forall s a s1 e1, m s = (Ret a, s1, e1) -> post a) ->
  (forall a, post a -> quiet p (f a)) ->
  quiet p (bind m f).
Proof.
  intros Hm Hpost Hf s. specialize (Hm s). unfold bind, events_of in *.
  destruct (m s) as [[r s1] e1] eqn:Hms. cbn [snd] in Hm.
  destruct r as [a|c|x]; cbn [snd]; try assumption.
  specialize (Hf a (Hpost s a s1 e1 Hms) s1). unfold events_of in Hf.
  destruct (f a s1) as [[r2 s2] e2]. cbn [snd] in *.
  now rewrite existsb_app, Hm, Hf.
Qed.

(** X21.  A local file never touches the web but for the one request to
    the service: with an input that has no URL scheme and exists once [~]
    is expanded, [main] starts no browser and downloads nothing; whatever
    it posts is the text of the file at the resolved path, of at most the
    size ceiling, with the surrounding whitespace stripped; and whatever it
    writes is the Markdown of a summary under the source
    [file://<resolved path>], with no page title. *)
Theorem local_file_is_read_and_posted (E : env) (a : args) (s : state) (i : string) :
  input a = Some i ->
  ~ has_url_scheme i ->
  on_disk E (expanduser E i) ->
  existsb is_browser_event (events_of (main E a s)) = false
  /\ existsb is_download_event (events_of (main E a s)) = false
  /\ (forall payload proxies,
         In (EvHttpPost payload proxies) (events_of (main E a s)) ->
         exists sz text,
           fs_size E (resolve E i) = Some sz
           /\ (sz <= size_ceiling)%Z
           /\ local_pdf_text E (resolve E i) = Some text
           /\ payload = JStr (Py.strip text))
  /\ (forall out md,
         In (EvWriteOutput out md) (events_of (main E a s)) ->
         exists sm,
           forall s0, to_markdown E (JStr sm) ("file://" ++ resolve E i) None s0
                      = (Ret md, s0, [])).
Proof.
  intros Hi Hs Hd.
  assert (forall p, p = is_browser_event \/ p = is_download_event ->
                    quiet p (main E a)) as Hquiet.
  { intros p Hp. unfold main. rewrite Hi. cbv zeta.
    apply quiet_bind; [auto with quiet|]. intros _.
    destruct (negb (opt_str_truthy (Some i)));
      [destruct Hp as [-> | ->]; quiet_tac|].
    apply quiet_bind;
      [unfold check_rate_limit; destruct Hp as [-> | ->]; quiet_tac|]. intros _.
    apply (quiet_bind_post p (fun b => b = true)).
    { unfold _is_local_file. destruct Hp as [-> | ->]; quiet_tac. }
    { intros s0 b s1 e1. rewrite (is_local_file_run_local E i s0 Hs Hd).
      now intros [= <- _ _]. }
    intros b ->. cbv beta iota.
    unfold _extract_text_from_pdf, summarize_content, record_request, to_markdown.
    destruct Hp as [-> | ->]; quiet_tac. }
  assert (forall b acq s2 s3 s4 e3 e4,
             _is_local_file E i s2 = (Ret b, s3, e3) ->
             acquired_from E i b s3 = (Ret acq, s4, e4) ->
             exists sz text,
               fs_size E (resolve E i) = Some sz
               /\ (sz <= size_ceiling)%Z
               /\ local_pdf_text E (resolve E i) = Some text
               /\ acq = (Some (Py.strip text), None, "file://" ++ resolve E i))
    as Hacquired.
  { intros b acq s2 s3 s4 e3 e4 Hb Hacq.
    rewrite (is_local_file_run_local E i s2 Hs Hd) in Hb.
    injection Hb as <- _ _. unfold acquired_from in Hacq.
    apply bind_ret_inv in Hacq as (c & s' & e' & e'' & Hx & Hret & _).
    unfold ret in Hret. injection Hret as <- _ _.
    apply extract_text_from_pdf_returns in Hx
      as (sz & text & Hsz & Hle & Htext & ->).
    now exists sz, text. }
  split; [apply (Hquiet is_browser_event); now left|].
  split; [apply (Hquiet is_download_event); now right|].
  split.
  - intros payload proxies Hin.
    apply main_post_inv in Hin
      as (i' & b & acq & s2 & s3 & s4 & e3 & e4 & Hi' & Hb & Hacq & ->).
    rewrite Hi in Hi'. injection Hi' as <-.
    destruct (Hacquired _ _ _ _ _ _ _ Hb Hacq) as (sz & text & Hsz & Hle & Htext & ->).
    now exists sz, text.
  - intros out md Hin.
    apply main_output_inv in Hin
      as (i' & b & acq & s2 & s3 & s4 & e3 & e4 & sm & Hi' & Hb & Hacq & Hmd & _).
    rewrite Hi in Hi'. injection Hi' as <-.
    destruct (Hacquired _ _ _ _ _ _ _ Hb Hacq) as (sz & text & _ & _ & _ & ->).
    exists sm. exact Hmd.
Qed.

Lemma local_file_is_read_and_posted_witness :
  input (sample_args "paper.pdf") = Some "paper.pdf"
  /\ ~ has_url_scheme "paper.pdf"
  /\ on_disk sample_web_env (expanduser sample_web_env "paper.pdf")
  /\ existsb is_browser_event
       (events_of (main sample_web_env (sample_args "paper.pdf") fresh_state))
     = false
  /\ existsb is_download_event
       (events_of (main sample_web_env (sample_args "paper.pdf") fresh_state))
     = false.
Proof.
  assert (~ has_url_scheme "paper.pdf") as Hs.
  { intro H. apply has_url_scheme_iff in H. discriminate. }
  assert (on_disk sample_web_env (expanduser sample_web_env "paper.pdf")) as Hd
      by (unfold on_disk; vm_compute; discriminate).
  split; [reflexivity|]. split; [exact Hs|]. split; [exact Hd|].
  pose proof (local_file_is_read_and_posted
                sample_web_env (sample_args "paper.pdf") fresh_state "paper.pdf"
                eq_refl Hs Hd) as H.
  split; [exact (proj1 H) | exact (proj1 (proj2 H))].
Defined.

(** ** Inputs without a page title *)

Lemma is_local_file_run_url (E : env) (i : string) (s : state) :
  has_url_scheme i -> _is_local_file E i s = (Ret false, s, []).
Proof.
  intro Hs. apply has_url_scheme_iff in Hs. unfold _is_local_file.
  now rewrite Hs.
Qed.

Lemma rewrite_gives_scheme (url p : string) :
  _rewrite_to_pdf_url url = Some p ->
  has_url_scheme url /\ opt_str_truthy (Some p) = true.
Proof.
  assert (forall lit m,
             Regex.re_match
               (Regex.Seq (Regex.Lit "http")
                  (Regex.Seq (Regex.Opt (Regex.Lit "s"))
                     (Regex.Seq (Regex.Lit ("://" ++ lit)) arxiv_tail))) url
             = Some m ->
             has_url_scheme url) as Hscheme.
  { intros lit m Hm.
    apply arxiv_pattern_inv in Hm as (sch & g & rest & [-> | ->] & -> & _).
    - left. eexists. reflexivity.
    - right. eexists. reflexivity. }
  unfold _rewrite_to_pdf_url. intro H.
  destruct (Regex.re_match arxiv_abs_pattern url) as [m|] eqn:Habs.
  - injection H as <-. split; [|reflexivity].
    exact (Hscheme "arxiv.org/abs/" m Habs).
  - destruct (Regex.re_match arxiv_html_pattern url) as [m|] eqn:Hhtml;
      [|discriminate].
    injection H as <-. split; [|reflexivity].
    exact (Hscheme "arxiv.org/html/" m Hhtml).
Qed.

(** X22.  A local file and an arXiv address have no page title, so their
    documents are all headed "Untitled Article" and, without [--output],
    all go to the same file, [output/summary.md] beside the script. *)
Theorem untitled_inputs_share_one_output (E : env) (a : args) (s : state)
        (i out md : string) :
  input a = Some i ->
  (~ has_url_scheme i /\ on_disk E (expanduser E i))
  \/ _rewrite_to_pdf_url i <> None ->
  In (EvWriteOutput out md) (events_of (main E a s)) ->
  (exists rest, md = "# Untitled Article" ++ Py.nl ++ rest)
  /\ (opt_str_truthy (output a) = false ->
      out = (script_dir E ++ "/output") ++ "/summary.md").
Proof.
  intros Hi Hkind Hin.
  apply main_output_inv in Hin
    as (i' & b & acq & s2 & s3 & s4 & e3 & e4 & sm & Hi' & Hb & Hacq & Hmd & Hout).
  rewrite Hi in Hi'. injection Hi' as <-.
  assert (snd (fst acq) = None) as Htitle.
  { destruct Hkind as [[Hs Hd]|Hre].
    - rewrite (is_local_file_run_local E i s2 Hs Hd) in Hb.
      injection Hb as <- _ _. unfold acquired_from in Hacq.
      apply bind_ret_inv in Hacq as (c & s' & e' & e'' & _ & Hret & _).
      unfold ret in Hret. now injection Hret as <- _ _.
    - destruct (_rewrite_to_pdf_url i) as [p|] eqn:Hp; [|now destruct Hre].
      destruct (rewrite_gives_scheme i p Hp) as [Hs Ht].
      rewrite (is_local_file_run_url E i s2 Hs) in Hb.
      injection Hb as <- _ _. unfold acquired_from in Hacq.
      apply bind_ret_inv in Hacq as (ctp & s' & e' & e'' & Hx & Hret & _).
      unfold ret in Hret. injection Hret as <- _ _. cbn [fst snd].
      unfold _extract_text_from_url in Hx. cbv zeta in Hx. rewrite Hp, Ht in Hx.
      rewrite download_pdf_text_run in Hx.
      destruct (_get_proxy E s3) as [[[px|c|x] s5] e5]; try discriminate.
      cbv zeta in Hx.
      destruct (http_get E p px) as [resp|]; [|discriminate].
      destruct (negb (ok resp)); [discriminate|].
      destruct (resp_pdf_text resp); [|discriminate].
      now injection Hx as <- _ _. }
  rewrite Htitle in *. split.
  - specialize (Hmd s). unfold to_markdown, ret in Hmd.
    injection Hmd as <-. eexists. reflexivity.
  - intro Ho. rewrite Ho in Hout. rewrite Hout. reflexivity.
Qed.

Lemma untitled_inputs_share_one_output_witness :
  input (sample_args "https://arxiv.org/abs/1234.5678")
  = Some "https://arxiv.org/abs/1234.5678"
  /\ _rewrite_to_pdf_url "https://arxiv.org/abs/1234.5678" <> None
  /\ (exists md,
         In (EvWriteOutput "/opt/gistify/output/summary.md" md)
            (events_of (main sample_web_env
                             (sample_args "https://arxiv.org/abs/1234.5678")
                             fresh_state))
         /\ exists rest, md = "# Untitled Article" ++ Py.nl ++ rest).
Proof.
  assert (_rewrite_to_pdf_url "https://arxiv.org/abs/1234.5678" <> None) as Hre
      by (vm_compute; discriminate).
  split; [reflexivity|]. split; [exact Hre|].
  eexists.
  assert (In (EvWriteOutput "/opt/gistify/output/summary.md" _)
             (events_of (main sample_web_env
                              (sample_args "https://arxiv.org/abs/1234.5678")
                              fresh_state))) as Hin
      by (vm_compute; do 10 right; left; reflexivity).
  split; [exact Hin|].
  exact (proj1 (untitled_inputs_share_one_output
                  sample_web_env (sample_args "https://arxiv.org/abs/1234.5678")
                  fresh_state "https://arxiv.org/abs/1234.5678" _ _
                  eq_refl (or_intror Hre) Hin)).
Defined.

(** ** Web pages *)

(** When the browser path returns, it returns what the page held. *)
Lemma extract_text_from_url_browser_returns (E : env) (url : string) (s s1 : state)
      (ctp : option string * option string) (e1 : list event) :
  _rewrite_to_pdf_url url = None ->
  _extract_text_from_url E url s = (Ret ctp, s1, e1) ->
  exists proxy pg,
    browser_goto E url proxy = Some pg
    /\ ctp = (inner_text pg, doc_title pg).
Proof.
  intros Hre Hrun. unfold _extract_text_from_url in Hrun. cbv zeta in Hrun.
  rewrite Hre in Hrun. cbn [opt_str_truthy] in Hrun.
  apply bind_ret_inv in Hrun as (u1 & t1 & x1 & y1 & _ & Hrun & _).
  apply bind_ret_inv in Hrun as (proxy & t2 & x2 & y2 & _ & Hrun & _).
  apply bind_ret_inv in Hrun as (u3 & t3 & x3 & y3 & _ & Hrun & _).
  destruct (browser_goto E url proxy) as [pg|] eqn:Hgo; [|discriminate].
  exists proxy, pg. split; [exact Hgo|].
  apply bind_ret_inv in Hrun as (u4 & t4 & x4 & y4 & _ & Hrun & _).
  apply bind_ret_inv in Hrun as (u5 & t5 & x5 & y5 & _ & Hrun & _).
  apply bind_ret_inv in Hrun as (u6 & t6 & x6 & y6 & _ & Hrun & _).
  apply bind_ret_inv in Hrun as (u7 & t7 & x7 & y7 & _ & Hrun & _).
  apply bind_ret_inv in Hrun as (u8 & t8 & x8 & y8 & _ & Hrun & _).
  unfold ret in Hrun. now injection Hrun as <- _ _.
Qed.

(** X23.  A web page is passed on as it was read.  For an address with a
    URL scheme that is not rewritten to a PDF, whatever [main] posts is the
    inner text of the page the browser reached, unchanged and unchecked
    (null when the page has none); and whatever it writes is the Markdown
    of a summary under that address and the page's title, saved, without
    [--output], under the slug of that title. *)
Theorem web_page_is_posted_as_read (E : env) (a : args) (s : state) (i : string) :
  input a = Some i ->
  has_url_scheme i ->
  _rewrite_to_pdf_url i = None ->
  (forall payload proxies,
      In (EvHttpPost payload proxies) (events_of (main E a s)) ->
      exists proxy pg,
        browser_goto E i proxy = Some pg
        /\ payload = payload_of (inner_text pg))
  /\ (forall out md,
         In (EvWriteOutput out md) (events_of (main E a s)) ->
         exists proxy pg sm,
           browser_goto E i proxy = Some pg
           /\ (forall s0, to_markdown E (JStr sm) i (doc_title pg) s0
                          = (Ret md, s0, []))
           /\ (opt_str_truthy (output a) = false ->
               out = (script_dir E ++ "/output") ++ "/"
                     ++ slugify (title_or_summary (doc_title pg)) ++ ".md")).
Proof.
  intros Hi Hs Hre.
  assert (forall b acq s2 s3 s4 e3 e4,
             _is_local_file E i s2 = (Ret b, s3, e3) ->
             acquired_from E i b s3 = (Ret acq, s4, e4) ->
             exists proxy pg,
               browser_goto E i proxy = Some pg
               /\ acq = (inner_text pg, doc_title pg, i)) as Hacquired.
  { intros b acq s2 s3 s4 e3 e4 Hb Hacq.
    rewrite (is_local_file_run_url E i s2 Hs) in Hb.
    injection Hb as <- _ _. unfold acquired_from in Hacq.
    apply bind_ret_inv in Hacq as (ctp & s' & e' & e'' & Hx & Hret & _).
    unfold ret in Hret. injection Hret as <- _ _.
    apply (extract_text_from_url_browser_returns E i _ _ _ _ Hre) in Hx
      as (proxy & pg & Hgo & ->).
    now exists proxy, pg. }
  split.
  - intros payload proxies Hin.
    apply main_post_inv in Hin
      as (i' & b & acq & s2 & s3 & s4 & e3 & e4 & Hi' & Hb & Hacq & ->).
    rewrite Hi in Hi'. injection Hi' as <-.
    destruct (Hacquired _ _ _ _ _ _ _ Hb Hacq) as (proxy & pg & Hgo & ->).
    now exists proxy, pg.
  - intros out md Hin.
    apply main_output_inv in Hin
      as (i' & b & acq & s2 & s3 & s4 & e3 & e4 & sm & Hi' & Hb & Hacq & Hmd & Hout).
    rewrite Hi in Hi'. injection Hi' as <-.
    destruct (Hacquired _ _ _ _ _ _ _ Hb Hacq) as (proxy & pg & Hgo & ->).
    exists proxy, pg, sm. split; [exact Hgo|]. split; [exact Hmd|].
    intro Ho. rewrite Ho in Hout. exact Hout.
Qed.

Lemma web_page_is_posted_as_read_witness :
  input (sample_args "https://example.com/post") = Some "https://example.com/post"
  /\ has_url_scheme "https://example.com/post"
  /\ _rewrite_to_pdf_url "https://example.com/post" = None
  /\ In (EvHttpPost (JStr long_text) JNull)
        (events_of (main sample_web_env (sample_args "https://example.com/post")
                         fresh_state))
  /\ exists proxy pg,
      browser_goto sample_web_env "https://example.com/post" proxy = Some pg
      /\ JStr long_text = payload_of (inner_text pg).
Proof.
  assert (has_url_scheme "https://example.com/post") as Hs
      by (right; eexists; reflexivity).
  assert (_rewrite_to_pdf_url "https://example.com/post" = None) as Hre
      by (vm_compute; reflexivity).
  assert (In (EvHttpPost (JStr long_text) JNull)
             (events_of (main sample_web_env
                              (sample_args "https://example.com/post")
                              fresh_state))) as Hin
      by (vm_compute; do 8 right; left; reflexivity).
  split; [reflexivity|]. split; [exact Hs|]. split; [exact Hre|].
  split; [exact Hin|].
  exact (proj1 (web_page_is_posted_as_read
                  sample_web_env (sample_args "https://example.com/post")
                  fresh_state "https://example.com/post" eq_refl Hs Hre)
               _ _ Hin).
Defined.
